(** * Aura Store: point of sale and public catalogue

    A shallow embedding of the barcode classifier, the offline-first
    database layer, the order helpers, the public-catalogue cart and order
    form, the cart and the sale of the point of sale, the order fulfilment
    sequence and the summary of the sales report, followed by the
    properties proved about them.

    Conventions of the embedding.
    - JavaScript strings are [string]; a property that may be [undefined],
      [null] or absent is an [option].
    - Stock and quantities are integers ([Z]); prices and totals are exact
      rationals ([Q]).  [parseInt] and [parseFloat] are applied by the host to
      well-formed numerals and are the identity here; [NaN] and the infinities
      are outside the model.
    - An [async] method is a computation over the [World]: the state of the
      browser (the database object, [localStorage], the console, the toasts,
      the two page controllers) together with the state of the remote store.
      [await] on a remote query appends the query to the list of queries
      sent and asks the remote store for its reply.
    - DOM rendering is not modelled; the toasts shown to the user and the
      entries of [console.error] are recorded ([console.log] and
      [console.warn] are not).
    - Strings are sequences of one-byte characters.  The host clock is read
      by the modelled code and not advanced by it. *)

From Stdlib Require Import ZArith QArith List String Ascii Bool Lia.
From Stdlib Require Import DecimalString Permutation Sorted.
Import ListNotations.

Local Open Scope string_scope.
Local Open Scope list_scope.
Local Open Scope Z_scope.

(** ** Host string operations *)

Module JS.

(** White space removed by [String.prototype.trim], restricted to the
    one-byte characters: TAB, LF, VT, FF, CR and SPACE. *)
Definition isWhiteSpace (c : ascii) : bool :=
  let n := nat_of_ascii c in
  (Nat.leb 9 n && Nat.leb n 13) || Nat.eqb n 32.

Fixpoint trimStart (s : string) : string :=
  match s with
  | EmptyString => EmptyString
  | String c r => if isWhiteSpace c then trimStart r else s
  end.

Fixpoint trimEnd (s : string) : string :=
  match s with
  | EmptyString => EmptyString
  | String c r =>
      match trimEnd r with
      | EmptyString => if isWhiteSpace c then EmptyString else String c EmptyString
      | r' => String c r'
      end
  end.

Definition trim (s : string) : string := trimEnd (trimStart s).

(** [s.length] as a JavaScript number. *)
Definition length (s : string) : Z := Z.of_nat (String.length s).

(** [s.split('T')[0]]: the part of [s] before the first ['T']. *)
Fixpoint beforeT (s : string) : string :=
  match s with
  | EmptyString => EmptyString
  | String c r => if Ascii.eqb c "T"%char then EmptyString else String c (beforeT r)
  end.

(** Conversion of an integer to its decimal numeral, as done by [+] between
    a string and a number. *)
Definition numberToString (n : Z) : string :=
  NilZero.string_of_int (Z.to_int n).

(** [a || b] on an optional string: the empty string is falsy. *)
Definition truthy (o : option string) : bool :=
  match o with
  | Some s => negb (s =? "")%string
  | None => false
  end.

End JS.

(** ** Configuration

    [config.js] is not part of the sources at hand; the constants that the
    modelled code reads from [CONFIG] are taken as a parameter. *)

Record Config := {
  SCANNER_MIN_BARCODE_LENGTH : Z;
  SCANNER_MAX_TIME_BETWEEN_CHARS : Z;
  SCANNER_BUFFER_CLEAR_TIMEOUT : Z;
  CARRITO_MAX_CANTIDAD_POR_PRODUCTO : Z
}.

(** ** Barcode scanner ([class BarcodeScanner]) *)

Module Scanner.

(** [document.activeElement], as far as [handleKeyPress] looks at it. *)
Record Element := { tagName : string; elementId : string }.

(** A [keypress] event together with what the handler reads from its
    surroundings: the focused element and [Date.now()]. *)
Record KeyboardEvent := {
  key : string;
  activeElement : option Element;
  now : Z
}.

(** The scanner object.  [bufferClearTimer] holds the time at which the
    pending buffer-expiry timer is due, if one is armed.  [dispatched] lists
    the codes carried by the [barcode-scanned] events dispatched so far, and
    [called] the codes passed to the registered callback. *)
Record BarcodeScanner := {
  buffer : string;
  lastKeyTime : Z;
  listening : bool;
  callback : bool;
  bufferClearTimer : option Z;
  isScanning : bool;
  dispatched : list string;
  called : list string
}.

Definition constructor : BarcodeScanner :=
  {| buffer := ""; lastKeyTime := 0; listening := false; callback := false;
     bufferClearTimer := None; isScanning := false;
     dispatched := []; called := [] |}.

Definition init (s : BarcodeScanner) : BarcodeScanner :=
  if listening s then s
  else {| buffer := buffer s; lastKeyTime := lastKeyTime s; listening := true;
          callback := true; bufferClearTimer := bufferClearTimer s;
          isScanning := isScanning s; dispatched := dispatched s;
          called := called s |}.

Definition set_isScanning (b : bool) (s : BarcodeScanner) : BarcodeScanner :=
  {| buffer := buffer s; lastKeyTime := lastKeyTime s; listening := listening s;
     callback := callback s; bufferClearTimer := bufferClearTimer s;
     isScanning := b; dispatched := dispatched s; called := called s |}.

Definition processScan (codigo : string) (s : BarcodeScanner) : BarcodeScanner :=
  {| buffer := buffer s; lastKeyTime := lastKeyTime s; listening := listening s;
     callback := callback s; bufferClearTimer := bufferClearTimer s;
     isScanning := isScanning s;
     dispatched := dispatched s ++ [codigo];
     called := if callback s then called s ++ [codigo] else called s |}.

Definition clearBuffer (s : BarcodeScanner) : BarcodeScanner :=
  {| buffer := ""; lastKeyTime := 0; listening := listening s;
     callback := callback s; bufferClearTimer := bufferClearTimer s;
     isScanning := isScanning s; dispatched := dispatched s; called := called s |}.

Definition resetClearTimer (cfg : Config) (t : Z) (s : BarcodeScanner) : BarcodeScanner :=
  {| buffer := buffer s; lastKeyTime := lastKeyTime s; listening := listening s;
     callback := callback s;
     bufferClearTimer := Some (t + SCANNER_BUFFER_CLEAR_TIMEOUT cfg);
     isScanning := isScanning s; dispatched := dispatched s; called := called s |}.

Definition isInputField (e : KeyboardEvent) : bool :=
  match activeElement e with
  | Some el => (tagName el =? "INPUT")%string || (tagName el =? "TEXTAREA")%string
  | None => false
  end.

Definition isSearchField (e : KeyboardEvent) : bool :=
  match activeElement e with
  | Some el => (elementId el =? "buscar-producto")%string
  | None => false
  end.

(** The handler leaves the event alone when a text field other than the
    product search holds the focus. *)
Definition ignored (e : KeyboardEvent) : bool :=
  isInputField e && negb (isSearchField e).

Definition appendKey (e : KeyboardEvent) (s : BarcodeScanner) : BarcodeScanner :=
  {| buffer := (buffer s ++ key e)%string; lastKeyTime := now e; listening := listening s;
     callback := callback s; bufferClearTimer := bufferClearTimer s;
     isScanning := isScanning s; dispatched := dispatched s; called := called s |}.

Definition handleKeyPress (cfg : Config) (e : KeyboardEvent) (s : BarcodeScanner)
  : BarcodeScanner :=
  if ignored e then s
  else
    let currentTime := now e in
    let timeDiff := currentTime - lastKeyTime s in
    if (key e =? "Enter")%string then
      let s1 :=
        if SCANNER_MIN_BARCODE_LENGTH cfg <=? JS.length (buffer s)
        then processScan (JS.trim (buffer s)) (set_isScanning true s)
        else s in
      set_isScanning false (clearBuffer s1)
    else
      let s1 :=
        if (SCANNER_MAX_TIME_BETWEEN_CHARS cfg <? timeDiff) && (0 <? JS.length (buffer s))
        then clearBuffer s else s in
      let s2 := appendKey e s1 in
      let s3 :=
        if (timeDiff <? SCANNER_MAX_TIME_BETWEEN_CHARS cfg) && (0 <? JS.length (buffer s2))
        then set_isScanning true s2 else s2 in
      resetClearTimer cfg currentTime s3.

(** The buffer-expiry timer firing at time [t]: the callback armed by
    [resetClearTimer] clears the buffer. *)
Definition timerFired (t : Z) (s : BarcodeScanner) : BarcodeScanner :=
  match bufferClearTimer s with
  | Some due =>
      if due <=? t then
        let s' := clearBuffer s in
        {| buffer := buffer s'; lastKeyTime := lastKeyTime s'; listening := listening s';
           callback := callback s'; bufferClearTimer := None;
           isScanning := isScanning s'; dispatched := dispatched s'; called := called s' |}
      else s
  | None => s
  end.

Definition simulateScan (codigo : string) (s : BarcodeScanner) : BarcodeScanner :=
  processScan codigo s.

(** A run of the handler over successive [keypress] events. *)
Definition handleKeys (cfg : Config) (es : list KeyboardEvent) (s : BarcodeScanner)
  : BarcodeScanner :=
  fold_left (fun st e => handleKeyPress cfg e st) es s.

(** Successive events less than the maximum interval apart. *)
Fixpoint gapsBelow (cfg : Config) (t : Z) (es : list KeyboardEvent) : Prop :=
  match es with
  | [] => True
  | e :: es' => now e - t < SCANNER_MAX_TIME_BETWEEN_CHARS cfg /\ gapsBelow cfg (now e) es'
  end.

Definition keys (es : list KeyboardEvent) : string :=
  fold_right (fun e acc => (key e ++ acc)%string) "" es.

(** A character key that the handler processes. *)
Definition tecla (e : KeyboardEvent) : Prop :=
  ignored e = false /\ key e <> "Enter".

(** What the first character of a burst finds in the buffer: the handler
    empties a non-empty buffer whose last character is too old. *)
Definition carriedOver (cfg : Config) (e : KeyboardEvent) (s : BarcodeScanner) : string :=
  if (SCANNER_MAX_TIME_BETWEEN_CHARS cfg <? now e - lastKeyTime s) && (0 <? JS.length (buffer s))
  then "" else buffer s.

End Scanner.

(** ** Data model *)

(** A row of the [productos] table, or the object built by [addProducto]
    before the server (or the offline path) gives it an [id]. *)
Record Producto := {
  id : option string;
  codigo_barras : string;
  nombre : string;
  precio : Q;
  stock : Z;
  imagen_url : option string;
  created_at : string
}.

(** A line of an order or of a sale: [{id, nombre, cantidad, precio}]. *)
Record Linea := {
  linea_id : option string;
  linea_nombre : string;
  cantidad : Z;
  linea_precio : Q
}.

(** An order as submitted by the caller of [createPedido] and as checked by
    [validarPedido]. *)
Record DatosPedido := {
  cliente : option string;
  productos : option (list Linea);
  total : Q;
  metodo_pago : option string;
  tiempo_llegada : option string
}.

(** A row of the [pedidos] table; [pedido_id = None] before insertion. *)
Record Pedido := {
  pedido_id : option string;
  pedido_datos : DatosPedido;
  estado : string;
  pedido_created_at : string
}.

(** A sale as submitted by the caller of [createVenta]. *)
Record DatosVenta := {
  venta_pedido_id : option string;
  venta_total : Q;
  venta_metodo_pago : option string;
  venta_productos : list Linea
}.

(** A row of the [ventas_diarias] table; [venta_id = None] before insertion. *)
Record Venta := {
  venta_id : option string;
  venta_datos : DatosVenta;
  venta_created_at : string
}.

(** The [data] of a pending change: the product of an insert, the
    [{id, stock}] of a stock update, the [{id}] of a delete. *)
Inductive ChangeData :=
| DataProducto (p : Producto)
| DataStock (pid : option string) (n : Z)
| DataId (pid : option string).

Definition data_id (d : ChangeData) : option string :=
  match d with
  | DataProducto p => id p
  | DataStock pid _ => pid
  | DataId pid => pid
  end.

Record PendingChange := {
  operation : string;
  data : ChangeData;
  timestamp : Z
}.

(** A thrown value or the [error] of a reply: its message. *)
Definition Error := string.

(** ** The remote store

    One constructor per query that the database layer builds; the index is
    the type of the [data] of a successful reply. *)
Inductive Request : Type -> Type :=
| SelectProductos : Request (list Producto)
    (* from(productos).select('*').order('nombre') *)
| InsertProducto (p : Producto) : Request Producto
    (* from(productos).insert([p]).select().single() *)
| UpdateStockReturning (pid : option string) (n : Z) : Request Producto
    (* from(productos).update({stock: n}).eq('id', pid).select().single() *)
| ReplayInsert (d : ChangeData) : Request unit
    (* from(productos).insert([d]) *)
| ReplayUpdate (d : ChangeData) (pid : option string) : Request unit
    (* from(productos).update(d).eq('id', pid) *)
| ReplayDelete (pid : option string) : Request unit
    (* from(productos).delete().eq('id', pid) *)
| SelectPedidosPendientes : Request (list Pedido)
    (* from(pedidos).select('*').eq('estado','pendiente').order('created_at', desc) *)
| InsertPedido (p : Pedido) : Request Pedido
    (* from(pedidos).insert([p]).select().single() *)
| UpdatePedidoEstado (pid : option string) (e : string) : Request Pedido
    (* from(pedidos).update({estado: e}).eq('id', pid).select().single() *)
| InsertVenta (v : Venta) : Request Venta
    (* from(ventas_diarias).insert([v]).select().single() *)
| SelectStock (pid : option string) : Request Z
    (* from(productos).select('stock').eq('id', pid).single() *)
| UpdateStock (pid : option string) (n : Z) : Request unit
    (* from(productos).update({stock: n}).eq('id', pid) *)
| SelectVentas (desde hasta : string) : Request (list Venta).
    (* from(ventas_diarias).select('*').gte('created_at', desde)
         .lte('created_at', hasta).order('created_at', desc) *)

(** The [{data, error}] object a query resolves to. *)
Inductive Response (A : Type) :=
| WithError (e : Error)
| WithData (a : A).
Arguments WithError {A} e.
Arguments WithData {A} a.

(** What awaiting a query gives: the promise rejects, or resolves. *)
Inductive Reply (A : Type) :=
| Rejects (e : Error)
| Resolves (r : Response A).
Arguments Rejects {A} e.
Arguments Resolves {A} r.

(** The remote store: any state with a way of answering queries. *)
Class Supabase (R : Type) := exec : forall A, Request A -> R -> Reply A * R.
Arguments exec {R _ A} q r.

(** A query sent, whatever its reply type. *)
Definition Sent := { A : Type & Request A }.
Definition sentOf {A} (q : Request A) : Sent := existT Request A q.

(** ** The browser side *)

(** A line of the public-catalogue cart:
    [{id, nombre, precio, cantidad, stock}]. *)
Record Item := {
  item_id : option string;
  item_nombre : string;
  item_precio : Q;
  item_cantidad : Z;
  item_stock : Z
}.

(** The keys of [localStorage] that the modelled code uses; [None] is an
    absent key. *)
Record LocalStorage := {
  PRODUCTOS_KEY : option (list Producto);
  LAST_SYNC_KEY : option string;
  PENDING_CHANGES_KEY : option (list PendingChange);
  CARRITO_KEY : option (list Item)
}.

(** The host clock: [Date.now()] and [new Date().toISOString()]. *)
Record Clock := { Date_now : Z; Date_iso : string }.

(** A toast or notification: text and kind. *)
Definition Mensaje := (string * string)%type.

Record World (R : Type) := {
  isOnline : bool;                        (* database.isOnline *)
  remote : R;                             (* the remote store *)
  sent : list Sent;                       (* queries sent so far *)
  localStorage : LocalStorage;
  clock : Clock;
  console_error : list (string * Error);  (* console.error(label, error) *)
  mensajes : list Mensaje;                (* showNotification / mostrarMensaje *)
  pos_productos : list Producto;          (* pos.productos *)
  pos_pedidos : list Pedido;              (* the orders last rendered by the POS *)
  catalogo_productos : list Producto;     (* catalogo.productos *)
  catalogo_carrito : list Item            (* catalogo.carrito *)
}.
Arguments isOnline {R} w.
Arguments remote {R} w.
Arguments sent {R} w.
Arguments localStorage {R} w.
Arguments clock {R} w.
Arguments console_error {R} w.
Arguments mensajes {R} w.
Arguments pos_productos {R} w.
Arguments pos_pedidos {R} w.
Arguments catalogo_productos {R} w.
Arguments catalogo_carrito {R} w.

(** ** Computations: state and exceptions *)

Inductive Outcome (A : Type) :=
| Returned (a : A)
| Thrown (e : Error).
Arguments Returned {A} a.
Arguments Thrown {A} e.

Definition M (R A : Type) := World R -> Outcome A * World R.

Definition ret {R A} (a : A) : M R A := fun w => (Returned a, w).

Definition bind {R A B} (m : M R A) (k : A -> M R B) : M R B :=
  fun w =>
    match m w with
    | (Returned a, w') => k a w'
    | (Thrown e, w') => (Thrown e, w')
    end.

Definition throw {R A} (e : Error) : M R A := fun w => (Thrown e, w).

(** [try { m } catch (error) { h error }] *)
Definition try_catch {R A} (m : M R A) (h : Error -> M R A) : M R A :=
  fun w =>
    match m w with
    | (Returned a, w') => (Returned a, w')
    | (Thrown e, w') => h e w'
    end.

Definition gets {R A} (f : World R -> A) : M R A := fun w => (Returned (f w), w).
Definition modify {R} (f : World R -> World R) : M R unit := fun w => (Returned tt, f w).

Declare Scope js_scope.
Delimit Scope js_scope with js.
Notation "x <- m ;; k" := (bind m (fun x => k))
  (at level 61, m at next level, right associativity) : js_scope.
Notation "m ;; k" := (bind m (fun _ => k))
  (at level 61, right associativity) : js_scope.
Local Open Scope js_scope.

(** [for (const x of l) { body x }] *)
Fixpoint for_of {R A} (l : list A) (body : A -> M R unit) : M R unit :=
  match l with
  | [] => ret tt
  | x :: l' => body x ;; for_of l' body
  end.

(** [a === b] on identifiers. *)
Definition id_eqb (a b : option string) : bool :=
  match a, b with
  | Some x, Some y => (x =? y)%string
  | None, None => true
  | _, _ => false
  end.

(** [l.find(f)] is [List.find]; this is the in-place update of the element at
    [l.findIndex(f)], or [None] when the index is [-1]. *)
Fixpoint update_first {A} (f : A -> bool) (g : A -> A) (l : list A) : option (list A) :=
  match l with
  | [] => None
  | x :: r =>
      if f x then Some (g x :: r)
      else match update_first f g r with
           | Some r' => Some (x :: r')
           | None => None
           end
  end.

(** [o || null] *)
Definition or_null (o : option string) : option string :=
  if JS.truthy o then o else None.

Definition with_stock (n : Z) (p : Producto) : Producto :=
  {| id := id p; codigo_barras := codigo_barras p; nombre := nombre p;
     precio := precio p; stock := n; imagen_url := imagen_url p;
     created_at := created_at p |}.

Definition with_id (i : option string) (p : Producto) : Producto :=
  {| id := i; codigo_barras := codigo_barras p; nombre := nombre p;
     precio := precio p; stock := stock p; imagen_url := imagen_url p;
     created_at := created_at p |}.

(** The object [nuevoPedido] that [createPedido] builds at time [iso]. *)
Definition nuevoPedido (iso : string) (pedido : DatosPedido) : Pedido :=
  {| pedido_id := None; pedido_datos := pedido;
     estado := "pendiente"; pedido_created_at := iso |}.

(** The object [nuevaVenta] that [createVenta] builds at time [iso]. *)
Definition nuevaVenta (iso : string) (venta : DatosVenta) : Venta :=
  {| venta_id := None;
     venta_datos :=
       {| venta_pedido_id := or_null (venta_pedido_id venta);
          venta_total := venta_total venta;
          venta_metodo_pago := venta_metodo_pago venta;
          venta_productos := venta_productos venta |};
     venta_created_at := iso |}.

(** ** The database layer ([class Database]) *)

Section Database.

Context {R : Type} {S : Supabase R}.

(** *** Field updates of the world *)

Definition set_remote_sent (r : R) (q : Sent) (w : World R) : World R :=
  {| isOnline := isOnline w; remote := r; sent := sent w ++ [q];
     localStorage := localStorage w; clock := clock w;
     console_error := console_error w; mensajes := mensajes w;
     pos_productos := pos_productos w; pos_pedidos := pos_pedidos w;
     catalogo_productos := catalogo_productos w;
     catalogo_carrito := catalogo_carrito w |}.

Definition set_localStorage (ls : LocalStorage) (w : World R) : World R :=
  {| isOnline := isOnline w; remote := remote w; sent := sent w;
     localStorage := ls; clock := clock w;
     console_error := console_error w; mensajes := mensajes w;
     pos_productos := pos_productos w; pos_pedidos := pos_pedidos w;
     catalogo_productos := catalogo_productos w;
     catalogo_carrito := catalogo_carrito w |}.

Definition add_console_error (l : string) (e : Error) (w : World R) : World R :=
  {| isOnline := isOnline w; remote := remote w; sent := sent w;
     localStorage := localStorage w; clock := clock w;
     console_error := console_error w ++ [(l, e)]; mensajes := mensajes w;
     pos_productos := pos_productos w; pos_pedidos := pos_pedidos w;
     catalogo_productos := catalogo_productos w;
     catalogo_carrito := catalogo_carrito w |}.

Definition add_mensaje (m : Mensaje) (w : World R) : World R :=
  {| isOnline := isOnline w; remote := remote w; sent := sent w;
     localStorage := localStorage w; clock := clock w;
     console_error := console_error w; mensajes := mensajes w ++ [m];
     pos_productos := pos_productos w; pos_pedidos := pos_pedidos w;
     catalogo_productos := catalogo_productos w;
     catalogo_carrito := catalogo_carrito w |}.

Definition set_pos_productos (l : list Producto) (w : World R) : World R :=
  {| isOnline := isOnline w; remote := remote w; sent := sent w;
     localStorage := localStorage w; clock := clock w;
     console_error := console_error w; mensajes := mensajes w;
     pos_productos := l; pos_pedidos := pos_pedidos w;
     catalogo_productos := catalogo_productos w;
     catalogo_carrito := catalogo_carrito w |}.

Definition set_pos_pedidos (l : list Pedido) (w : World R) : World R :=
  {| isOnline := isOnline w; remote := remote w; sent := sent w;
     localStorage := localStorage w; clock := clock w;
     console_error := console_error w; mensajes := mensajes w;
     pos_productos := pos_productos w; pos_pedidos := l;
     catalogo_productos := catalogo_productos w;
     catalogo_carrito := catalogo_carrito w |}.

Definition set_catalogo_productos (l : list Producto) (w : World R) : World R :=
  {| isOnline := isOnline w; remote := remote w; sent := sent w;
     localStorage := localStorage w; clock := clock w;
     console_error := console_error w; mensajes := mensajes w;
     pos_productos := pos_productos w; pos_pedidos := pos_pedidos w;
     catalogo_productos := l;
     catalogo_carrito := catalogo_carrito w |}.

Definition set_catalogo_carrito (l : list Item) (w : World R) : World R :=
  {| isOnline := isOnline w; remote := remote w; sent := sent w;
     localStorage := localStorage w; clock := clock w;
     console_error := console_error w; mensajes := mensajes w;
     pos_productos := pos_productos w; pos_pedidos := pos_pedidos w;
     catalogo_productos := catalogo_productos w;
     catalogo_carrito := l |}.

(** *** Primitive effects *)

(** [await q]: the query is sent; a rejected promise throws. *)
Definition await {A} (q : Request A) : M R (Response A) :=
  fun w =>
    let (reply, r') := exec q (remote w) in
    let w' := set_remote_sent r' (sentOf q) w in
    match reply with
    | Rejects e => (Thrown e, w')
    | Resolves r => (Returned r, w')
    end.

(** [if (error) throw error;] followed by the use of [data]. *)
Definition data_or_throw {A} (r : Response A) : M R A :=
  match r with
  | WithError e => throw e
  | WithData a => ret a
  end.

Definition console_error_ (l : string) (e : Error) : M R unit :=
  modify (add_console_error l e).

Definition mostrar (texto tipo : string) : M R unit :=
  modify (add_mensaje (texto, tipo)).

(** *** localStorage *)

Definition getFromLocalStorage : M R (list Producto) :=
  gets (fun w => match PRODUCTOS_KEY (localStorage w) with
                 | Some l => l
                 | None => []
                 end).

Definition saveToLocalStorage (ps : list Producto) : M R unit :=
  modify (fun w =>
    set_localStorage
      {| PRODUCTOS_KEY := Some ps;
         LAST_SYNC_KEY := Some (Date_iso (clock w));
         PENDING_CHANGES_KEY := PENDING_CHANGES_KEY (localStorage w);
         CARRITO_KEY := CARRITO_KEY (localStorage w) |} w).

(** [updateInLocalStorage(id, { stock: n })] *)
Definition updateInLocalStorage (pid : option string) (n : Z) : M R unit :=
  ps <- getFromLocalStorage ;;
  match update_first (fun p => id_eqb (id p) pid) (with_stock n) ps with
  | Some ps' => saveToLocalStorage ps'
  | None => ret tt
  end.

Definition getPendingChanges : M R (list PendingChange) :=
  gets (fun w => match PENDING_CHANGES_KEY (localStorage w) with
                 | Some l => l
                 | None => []
                 end).

Definition setPendingChanges (o : option (list PendingChange)) : M R unit :=
  modify (fun w =>
    set_localStorage
      {| PRODUCTOS_KEY := PRODUCTOS_KEY (localStorage w);
         LAST_SYNC_KEY := LAST_SYNC_KEY (localStorage w);
         PENDING_CHANGES_KEY := o;
         CARRITO_KEY := CARRITO_KEY (localStorage w) |} w).

Definition savePendingChange (op : string) (d : ChangeData) : M R unit :=
  pending <- getPendingChanges ;;
  t <- gets (fun w => Date_now (clock w)) ;;
  setPendingChanges
    (Some (pending ++ [ {| operation := op; data := d; timestamp := t |} ])).

(** *** Products *)

Definition getProductos : M R (list Producto) :=
  online <- gets isOnline ;;
  if online then
    try_catch
      (r <- await SelectProductos ;;
       ps <- data_or_throw r ;;
       saveToLocalStorage ps ;;
       ret ps)
      (fun error =>
         console_error_ "Error al obtener productos de Supabase:" error ;;
         getFromLocalStorage)
  else getFromLocalStorage.

Definition addProducto (producto : Producto) : M R Producto :=
  iso <- gets (fun w => Date_iso (clock w)) ;;
  let nuevoProducto :=
    {| id := None;
       codigo_barras := codigo_barras producto;
       nombre := nombre producto;
       precio := precio producto;
       stock := stock producto;
       imagen_url := or_null (imagen_url producto);
       created_at := iso |} in
  online <- gets isOnline ;;
  if online then
    try_catch
      (r <- await (InsertProducto nuevoProducto) ;;
       d <- data_or_throw r ;;
       ps <- getFromLocalStorage ;;
       saveToLocalStorage (ps ++ [d]) ;;
       ret d)
      (fun error =>
         console_error_ "Error al agregar producto:" error ;;
         savePendingChange "insert" (DataProducto nuevoProducto) ;;
         throw error)
  else
    t <- gets (fun w => Date_now (clock w)) ;;
    let nuevoProducto := with_id (Some ("temp_" ++ JS.numberToString t)%string) nuevoProducto in
    ps <- getFromLocalStorage ;;
    saveToLocalStorage (ps ++ [nuevoProducto]) ;;
    savePendingChange "insert" (DataProducto nuevoProducto) ;;
    ret nuevoProducto.

Definition updateStock (pid : option string) (nuevaCantidad : Z) : M R (option Producto) :=
  online <- gets isOnline ;;
  if online then
    try_catch
      (r <- await (UpdateStockReturning pid nuevaCantidad) ;;
       d <- data_or_throw r ;;
       updateInLocalStorage pid nuevaCantidad ;;
       ret (Some d))
      (fun error =>
         console_error_ "Error al actualizar stock:" error ;;
         savePendingChange "update" (DataStock pid nuevaCantidad) ;;
         throw error)
  else
    updateInLocalStorage pid nuevaCantidad ;;
    savePendingChange "update" (DataStock pid nuevaCantidad) ;;
    ps <- getFromLocalStorage ;;
    ret (find (fun p => id_eqb (id p) pid) ps).

(** *** Replay of the pending queue *)

(** The [switch (change.operation)] of [syncPendingChanges]. *)
Definition replay (change : PendingChange) : M R unit :=
  if (operation change =? "insert")%string then
    await (ReplayInsert (data change)) ;; ret tt
  else if (operation change =? "update")%string then
    await (ReplayUpdate (data change) (data_id (data change))) ;; ret tt
  else if (operation change =? "delete")%string then
    await (ReplayDelete (data_id (data change))) ;; ret tt
  else ret tt.

Definition syncPendingChanges : M R unit :=
  online <- gets isOnline ;;
  if negb online then ret tt
  else
    pending <- getPendingChanges ;;
    if (List.length pending =? 0)%nat then ret tt
    else
      for_of pending (fun change =>
        try_catch (replay change)
          (fun error => console_error_ "Error al sincronizar cambio:" error)) ;;
      setPendingChanges None.

(** *** Orders and sales *)

Definition getPedidosPendientes : M R (list Pedido) :=
  online <- gets isOnline ;;
  if online then
    try_catch
      (r <- await SelectPedidosPendientes ;;
       data_or_throw r)
      (fun error =>
         console_error_ "Error al obtener pedidos pendientes:" error ;;
         ret [])
  else ret [].

Definition createPedido (pedido : DatosPedido) : M R Pedido :=
  iso <- gets (fun w => Date_iso (clock w)) ;;
  online <- gets isOnline ;;
  if online then
    try_catch
      (r <- await (InsertPedido (nuevoPedido iso pedido)) ;;
       data_or_throw r)
      (fun error =>
         console_error_ "Error al crear pedido:" error ;;
         throw error)
  else throw "No se pueden crear pedidos en modo offline".

Definition updatePedidoEstado (pid : option string) (nuevoEstado : string) : M R Pedido :=
  online <- gets isOnline ;;
  if online then
    try_catch
      (r <- await (UpdatePedidoEstado pid nuevoEstado) ;;
       data_or_throw r)
      (fun error =>
         console_error_ "Error al actualizar estado del pedido:" error ;;
         throw error)
  else throw "No se puede actualizar pedido en modo offline".

Definition createVenta (venta : DatosVenta) : M R Venta :=
  iso <- gets (fun w => Date_iso (clock w)) ;;
  online <- gets isOnline ;;
  if online then
    try_catch
      (r <- await (InsertVenta (nuevaVenta iso venta)) ;;
       data_or_throw r)
      (fun error =>
         console_error_ "Error al crear registro de venta:" error ;;
         throw error)
  else throw "No se pueden registrar ventas en modo offline".

(** One turn of the loop of [updateMultipleStock] on [{id, cantidad}]. *)
Definition updateOneStock (u : option string * Z) : M R unit :=
  let (pid, cant) := u in
  r <- await (SelectStock pid) ;;
  actual <- data_or_throw r ;;
  let nuevoStock := actual - cant in
  r' <- await (UpdateStock pid nuevoStock) ;;
  data_or_throw r' ;;
  updateInLocalStorage pid nuevoStock.

Definition updateMultipleStock (updates : list (option string * Z)) : M R bool :=
  online <- gets isOnline ;;
  if online then
    try_catch
      (for_of updates updateOneStock ;;
       ret true)
      (fun error =>
         console_error_ "Error al actualizar stock múltiple:" error ;;
         throw error)
  else throw "No se puede actualizar stock en modo offline".

End Database.

(** ** Dates and sorting, as the report uses them *)

Module Fecha.

Definition digito (c : ascii) : option Z :=
  let n := Z.of_nat (nat_of_ascii c) in
  if (48 <=? n) && (n <=? 57) then Some (n - 48) else None.

Definition numero2 (a b : ascii) : option Z :=
  match digito a, digito b with
  | Some x, Some y => Some (10 * x + y)
  | _, _ => None
  end.

Definition numero4 (a b c d : ascii) : option Z :=
  match numero2 a b, numero2 c d with
  | Some x, Some y => Some (100 * x + y)
  | _, _ => None
  end.

Definition bisiesto (y : Z) : bool :=
  ((y mod 4 =? 0) && negb (y mod 100 =? 0)) || (y mod 400 =? 0).

Definition diasDelMes (y m : Z) : Z :=
  if m =? 2 then (if bisiesto y then 29 else 28)
  else if (m =? 4) || (m =? 6) || (m =? 9) || (m =? 11) then 30
  else 31.

(** Days from 1970-01-01 to the civil date [y-m-d]. *)
Definition diasDesdeEpoca (y m d : Z) : Z :=
  let y' := if m <=? 2 then y - 1 else y in
  let era := y' / 400 in
  let yoe := y' - era * 400 in
  let mp := if 2 <? m then m - 3 else m + 9 in
  let doy := (153 * mp + 2) / 5 + d - 1 in
  let doe := yoe * 365 + yoe / 4 - yoe / 100 + doy in
  era * 146097 + doe - 719468.

(** [new Date(s).getTime()] for a date-only string [YYYY-MM-DD] naming a
    day of the calendar: milliseconds since the epoch at midnight UTC.
    Every other string is [None], which stands for the [NaN] of an invalid
    date (strings in other formats are parsed in host-specific ways and
    are not modelled). *)
Definition valueOf (s : string) : option Z :=
  match s with
  | String y1 (String y2 (String y3 (String y4 (String "-"
      (String m1 (String m2 (String "-" (String d1 (String d2 EmptyString))))))))) =>
      match numero4 y1 y2 y3 y4, numero2 m1 m2, numero2 d1 d2 with
      | Some y, Some m, Some d =>
          if (1 <=? m) && (m <=? 12) && (1 <=? d) && (d <=? diasDelMes y m)
          then Some (diasDesdeEpoca y m d * 86400000)
          else None
      | _, _, _ => None
      end
  | _ => None
  end.

End Fecha.

(** [Array.prototype.sort(cmp)]: a stable sort; [cmp a b < 0] puts [a]
    first, [cmp a b > 0] puts [b] first. *)
Fixpoint sort_insert {A} (cmp : A -> A -> Z) (x : A) (l : list A) : list A :=
  match l with
  | [] => [x]
  | y :: r => if cmp x y <=? 0 then x :: l else y :: sort_insert cmp x r
  end.

Definition sort {A} (cmp : A -> A -> Z) (l : list A) : list A :=
  fold_right (sort_insert cmp) [] l.

(** One entry of the report: [{fecha, total, cantidad, ventas}]. *)
Record VentasDia := {
  fecha : string;
  dia_total : Q;
  dia_cantidad : Z;
  dia_ventas : list Venta
}.

(** The body of [ventas.forEach] in [getVentasPorDia].  The object
    [ventasPorDia] is the list of its values in the order in which the keys
    were added, which is the order of [Object.values] for keys that are
    dates. *)
Definition agregarVenta (ventasPorDia : list VentasDia) (venta : Venta) : list VentasDia :=
  let f := JS.beforeT (venta_created_at venta) in
  let ventasPorDia' :=
    if existsb (fun g => (fecha g =? f)%string) ventasPorDia then ventasPorDia
    else ventasPorDia ++ [ {| fecha := f; dia_total := 0; dia_cantidad := 0; dia_ventas := [] |} ] in
  map (fun g =>
         if (fecha g =? f)%string then
           {| fecha := fecha g;
              dia_total := (dia_total g + venta_total (venta_datos venta))%Q;
              dia_cantidad := dia_cantidad g + 1;
              dia_ventas := dia_ventas g ++ [venta] |}
         else g)
      ventasPorDia'.

(** [(a, b) => new Date(b.fecha) - new Date(a.fecha)]; a [NaN] result counts
    as zero for [sort]. *)
Definition porFechaDesc (a b : VentasDia) : Z :=
  match Fecha.valueOf (fecha b), Fecha.valueOf (fecha a) with
  | Some x, Some y => x - y
  | _, _ => 0
  end.

Section Reportes.

Context {R : Type} {S : Supabase R}.

Definition getVentasPorDia (fechaDesde fechaHasta : string) : M R (list VentasDia) :=
  online <- gets isOnline ;;
  if negb online then throw "No se pueden obtener reportes en modo offline"
  else
    try_catch
      (r <- await (SelectVentas (fechaDesde ++ "T00:00:00")%string
                                (fechaHasta ++ "T23:59:59")%string) ;;
       ventas <- data_or_throw r ;;
       ret (sort porFechaDesc (fold_left agregarVenta ventas [])))
      (fun error =>
         console_error_ "Error al obtener ventas por día:" error ;;
         throw error).

End Reportes.

(** ** Order helpers ([PedidosHelper]) *)

Module PedidosHelper.

Record Validacion := { valid : bool; error : option string }.

Definition invalido (msg : string) : Validacion :=
  {| valid := false; error := Some msg |}.

Definition validarPedido (pedido : DatosPedido) : Validacion :=
  match cliente pedido with
  | None => invalido "El nombre del cliente es requerido"
  | Some c =>
      if (c =? "")%string || (JS.trim c =? "")%string then
        invalido "El nombre del cliente es requerido"
      else if JS.length c <? 2 then
        invalido "El nombre debe tener al menos 2 caracteres"
      else if match productos pedido with
              | None => true
              | Some l => (List.length l =? 0)%nat
              end then
        invalido "El pedido debe contener al menos un producto"
      else if negb (JS.truthy (tiempo_llegada pedido)) then
        invalido "Debe seleccionar un tiempo de llegada"
      else if negb (JS.truthy (metodo_pago pedido)) then
        invalido "Debe seleccionar un método de pago"
      else if Qle_bool (total pedido) 0 then
        invalido "El total del pedido debe ser mayor a cero"
      else {| valid := true; error := None |}
  end.

End PedidosHelper.

(** ** Public catalogue ([class CatalogoCliente]) *)

Module CatalogoCliente.

(** [l[l.findIndex(f)] = g(l[l.findIndex(f)])], nothing when no element
    satisfies [f]: the mutation of the object returned by [l.find(f)]. *)
Fixpoint mutate_first {A} (f : A -> bool) (g : A -> A) (l : list A) : list A :=
  match l with
  | [] => []
  | x :: r => if f x then g x :: r else x :: mutate_first f g r
  end.

Definition with_cantidad (n : Z) (i : Item) : Item :=
  {| item_id := item_id i; item_nombre := item_nombre i; item_precio := item_precio i;
     item_cantidad := n; item_stock := item_stock i |}.

Section WithRemote.

Context {R : Type} {S : Supabase R}.
Variable CONFIG : Config.

Definition cargarProductos : M R unit :=
  try_catch
    (todosProductos <- getProductos ;;
     modify (set_catalogo_productos (filter (fun p => 0 <? stock p) todosProductos)))
    (fun error => console_error_ "Error al cargar productos:" error).

Definition guardarCarrito : M R unit :=
  modify (fun w =>
    set_localStorage
      {| PRODUCTOS_KEY := PRODUCTOS_KEY (localStorage w);
         LAST_SYNC_KEY := LAST_SYNC_KEY (localStorage w);
         PENDING_CHANGES_KEY := PENDING_CHANGES_KEY (localStorage w);
         CARRITO_KEY := Some (catalogo_carrito w) |} w).

Definition mutar_carrito (f : list Item -> list Item) : M R unit :=
  modify (fun w => set_catalogo_carrito (f (catalogo_carrito w)) w).

Definition agregarAlCarrito (producto : Producto) : M R unit :=
  carrito <- gets catalogo_carrito ;;
  match find (fun item => id_eqb (item_id item) (id producto)) carrito with
  | Some itemExistente =>
      if item_cantidad itemExistente <? stock producto then
        mutar_carrito
          (mutate_first (fun item => id_eqb (item_id item) (id producto))
                        (fun item => with_cantidad (item_cantidad item + 1) item)) ;;
        guardarCarrito ;;
        mostrar "Producto agregado al carrito" "success"
      else
        mostrar "No hay más stock disponible" "warning"
  | None =>
      mutar_carrito (fun c =>
        c ++ [ {| item_id := id producto; item_nombre := nombre producto;
                  item_precio := precio producto; item_cantidad := 1;
                  item_stock := stock producto |} ]) ;;
      guardarCarrito ;;
      mostrar "Producto agregado al carrito" "success"
  end.

Definition eliminarDelCarrito (productoId : option string) : M R unit :=
  mutar_carrito (filter (fun item => negb (id_eqb (item_id item) productoId))) ;;
  guardarCarrito.

(** [actualizarCantidad(productoId, nuevaCantidad)] for a whole number
    [nuevaCantidad].  The listener of the quantity field passes [parseInt]
    of its text, which is [NaN] when the field has been emptied; [NaN] fails
    none of the three comparisons below and would be stored as the
    quantity.  Quantities are integers in this development and that case is
    left out. *)
Definition actualizarCantidad (productoId : option string) (nuevaCantidad : Z) : M R unit :=
  carrito <- gets catalogo_carrito ;;
  match find (fun item => id_eqb (item_id item) productoId) carrito with
  | None => ret tt
  | Some item =>
      if nuevaCantidad <=? 0 then eliminarDelCarrito productoId
      else if item_stock item <? nuevaCantidad then
        mostrar "Cantidad excede el stock disponible" "warning"
      else if CARRITO_MAX_CANTIDAD_POR_PRODUCTO CONFIG <? nuevaCantidad then
        mostrar ("Máximo "
                 ++ JS.numberToString (CARRITO_MAX_CANTIDAD_POR_PRODUCTO CONFIG)
                 ++ " unidades por producto")%string "warning"
      else
        mutar_carrito
          (mutate_first (fun item => id_eqb (item_id item) productoId)
                        (with_cantidad nuevaCantidad)) ;;
        guardarCarrito
  end.

(** The cart operations of the page: a call of [agregarAlCarrito] by
    the button of a product card, the [+] and [-] buttons of a cart
    line, an edit of its quantity field, and its remove button (the
    listeners of [setupCarritoItemListeners]). *)
Inductive Operacion :=
| Agregar (producto : Producto)
| Incrementar (productoId : option string)
| Decrementar (productoId : option string)
| Editar (productoId : option string) (valor : Z)
| Eliminar (productoId : option string).

Definition operar (o : Operacion) : M R unit :=
  match o with
  | Agregar producto => agregarAlCarrito producto
  | Incrementar pid =>
      carrito <- gets catalogo_carrito ;;
      match find (fun i => id_eqb (item_id i) pid) carrito with
      | Some item => actualizarCantidad pid (item_cantidad item + 1)
      | None => throw "TypeError: item is undefined"
      end
  | Decrementar pid =>
      carrito <- gets catalogo_carrito ;;
      match find (fun i => id_eqb (item_id i) pid) carrito with
      | Some item => actualizarCantidad pid (item_cantidad item - 1)
      | None => throw "TypeError: item is undefined"
      end
  | Editar pid valor => actualizarCantidad pid valor
  | Eliminar pid => eliminarDelCarrito pid
  end.

(** The operations run one after the other; an exception thrown by a
    listener ends that listener only. *)
Definition operarTodas (os : list Operacion) (w : World R) : World R :=
  fold_left (fun w o => snd (operar o w)) os w.

End WithRemote.

End CatalogoCliente.

(** ** Point of sale ([class POS]) *)

Module POS.

Section WithRemote.

Context {R : Type} {S : Supabase R}.

Definition cargarProductos : M R unit :=
  try_catch
    (ps <- getProductos ;;
     modify (set_pos_productos ps))
    (fun error =>
       console_error_ "Error al cargar productos:" error ;;
       mostrar "Error al cargar productos" "error").

Definition cargarPedidosPendientes : M R unit :=
  try_catch
    (pedidos <- getPedidosPendientes ;;
     modify (set_pos_pedidos pedidos))
    (fun error => console_error_ "Error al cargar pedidos:" error).

(** The sale record that [confirmarEntrega] submits for an order. *)
Definition ventaDe (pedido : Pedido) (lineas : list Linea) : DatosVenta :=
  {| venta_pedido_id := pedido_id pedido;
     venta_total := total (pedido_datos pedido);
     venta_metodo_pago := metodo_pago (pedido_datos pedido);
     venta_productos := lineas |}.

Definition actualizacionesDe (lineas : list Linea) : list (option string * Z) :=
  map (fun item => (linea_id item, cantidad item)) lineas.

(** [confirmarEntrega(pedidoId)]; [confirma] is the answer that the
    operator gives to the [confirm] dialog if it is shown. *)
Definition confirmarEntrega (pedidoId : string) (confirma : bool) : M R unit :=
  try_catch
    (pedidos <- getPedidosPendientes ;;
     match find (fun p => id_eqb (pedido_id p) (Some pedidoId)) pedidos with
     | None => mostrar "Pedido no encontrado" "error"
     | Some pedido =>
         if negb confirma then ret tt
         else
           match productos (pedido_datos pedido) with
           | None => throw "TypeError: pedido.productos is null"
           | Some lineas =>
               (* 1. Reducir inventario *)
               updateMultipleStock (actualizacionesDe lineas) ;;
               (* 2. Crear registro de venta *)
               createVenta (ventaDe pedido lineas) ;;
               (* 3. Actualizar estado del pedido *)
               updatePedidoEstado (pedido_id pedido) "completado" ;;
               (* 4. Actualizar UI *)
               mostrar "✅ Pedido completado exitosamente" "success" ;;
               cargarPedidosPendientes ;;
               cargarProductos
           end
     end)
    (fun error =>
       console_error_ "Error al confirmar entrega:" error ;;
       mostrar "Error al procesar el pedido" "error").

End WithRemote.

End POS.

(** ** Order helpers, continued ([PedidosHelper]) *)

Module Pedidos.

(** The result of [verificarStock]: [{valid, error, producto}]. *)
Record StockCheck := {
  valid : bool;
  error : option string;
  producto : option string
}.

Fixpoint verificarStock (productosCarrito : list Item) (productosDB : list Producto)
  : StockCheck :=
  match productosCarrito with
  | [] => {| valid := true; error := None; producto := None |}
  | item :: resto =>
      match find (fun p => id_eqb (id p) (item_id item)) productosDB with
      | None =>
          {| valid := false; error := Some "Producto no encontrado";
             producto := Some (item_nombre item) |}
      | Some p =>
          if stock p <? item_cantidad item then
            {| valid := false;
               error := Some ("Stock insuficiente. Disponible: "
                              ++ JS.numberToString (stock p))%string;
               producto := Some (item_nombre item) |}
          else verificarStock resto productosDB
      end
  end.

(** The fields of the order form, as [FormData.get] gives them: [None] for
    a field that the form does not have. *)
Record DatosFormulario := {
  form_cliente : option string;
  form_tiempo_llegada : option string;
  form_metodo_pago : option string
}.

(** The order line [{id, nombre, cantidad, precio}] of a cart item. *)
Definition lineaDe (item : Item) : Linea :=
  {| linea_id := item_id item; linea_nombre := item_nombre item;
     cantidad := item_cantidad item; linea_precio := item_precio item |}.

(** [formatearPedido(datosFormulario, carrito, total)]; calling [trim] on a
    missing name is a [TypeError], whose message is the host's and is given
    a fixed text here. *)
Definition formatearPedido (datosFormulario : DatosFormulario) (carrito : list Item)
    (total : Q) : Outcome DatosPedido :=
  match form_cliente datosFormulario with
  | None => Thrown "TypeError: datosFormulario.cliente is null"
  | Some c =>
      Returned {| cliente := Some (JS.trim c);
                  productos := Some (map lineaDe carrito);
                  total := total;
                  metodo_pago := form_metodo_pago datosFormulario;
                  tiempo_llegada := form_tiempo_llegada datosFormulario |}
  end.

End Pedidos.

(** ** Public catalogue, continued ([class CatalogoCliente]) *)

Module Catalogo.

(** [calcularTotal()], on the cart it reads. *)
Definition calcularTotal (carrito : list Item) : Q :=
  fold_left (fun sum item => (sum + item_precio item * inject_Z (item_cantidad item))%Q)
            carrito 0%Q.

Section WithRemote.

Context {R : Type} {S : Supabase R}.

(** A new [CatalogoCliente] object in the same browser: the page has been
    opened again. *)
Definition constructor (w : World R) : World R :=
  set_catalogo_productos [] (set_catalogo_carrito [] w).

(** [vaciarCarrito()]; [confirma] is the answer to the [confirm] dialog if
    it is shown. *)
Definition vaciarCarrito (confirma : bool) : M R unit :=
  carrito <- gets catalogo_carrito ;;
  if (List.length carrito =? 0)%nat then ret tt
  else if confirma then
    CatalogoCliente.mutar_carrito (fun _ => []) ;;
    CatalogoCliente.guardarCarrito
  else ret tt.

(** [cargarCarrito()].  The stored text is one written by [guardarCarrito],
    which [JSON.parse] reads back; a text that does not parse is not a
    value of the key in [LocalStorage]. *)
Definition cargarCarrito : M R unit :=
  carritoGuardado <- gets (fun w => CARRITO_KEY (localStorage w)) ;;
  match carritoGuardado with
  | Some c => modify (set_catalogo_carrito c)
  | None => ret tt
  end.

(** [enviarPedido()] on the values [formulario] of the order form.  The
    confirmation overlay and the state of the submit button are rendering. *)
Definition enviarPedido (formulario : Pedidos.DatosFormulario) : M R unit :=
  carrito <- gets catalogo_carrito ;;
  match Pedidos.formatearPedido formulario carrito (calcularTotal carrito) with
  | Thrown e => throw e
  | Returned pedido =>
      let validacion := PedidosHelper.validarPedido pedido in
      if negb (PedidosHelper.valid validacion) then
        mostrar (match PedidosHelper.error validacion with
                 | Some e => e
                 | None => "undefined"
                 end) "error"
      else
        productos <- getProductos ;;
        carrito <- gets catalogo_carrito ;;
        let stockCheck := Pedidos.verificarStock carrito productos in
        if negb (Pedidos.valid stockCheck) then
          mostrar (match Pedidos.producto stockCheck with
                   | Some n => n
                   | None => "undefined"
                   end
                   ++ ": "
                   ++ match Pedidos.error stockCheck with
                      | Some e => e
                      | None => "undefined"
                      end)%string "error"
        else
          try_catch
            (createPedido pedido ;;
             CatalogoCliente.mutar_carrito (fun _ => []) ;;
             CatalogoCliente.guardarCarrito)
            (fun error =>
               console_error_ "Error al enviar pedido:" error ;;
               mostrar "Error al enviar el pedido. Por favor intenta nuevamente." "error")
  end.

(** What the customer does on the page: a cart operation, the button that
    empties the cart, or the submission of the order form. *)
Inductive Accion :=
| Operar (o : CatalogoCliente.Operacion)
| Vaciar (confirma : bool)
| Enviar (formulario : Pedidos.DatosFormulario).

Variable CONFIG : Config.

Definition actuar (a : Accion) : M R unit :=
  match a with
  | Operar o => CatalogoCliente.operar CONFIG o
  | Vaciar confirma => vaciarCarrito confirma
  | Enviar formulario => enviarPedido formulario
  end.

(** The actions run one after the other; an exception thrown by a listener
    ends that listener only. *)
Definition actuarTodas (acciones : list Accion) (w : World R) : World R :=
  fold_left (fun w a => snd (actuar a w)) acciones w.

End WithRemote.

End Catalogo.

(** ** Sales report page ([class ReportesVentas]) *)

Module ReportesVentas.

(** The three figures that [renderResumen] computes from
    [this.ventasPorDia] before formatting them. *)
Definition totalPeriodo (ventasPorDia : list VentasDia) : Q :=
  fold_left (fun sum dia => (sum + dia_total dia)%Q) ventasPorDia 0%Q.

Definition totalVentas (ventasPorDia : list VentasDia) : Z :=
  fold_left (fun sum dia => sum + dia_cantidad dia) ventasPorDia 0.

Definition promedio (ventasPorDia : list VentasDia) : Q :=
  if 0 <? totalVentas ventasPorDia
  then (totalPeriodo ventasPorDia / inject_Z (totalVentas ventasPorDia))%Q
  else 0%Q.

End ReportesVentas.

(** ** Point of sale, continued: the cart ([class POS])

    [pos.carrito] is passed to each operation and returned by it; an
    operation that throws leaves the cart as it was.  Several things may run
    between two [await]s of the page; a call is modelled from start to end
    with nothing in between. *)

Module Caja.

(** A line of the cart: [{producto, cantidad}].  [ren_producto] is the
    product object of the line as it now stands.  [ren_compartido] tells
    whether that object is the very one that [pos.productos] holds first
    under its identifier, as it is for a line added from the search
    suggestions, or an object of its own, as it is for a line added by the
    scanner: an assignment to the stock of the element of [pos.productos]
    shows in the lines that share it.  A reload of [pos.productos] leaves
    every line with an object of its own ([soltar]). *)
Record Renglon := {
  ren_producto : Producto;
  ren_cantidad : Z;
  ren_compartido : bool
}.

Definition con_cantidad (n : Z) (item : Renglon) : Renglon :=
  {| ren_producto := ren_producto item; ren_cantidad := n;
     ren_compartido := ren_compartido item |}.

Definition soltar (carrito : list Renglon) : list Renglon :=
  map (fun item => {| ren_producto := ren_producto item; ren_cantidad := ren_cantidad item;
                      ren_compartido := false |}) carrito.

(** [producto.stock = n] on the element of [pos.productos] of identifier
    [i], seen from a line of the cart. *)
Definition asignar (i : option string) (n : Z) (item : Renglon) : Renglon :=
  if ren_compartido item && id_eqb (id (ren_producto item)) i
  then {| ren_producto := with_stock n (ren_producto item);
          ren_cantidad := ren_cantidad item; ren_compartido := true |}
  else item.

(** The string [s] between double quotes. *)
Definition entreComillas (s : string) : string :=
  String "034"%char (s ++ String "034"%char EmptyString).

(** [l[index] = f(l[index])] for an index within [l]. *)
Fixpoint cambiar {A} (index : nat) (f : A -> A) (l : list A) : list A :=
  match l, index with
  | [], _ => []
  | x :: r, O => f x :: r
  | x :: r, Datatypes.S i => x :: cambiar i f r
  end.

(** [l.splice(index, 1)] *)
Fixpoint quitar {A} (index : nat) (l : list A) : list A :=
  match l, index with
  | [], _ => []
  | _ :: r, O => r
  | x :: r, Datatypes.S i => x :: quitar i r
  end.

(** The total of the cart, as [renderCarrito] and [finalizarVenta] add it up. *)
Definition totalCarrito (carrito : list Renglon) : Q :=
  fold_left (fun sum item =>
               (sum + precio (ren_producto item) * inject_Z (ren_cantidad item))%Q)
            carrito 0%Q.

(** The line [{id, nombre, cantidad, precio}] of the sale record. *)
Definition lineaDe (item : Renglon) : Linea :=
  {| linea_id := id (ren_producto item); linea_nombre := nombre (ren_producto item);
     cantidad := ren_cantidad item; linea_precio := precio (ren_producto item) |}.

Section WithRemote.

Context {R : Type} {S : Supabase R}.

(** [Intl.NumberFormat(...).format], a function of the host. *)
Variable formatCurrency : Q -> string.

(** The outcome of [m] as a value: what [try] hands to [catch]. *)
Definition intentar {A} (m : M R A) : M R (Outcome A) :=
  fun w => let (o, w') := m w in (Returned o, w').

Definition agregarAlCarrito (producto : Producto) (compartido : bool)
    (carrito : list Renglon) : M R (list Renglon) :=
  if stock producto <=? 0 then
    mostrar ("⚠️ " ++ entreComillas (nombre producto) ++ " está agotado")%string "warning" ;;
    ret carrito
  else
    match find (fun item => id_eqb (id (ren_producto item)) (id producto)) carrito with
    | Some itemExistente =>
        if stock producto <=? ren_cantidad itemExistente then
          mostrar ("⚠️ No hay más stock disponible de "
                   ++ entreComillas (nombre producto))%string "warning" ;;
          ret carrito
        else
          mostrar ("➕ " ++ entreComillas (nombre producto)
                   ++ " agregado al carrito")%string "success" ;;
          ret (CatalogoCliente.mutate_first
                 (fun item => id_eqb (id (ren_producto item)) (id producto))
                 (fun item => con_cantidad (ren_cantidad item + 1) item) carrito)
    | None =>
        mostrar ("➕ " ++ entreComillas (nombre producto)
                 ++ " agregado al carrito")%string "success" ;;
        ret (carrito ++ [ {| ren_producto := producto; ren_cantidad := 1;
                             ren_compartido := compartido |} ])
    end.

(** The click on a search suggestion: the product is looked up in
    [pos.productos] and that object is added. *)
Definition elegirSugerencia (productoId : option string) (carrito : list Renglon)
  : M R (list Renglon) :=
  productos <- gets pos_productos ;;
  match find (fun p => id_eqb (id p) productoId) productos with
  | Some producto => agregarAlCarrito producto true carrito
  | None => ret carrito
  end.

Definition eliminarDelCarrito (index : nat) (carrito : list Renglon) : M R (list Renglon) :=
  match nth_error carrito index with
  | None => throw "TypeError: item is undefined"
  | Some item =>
      if 1 <? ren_cantidad item then
        mostrar ("➖ Una unidad de " ++ entreComillas (nombre (ren_producto item))
                 ++ " eliminada")%string "success" ;;
        ret (cambiar index (fun item => con_cantidad (ren_cantidad item - 1) item) carrito)
      else
        mostrar ("🗑️ " ++ entreComillas (nombre (ren_producto item))
                 ++ " eliminado del carrito")%string "success" ;;
        ret (quitar index carrito)
  end.

Definition incrementarEnCarrito (index : nat) (carrito : list Renglon) : M R (list Renglon) :=
  match nth_error carrito index with
  | None => throw "TypeError: item is undefined"
  | Some item =>
      if stock (ren_producto item) <=? ren_cantidad item then
        mostrar ("⚠️ No hay más stock disponible de "
                 ++ entreComillas (nombre (ren_producto item)))%string "warning" ;;
        ret carrito
      else
        mostrar ("➕ Una unidad de " ++ entreComillas (nombre (ren_producto item))
                 ++ " agregada")%string "success" ;;
        ret (cambiar index (fun item => con_cantidad (ren_cantidad item + 1) item) carrito)
  end.

(** The listener of the remove button of a line. *)
Definition quitarDelCarrito (index : nat) (carrito : list Renglon) : M R (list Renglon) :=
  mostrar "🗑️ Producto eliminado del carrito" "success" ;;
  ret (quitar index carrito).

(** [limpiarCarrito()]; [confirma] is the answer to the [confirm] dialog if
    it is shown. *)
Definition limpiarCarrito (confirma : bool) (carrito : list Renglon) : M R (list Renglon) :=
  if (List.length carrito =? 0)%nat then ret carrito
  else if confirma then
    mostrar "🗑️ Carrito limpiado" "success" ;;
    ret []
  else ret carrito.

(** The loop of [finalizarVenta] over the lines of the cart: [hechos] are
    the lines already gone through, as they now stand; [porHacer] are those
    to come, as they stood when the loop began, and [ver] turns each of
    them into what the assignments made since have left of it.  The loop
    gives back the cart as it leaves it, with the error that stopped it if
    one did. *)
Fixpoint descontar (hechos porHacer : list Renglon) (ver : Renglon -> Renglon)
  : M R (Outcome unit * list Renglon) :=
  match porHacer with
  | [] => ret (Returned tt, hechos)
  | item0 :: resto =>
      let item := ver item0 in
      let nuevoStock := stock (ren_producto item) - ren_cantidad item in
      r <- intentar (updateStock (id (ren_producto item)) nuevoStock) ;;
      match r with
      | Thrown e => ret (Thrown e, hechos ++ map ver porHacer)
      | Returned _ =>
          productos <- gets pos_productos ;;
          match find (fun p => id_eqb (id p) (id (ren_producto item))) productos with
          | Some _ =>
              modify (fun w =>
                set_pos_productos
                  (CatalogoCliente.mutate_first
                     (fun p => id_eqb (id p) (id (ren_producto item)))
                     (with_stock nuevoStock) (pos_productos w)) w) ;;
              descontar (map (asignar (id (ren_producto item)) nuevoStock) (hechos ++ [item]))
                        resto
                        (fun l => asignar (id (ren_producto item)) nuevoStock (ver l))
          | None => descontar (hechos ++ [item]) resto ver
          end
      end
  end.

(** [finalizarVenta()]; [metodoPago] is what the payment dialog resolves
    to if it is shown: a method, or [None] when the operator cancels. *)
Definition finalizarVenta (metodoPago : option string) (carrito : list Renglon)
  : M R (list Renglon) :=
  if (List.length carrito =? 0)%nat then ret carrito
  else
    let total := totalCarrito carrito in
    if negb (JS.truthy metodoPago) then ret carrito
    else
      let fallo := fun (error : Error) (carrito' : list Renglon) =>
        console_error_ "Error al finalizar venta:" error ;;
        mostrar "❌ Error al procesar la venta" "error" ;;
        ret carrito' in
      r <- descontar [] carrito (fun item => item) ;;
      match r with
      | (Thrown e, carrito') => fallo e carrito'
      | (Returned _, carrito') =>
          v <- intentar (createVenta {| venta_pedido_id := None;
                                        venta_total := total;
                                        venta_metodo_pago := metodoPago;
                                        venta_productos := map lineaDe carrito' |}) ;;
          match v with
          | Thrown e => fallo e carrito'
          | Returned _ =>
              mostrar ("✅ Venta completada por " ++ formatCurrency total)%string "success" ;;
              ret []
          end
      end.

(** What the operator does with the cart. *)
Inductive Gesto :=
| Escanear (producto : Producto)    (* the product that the scanned code was found to be *)
| Sugerencia (productoId : option string)
| Decrementar (index : nat)
| Incrementar (index : nat)
| Quitar (index : nat)
| Limpiar (confirma : bool).

Definition hacer (g : Gesto) (carrito : list Renglon) : M R (list Renglon) :=
  match g with
  | Escanear producto => agregarAlCarrito producto false carrito
  | Sugerencia productoId => elegirSugerencia productoId carrito
  | Decrementar index => eliminarDelCarrito index carrito
  | Incrementar index => incrementarEnCarrito index carrito
  | Quitar index => quitarDelCarrito index carrito
  | Limpiar confirma => limpiarCarrito confirma carrito
  end.

(** The gestures one after the other; one that throws leaves the cart as
    it was. *)
Fixpoint hacerTodos (gs : list Gesto) (carrito : list Renglon) (w : World R)
  : list Renglon * World R :=
  match gs with
  | [] => (carrito, w)
  | g :: gs' =>
      match hacer g carrito w with
      | (Returned carrito', w') => hacerTodos gs' carrito' w'
      | (Thrown _, w') => hacerTodos gs' carrito w'
      end
  end.

End WithRemote.

End Caja.

(** ** A reference remote store

    The tables of the SQL set-up script with their constraints, answering
    the queries of the database layer the way the hosted store is documented
    to.  The order of [created_at] values is the store's own ([timestamptz]
    comparison) and is a parameter.  [averias] scripts the network: each
    query consumes one entry, and [true] makes its promise reject without
    reaching the tables. *)

Module Tablas.

Record Tablas := {
  t_productos : list Producto;
  t_pedidos : list Pedido;
  t_ventas : list Venta;
  t_serial : Z;
  averias : list bool
}.

Definition with_productos (l : list Producto) (t : Tablas) : Tablas :=
  {| t_productos := l; t_pedidos := t_pedidos t; t_ventas := t_ventas t;
     t_serial := t_serial t; averias := averias t |}.

Definition with_pedidos (l : list Pedido) (t : Tablas) : Tablas :=
  {| t_productos := t_productos t; t_pedidos := l; t_ventas := t_ventas t;
     t_serial := t_serial t; averias := averias t |}.

Definition with_ventas (l : list Venta) (t : Tablas) : Tablas :=
  {| t_productos := t_productos t; t_pedidos := t_pedidos t; t_ventas := l;
     t_serial := t_serial t; averias := averias t |}.

Definition with_averias (l : list bool) (t : Tablas) : Tablas :=
  {| t_productos := t_productos t; t_pedidos := t_pedidos t; t_ventas := t_ventas t;
     t_serial := t_serial t; averias := l |}.

Definition next_serial (t : Tablas) : Tablas :=
  {| t_productos := t_productos t; t_pedidos := t_pedidos t; t_ventas := t_ventas t;
     t_serial := t_serial t + 1; averias := averias t |}.

(** [DEFAULT gen_random_uuid()] *)
Definition nuevoId (t : Tablas) : string :=
  ("id-" ++ JS.numberToString (t_serial t))%string.

Definition con_estado (e : string) (p : Pedido) : Pedido :=
  {| pedido_id := pedido_id p; pedido_datos := pedido_datos p;
     estado := e; pedido_created_at := pedido_created_at p |}.

(** [CHECK (estado IN ('pendiente', 'completado', 'cancelado'))] *)
Definition estado_permitido (e : string) : bool :=
  (e =? "pendiente")%string || (e =? "completado")%string || (e =? "cancelado")%string.

(** [CHECK (metodo_pago IN ('transferencia', 'efectivo'))], [NOT NULL] *)
Definition metodo_permitido (m : option string) : bool :=
  match m with
  | Some s => (s =? "transferencia")%string || (s =? "efectivo")%string
  | None => false
  end.

Definition presente {A} (o : option A) : bool :=
  match o with Some _ => true | None => false end.

(** The [NOT NULL] and [CHECK] constraints of [pedidos] on a new row.  The
    column type of [total], [NUMERIC(10, 2)], is left out: the amount is
    checked and kept as it is given, which is what the table does with a
    whole number of cents below 10^8; other amounts it rounds to cents
    first, or refuses.  The same holds of [total] in [ventas_diarias]. *)
Definition pedido_admisible (p : Pedido) : bool :=
  presente (cliente (pedido_datos p))
  && presente (productos (pedido_datos p))
  && negb (Qle_bool (total (pedido_datos p)) 0)
  && metodo_permitido (metodo_pago (pedido_datos p))
  && presente (tiempo_llegada (pedido_datos p))
  && estado_permitido (estado p).

Definition porNombre (a b : Producto) : Z :=
  match String.compare (nombre a) (nombre b) with
  | Lt => -1
  | Eq => 0
  | Gt => 1
  end.

Section Orden.

(** The store's [<=] on [created_at] values. *)
Variable ts_leb : string -> string -> bool.

(** [order('created_at', { ascending: false })] *)
Definition recienteAntes (a b : string) : Z :=
  if ts_leb b a then (if ts_leb a b then 0 else -1) else 1.

Definition insertarProducto (p : Producto) (t : Tablas) : Response Producto * Tablas :=
  if existsb (fun q => (codigo_barras q =? codigo_barras p)%string) (t_productos t) then
    (WithError "duplicate key value violates unique constraint", t)
  else
    let fila := match id p with
                | Some _ => p
                | None => with_id (Some (nuevoId t)) p
                end in
    (WithData fila, next_serial (with_productos (t_productos t ++ [fila]) t)).

Definition responder {A} (q : Request A) (t : Tablas) : Response A * Tablas :=
  match q in Request T return Response T * Tablas with
  | SelectProductos => (WithData (sort porNombre (t_productos t)), t)
  | InsertProducto p => insertarProducto p t
  | UpdateStockReturning pid n =>
      match update_first (fun p => id_eqb (id p) pid) (with_stock n) (t_productos t) with
      | Some ps =>
          match find (fun p => id_eqb (id p) pid) ps with
          | Some fila => (WithData fila, with_productos ps t)
          | None => (WithError "PGRST116", t)
          end
      | None => (WithError "PGRST116", t)
      end
  | ReplayInsert d =>
      match d with
      | DataProducto p =>
          match insertarProducto p t with
          | (WithData _, t') => (WithData tt, t')
          | (WithError e, t') => (WithError e, t')
          end
      | _ => (WithError "null value violates not-null constraint", t)
      end
  | ReplayUpdate d pid =>
      match d with
      | DataProducto p =>
          (WithData tt,
           with_productos
             (map (fun q => if id_eqb (id q) pid
                            then match id p with Some _ => p | None => with_id (id q) p end
                            else q) (t_productos t)) t)
      | DataStock _ n =>
          (WithData tt,
           with_productos
             (map (fun q => if id_eqb (id q) pid then with_stock n q else q)
                  (t_productos t)) t)
      | DataId _ => (WithData tt, t)
      end
  | ReplayDelete pid =>
      (WithData tt,
       with_productos (filter (fun q => negb (id_eqb (id q) pid)) (t_productos t)) t)
  | SelectPedidosPendientes =>
      (WithData
         (sort (fun a b => recienteAntes (pedido_created_at a) (pedido_created_at b))
               (filter (fun p => (estado p =? "pendiente")%string) (t_pedidos t))), t)
  | InsertPedido p =>
      if pedido_admisible p then
        let fila := {| pedido_id := Some (nuevoId t); pedido_datos := pedido_datos p;
                       estado := estado p; pedido_created_at := pedido_created_at p |} in
        (WithData fila, next_serial (with_pedidos (t_pedidos t ++ [fila]) t))
      else (WithError "new row violates a constraint of table pedidos", t)
  | UpdatePedidoEstado pid e =>
      if estado_permitido e then
        match update_first (fun p => id_eqb (pedido_id p) pid) (con_estado e) (t_pedidos t) with
        | Some ps =>
            match find (fun p => id_eqb (pedido_id p) pid) ps with
            | Some fila => (WithData fila, with_pedidos ps t)
            | None => (WithError "PGRST116", t)
            end
        | None => (WithError "PGRST116", t)
        end
      else (WithError "new row violates check constraint pedidos_estado_check", t)
  | InsertVenta v =>
      if presente (venta_metodo_pago (venta_datos v))
         && match venta_pedido_id (venta_datos v) with
            | Some i => existsb (fun p => id_eqb (pedido_id p) (Some i)) (t_pedidos t)
            | None => true
            end
      then
        let fila := {| venta_id := Some (nuevoId t); venta_datos := venta_datos v;
                       venta_created_at := venta_created_at v |} in
        (WithData fila, next_serial (with_ventas (t_ventas t ++ [fila]) t))
      else (WithError "new row violates a constraint of table ventas_diarias", t)
  | SelectStock pid =>
      match find (fun p => id_eqb (id p) pid) (t_productos t) with
      | Some p => (WithData (stock p), t)
      | None => (WithError "PGRST116", t)
      end
  | UpdateStock pid n =>
      (WithData tt,
       with_productos
         (map (fun q => if id_eqb (id q) pid then with_stock n q else q)
              (t_productos t)) t)
  | SelectVentas desde hasta =>
      (WithData
         (sort (fun a b => recienteAntes (venta_created_at a) (venta_created_at b))
               (filter (fun v => ts_leb desde (venta_created_at v)
                                 && ts_leb (venta_created_at v) hasta)
                       (t_ventas t))), t)
  end.

Definition ejecutar (A : Type) (q : Request A) (t : Tablas) : Reply A * Tablas :=
  match averias t with
  | true :: resto => (Rejects "TypeError: Failed to fetch", with_averias resto t)
  | false :: resto =>
      let (r, t') := responder q (with_averias resto t) in (Resolves r, t')
  | [] =>
      let (r, t') := responder q t in (Resolves r, t')
  end.

End Orden.

(** The store with [created_at] values compared as ISO-8601 strings in
    one time zone, for which the order of the strings is the order in
    time. *)
#[global] Instance tablas : Supabase Tablas := ejecutar String.leb.

Definition vacias : Tablas :=
  {| t_productos := []; t_pedidos := []; t_ventas := []; t_serial := 1; averias := [] |}.

End Tablas.

(** A browser that has loaded the page, facing a remote store [r]. *)
Definition inicio {R} (online : bool) (r : R) (c : Clock) : World R :=
  {| isOnline := online; remote := r; sent := [];
     localStorage := {| PRODUCTOS_KEY := None; LAST_SYNC_KEY := None;
                        PENDING_CHANGES_KEY := None; CARRITO_KEY := None |};
     clock := c; console_error := []; mensajes := [];
     pos_productos := []; pos_pedidos := [];
     catalogo_productos := []; catalogo_carrito := [] |}.

(** ** Concrete data used by the examples *)

Module Ejemplos.

Definition config : Config :=
  {| SCANNER_MIN_BARCODE_LENGTH := 3;
     SCANNER_MAX_TIME_BETWEEN_CHARS := 50;
     SCANNER_BUFFER_CLEAR_TIMEOUT := 100;
     CARRITO_MAX_CANTIDAD_POR_PRODUCTO := 10 |}.

Definition pulsar (k : string) (t : Z) : Scanner.KeyboardEvent :=
  {| Scanner.key := k; Scanner.activeElement := None; Scanner.now := t |}.

Definition rafaga : list Scanner.KeyboardEvent :=
  [pulsar "5" 1010; pulsar "0" 1020; pulsar "1" 1030; pulsar " " 1040].

Definition reloj : Clock :=
  {| Date_now := 1704103200000; Date_iso := "2024-01-01T10:00:00.000Z" |}.

(** Half a second before the end of 2024-01-02. *)
Definition reloj_fin_de_dia : Clock :=
  {| Date_now := 1704239999500; Date_iso := "2024-01-02T23:59:59.500Z" |}.

Definition linea : Linea :=
  {| linea_id := Some "p1"; linea_nombre := "Pan"; cantidad := 1; linea_precio := 5 |}.

(** An order whose customer name is one letter after a blank. *)
Definition pedido_nombre_en_blanco : DatosPedido :=
  {| cliente := Some " a"; productos := Some [linea]; total := 10;
     metodo_pago := Some "efectivo"; tiempo_llegada := Some "15 min" |}.

Definition venta (i created : string) (t : Q) : Venta :=
  {| venta_id := Some i;
     venta_datos := {| venta_pedido_id := None; venta_total := t;
                       venta_metodo_pago := Some "efectivo";
                       venta_productos := [linea] |};
     venta_created_at := created |}.

(** Sales of 100 and 50 on 2024-01-01, of 30 on 2024-01-02, and one more
    on the day after. *)
Definition v1 : Venta := venta "v1" "2024-01-01T10:00:00.000Z" 100.
Definition v2 : Venta := venta "v2" "2024-01-01T18:30:00.000Z" 50.
Definition v3 : Venta := venta "v3" "2024-01-02T09:15:00.000Z" 30.
Definition v4 : Venta := venta "v4" "2024-01-03T08:00:00.000Z" 75.

Definition tienda_con_ventas : Tablas.Tablas :=
  Tablas.with_ventas [v1; v2; v3; v4] Tablas.vacias.

Definition pan (n : Z) : Producto :=
  {| id := Some "p1"; codigo_barras := "7501"; nombre := "Pan"; precio := 5;
     stock := n; imagen_url := None; created_at := "2024-01-01T08:00:00.000Z" |}.

(** The catalogue lists the bread with one unit in stock, then, restocked,
    with three; the customer adds it to the cart both times. *)
Definition dosClics : list CatalogoCliente.Operacion :=
  [CatalogoCliente.Agregar (pan 1); CatalogoCliente.Agregar (pan 3)].

Definition navegador : World Tablas.Tablas := inicio true Tablas.vacias reloj.

(** A store holding one order, already delivered. *)
Definition pedido_entregado : Pedido :=
  {| pedido_id := Some "o1";
     pedido_datos := {| cliente := Some "Ana"; productos := Some [linea]; total := 5;
                        metodo_pago := Some "efectivo"; tiempo_llegada := Some "15 min" |};
     estado := "completado";
     pedido_created_at := "2024-01-01T09:00:00.000Z" |}.

Definition tienda_con_entregado : Tablas.Tablas :=
  Tablas.with_pedidos [pedido_entregado] Tablas.vacias.

Definition mundo_offline : World Tablas.Tablas := inicio false Tablas.vacias reloj.

Definition venta_directa : DatosVenta :=
  {| venta_pedido_id := None; venta_total := 5; venta_metodo_pago := Some "efectivo";
     venta_productos := [linea] |}.

(** Two changes wait in the queue; the network will drop the first query
    and let the second through. *)
Definition cola : list PendingChange :=
  [ {| operation := "insert"; data := DataProducto (pan 4); timestamp := 1704100000000 |};
    {| operation := "update"; data := DataStock (Some "p1") 7; timestamp := 1704100000500 |} ].

Definition mundo_con_cola : World Tablas.Tablas :=
  {| isOnline := true;
     remote := Tablas.with_averias [true; false]
                 (Tablas.with_productos [pan 4] Tablas.vacias);
     sent := [];
     localStorage := {| PRODUCTOS_KEY := Some [pan 7]; LAST_SYNC_KEY := None;
                        PENDING_CHANGES_KEY := Some cola; CARRITO_KEY := None |};
     clock := reloj; console_error := []; mensajes := [];
     pos_productos := []; pos_pedidos := [];
     catalogo_productos := []; catalogo_carrito := [] |}.

(** A pending order of two loaves, ten in stock; the network drops the
    fourth query, which is the insertion of the sale. *)
Definition dos_panes : Linea :=
  {| linea_id := Some "p1"; linea_nombre := "Pan"; cantidad := 2; linea_precio := 5 |}.

Definition pedido_pendiente : Pedido :=
  {| pedido_id := Some "o2";
     pedido_datos := {| cliente := Some "Luis"; productos := Some [dos_panes]; total := 10;
                        metodo_pago := Some "efectivo"; tiempo_llegada := Some "15 min" |};
     estado := "pendiente";
     pedido_created_at := "2024-01-01T09:30:00.000Z" |}.

Definition mundo_entrega : World Tablas.Tablas :=
  inicio true
    (Tablas.with_averias [false; false; false; true]
       (Tablas.with_pedidos [pedido_pendiente]
          (Tablas.with_productos [pan 10] Tablas.vacias)))
    reloj.

(** The bread listed with fifty units, added to the cart eleven times. *)
Definition onceClics : list CatalogoCliente.Operacion :=
repeat (CatalogoCliente.Agregar (pan 50)) 11.


Definition leche (n : Z) : Producto :=
  {| id := Some "p2"; codigo_barras := "7502"; nombre := "Leche"; precio := 20;
     stock := n; imagen_url := None; created_at := "2024-01-01T08:00:00.000Z" |}.

(** A browser online whose network drops the next query. *)
Definition mundo_sin_red : World Tablas.Tablas :=
  inicio true (Tablas.with_averias [true] Tablas.vacias) reloj.

(** A browser online facing a store that holds the bread, four in stock. *)
Definition mundo_con_pan : World Tablas.Tablas :=
  inicio true (Tablas.with_productos [pan 4] Tablas.vacias) reloj.

(** The point of sale offline, the bread listed with ten in stock, and a
    cart of two loaves picked from the suggestions. *)
Definition caja_offline : World Tablas.Tablas :=
  {| isOnline := false; remote := Tablas.vacias; sent := [];
     localStorage := {| PRODUCTOS_KEY := Some [pan 10]; LAST_SYNC_KEY := None;
                        PENDING_CHANGES_KEY := None; CARRITO_KEY := None |};
     clock := reloj; console_error := []; mensajes := [];
     pos_productos := [pan 10]; pos_pedidos := [];
     catalogo_productos := []; catalogo_carrito := [] |}.

Definition carro_dos_panes : list Caja.Renglon :=
  [ {| Caja.ren_producto := pan 10; Caja.ren_cantidad := 2; Caja.ren_compartido := true |} ].

(** The currency format is the host's; the examples leave the amount out. *)
Definition sinFormato (amount : Q) : string := "$".

(** The store of the delivery example with the network up. *)
Definition mundo_entrega_con_red : World Tablas.Tablas :=
  inicio true
    (Tablas.with_pedidos [pedido_pendiente]
       (Tablas.with_productos [pan 10] Tablas.vacias))
    reloj.


End Ejemplos.

(** ** The checks of order validation, one by one *)

Module Validacion.

Definition nombre (p : DatosPedido) : string :=
  match cliente p with Some c => c | None => "" end.

(** The customer name is missing or blank. *)
Definition falta_nombre (p : DatosPedido) : bool :=
  (JS.trim (nombre p) =? "")%string.

(** The customer name, as given, has fewer than two characters. *)
Definition nombre_corto (p : DatosPedido) : bool :=
  JS.length (nombre p) <? 2.

(** The customer name has fewer than two characters once trimmed. *)
Definition nombre_recortado_corto (p : DatosPedido) : bool :=
  JS.length (JS.trim (nombre p)) <? 2.

Definition sin_productos (p : DatosPedido) : bool :=
  match productos p with
  | Some (_ :: _) => false
  | _ => true
  end.

Definition sin_tiempo (p : DatosPedido) : bool := negb (JS.truthy (tiempo_llegada p)).
Definition sin_metodo (p : DatosPedido) : bool := negb (JS.truthy (metodo_pago p)).
Definition total_no_positivo (p : DatosPedido) : bool := Qle_bool (total p) 0.

(** Validity in the words of the specification: the length of the name is
    measured after trimming. *)
Definition valido_segun_spec (p : DatosPedido) : bool :=
  negb (falta_nombre p) && negb (nombre_recortado_corto p)
  && negb (sin_productos p) && negb (sin_tiempo p) && negb (sin_metodo p)
  && negb (total_no_positivo p).

(** Validity with the length of the name measured as given. *)
Definition valido (p : DatosPedido) : bool :=
  negb (falta_nombre p) && negb (nombre_corto p)
  && negb (sin_productos p) && negb (sin_tiempo p) && negb (sin_metodo p)
  && negb (total_no_positivo p).

End Validacion.

(** ** Views of the world used in the statements *)

(** The pending queue, as [getPendingChanges] reads it. *)
Definition pendientes {R} (w : World R) : list PendingChange :=
  match PENDING_CHANGES_KEY (localStorage w) with
  | Some l => l
  | None => []
  end.

(** The local mirror of the product table, as [getFromLocalStorage] reads it. *)
Definition espejo {R} (w : World R) : list Producto :=
  match PRODUCTOS_KEY (localStorage w) with
  | Some l => l
  | None => []
  end.

(** The product that [addProducto] stores when offline. *)
Definition productoTemporal (c : Clock) (producto : Producto) : Producto :=
  {| id := Some ("temp_" ++ JS.numberToString (Date_now c))%string;
     codigo_barras := codigo_barras producto;
     nombre := nombre producto;
     precio := precio producto;
     stock := stock producto;
     imagen_url := or_null (imagen_url producto);
     created_at := Date_iso c |}.

(** ** Replay, seen from the remote store *)

(** The query that replaying a pending change sends, by kind of operation;
    a change of any other kind sends none. *)
Definition consultaDe (c : PendingChange) : list Sent :=
  if (operation c =? "insert")%string then [sentOf (ReplayInsert (data c))]
  else if (operation c =? "update")%string then
    [sentOf (ReplayUpdate (data c) (data_id (data c)))]
  else if (operation c =? "delete")%string then [sentOf (ReplayDelete (data_id (data c)))]
  else [].

(** The entries that [syncPendingChanges] logs for the errors [es]. *)
Definition etiquetar (es : list Error) : list (string * Error) :=
  map (fun e => ("Error al sincronizar cambio:", e)) es.

(** The remote store answering the queries [qs] one after the other: the
    errors of the rejected ones, in order, and the store at the end. *)
Fixpoint rechazos {R} {S : Supabase R} (qs : list Sent) (r : R) : list Error * R :=
  match qs with
  | [] => ([], r)
  | existT _ _ q :: qs' =>
      let (reply, r') := exec q r in
      let (es, r'') := rechazos qs' r' in
      (match reply with
       | Rejects e => e :: es
       | Resolves _ => es
       end, r'')
  end.

(** ** Fulfilment, seen from the remote store *)

(** The two queries by which [updateMultipleStock] lowers the stock of the
    product of a line, given the stock [actual] that the first one read. *)
Definition decremento (la : Linea * Z) : list Sent :=
  let (l, actual) := la in
  [sentOf (SelectStock (linea_id l)); sentOf (UpdateStock (linea_id l) (actual - cantidad l))].

(** The remote store going through the stock step for the lines [ls]: for
    each line, in order, the read of the stock of its product is answered
    with data, [actual], and the write of [actual - cantidad], sent next, is
    answered without error.  [actuales] are the stocks read, line by line,
    and the last argument is the store at the end. *)
Inductive Surtido {R} {S : Supabase R} : R -> list Linea -> list Z -> R -> Prop :=
| Surtido_nil (r : R) : Surtido r [] [] r
| Surtido_cons (r r1 r2 r' : R) (l : Linea) (ls : list Linea)
    (actual : Z) (actuales : list Z) :
    exec (SelectStock (linea_id l)) r = (Resolves (WithData actual), r1) ->
    exec (UpdateStock (linea_id l) (actual - cantidad l)) r1 = (Resolves (WithData tt), r2) ->
    Surtido r2 ls actuales r' ->
    Surtido r (l :: ls) (actual :: actuales) r'.

(** A query of the stock-update step. *)
Definition deStock (q : Sent) : Prop :=
  match q with
  | existT _ _ (SelectStock _) => True
  | existT _ _ (UpdateStock _ _) => True
  | _ => False
  end.

(** ** The report, day by day *)

(** The date part of the creation timestamp of a sale. *)
Definition claveDia (v : Venta) : string := JS.beforeT (venta_created_at v).

(** The sales of the day [f] among [vs], in the order of [vs]. *)
Definition delDia (f : string) (vs : list Venta) : list Venta :=
  filter (fun v => (claveDia v =? f)%string) vs.

(** The sum of the totals of [vs], added one after the other from zero. *)
Definition suma (vs : list Venta) : Q :=
  fold_left (fun acc v => (acc + venta_total (venta_datos v))%Q) vs 0%Q.

(** The entry of the day [f] for the sales [vs]. *)
Definition diaDe (vs : list Venta) (f : string) : VentasDia :=
  {| fecha := f;
     dia_total := suma (delDia f vs);
     dia_cantidad := Z.of_nat (List.length (delDia f vs));
     dia_ventas := delDia f vs |}.

(** The days on which [vs] has sales, each once, in order of first
    appearance. *)
Definition fechas (vs : list Venta) : list string :=
  fold_left (fun acc v => if existsb (fun f => (f =? claveDia v)%string) acc
                          then acc else acc ++ [claveDia v]) vs [].

(** [a] is a day no earlier than [b], both being calendar dates. *)
Definition noAnterior (a b : VentasDia) : Prop :=
  match Fecha.valueOf (fecha a), Fecha.valueOf (fecha b) with
  | Some x, Some y => y <= x
  | _, _ => False
  end.

(** ** Invariants of the cart *)

Module Carrito.

(** The quantity of the line is a positive integer. *)
Definition positiva (i : Item) : Prop := 1 <= item_cantidad i.

(** The claim on a line: a positive quantity, within the stock that the
    line remembers and within the cap. *)
Definition acotada (cfg : Config) (i : Item) : Prop :=
  1 <= item_cantidad i
  /\ item_cantidad i <= item_stock i
  /\ item_cantidad i <= CARRITO_MAX_CANTIDAD_POR_PRODUCTO cfg.

(** A line that remembers the stock [st] lists for its product, with a
    positive quantity within it. *)
Definition alDia (st : option string -> Z) (i : Item) : Prop :=
  item_stock i = st (item_id i)
  /\ 1 <= item_cantidad i /\ item_cantidad i <= item_stock i.

Definition esAgregar (o : CatalogoCliente.Operacion) : bool :=
  match o with
  | CatalogoCliente.Agregar _ => true
  | _ => false
  end.

(** An add-to-cart of a product listed with positive stock [st]. *)
Definition agregaListado (st : option string -> Z) (o : CatalogoCliente.Operacion) : Prop :=
  match o with
  | CatalogoCliente.Agregar p => 0 < stock p /\ stock p = st (id p)
  | _ => True
  end.

End Carrito.

(** ** Writes of the status of an order *)

(** The order and the status that a query writes, if it is an update of
    the status of an order. *)
Definition estadoEscrito (q : Sent) : option (option string * string) :=
  match q with
  | existT _ _ (UpdatePedidoEstado pid e) => Some (pid, e)
  | _ => None
  end.

(** ** Strings without leading white space *)

Definition sinBlancoInicial (s : string) : Prop :=
  match s with
  | EmptyString => True
  | String c _ => JS.isWhiteSpace c = false
  end.

(** ** Runs of the scanner *)

Module Lector.

(** What happens to the scanner: a [keypress] event, or the buffer-expiry
    timer coming due at time [t]. *)
Inductive Suceso :=
| Tecla (e : Scanner.KeyboardEvent)
| Expira (t : Z).

Definition paso (cfg : Config) (x : Suceso) (s : Scanner.BarcodeScanner)
  : Scanner.BarcodeScanner :=
  match x with
  | Tecla e => Scanner.handleKeyPress cfg e s
  | Expira t => Scanner.timerFired t s
  end.

Definition correr (cfg : Config) (xs : list Suceso) (s : Scanner.BarcodeScanner)
  : Scanner.BarcodeScanner :=
  fold_left (fun st x => paso cfg x st) xs s.

(** An Enter key that the handler processes. *)
Definition esEnter (x : Suceso) : bool :=
  match x with
  | Tecla e => negb (Scanner.ignored e) && (Scanner.key e =? "Enter")%string
  | Expira _ => false
  end.

(** Successive events more than the maximum interval apart. *)
Fixpoint gapsAbove (cfg : Config) (t : Z) (es : list Scanner.KeyboardEvent) : Prop :=
  match es with
  | [] => True
  | e :: es' =>
      SCANNER_MAX_TIME_BETWEEN_CHARS cfg < Scanner.now e - t
      /\ gapsAbove cfg (Scanner.now e) es'
  end.

End Lector.

(** ** The cart and its stored copy *)

(** The stored copy of the cart, as [cargarCarrito] reads it. *)
Definition carritoGuardado {R} (w : World R) : list Item :=
  match CARRITO_KEY (localStorage w) with
  | Some c => c
  | None => []
  end.

(** From [w] to [w'] the cart and its stored copy are left alone, or the
    cart is stored as it now stands. *)
Definition guardaOCalla {R} (w w' : World R) : Prop :=
  (catalogo_carrito w' = catalogo_carrito w
   /\ CARRITO_KEY (localStorage w') = CARRITO_KEY (localStorage w))
  \/ CARRITO_KEY (localStorage w') = Some (catalogo_carrito w').

(** ** Parts of the world that a computation leaves alone *)

(** The computation [m] never changes what [f] reads from the world,
    whether it returns or throws. *)
Definition deja {R X A} (f : World R -> X) (m : M R A) : Prop :=
  forall w, f (snd (m w)) = f w.

(** The product that [addProducto] sends to the remote store. *)
Definition productoNuevo (c : Clock) (producto : Producto) : Producto :=
  {| id := None;
     codigo_barras := codigo_barras producto;
     nombre := nombre producto;
     precio := precio producto;
     stock := stock producto;
     imagen_url := or_null (imagen_url producto);
     created_at := Date_iso c |}.

(** The time of the last refresh of the mirror. *)
Definition ultimaSync {R} (w : World R) : option string :=
  LAST_SYNC_KEY (localStorage w).

(** The stored pending queue. *)
Definition cola {R} (w : World R) : option (list PendingChange) :=
  PENDING_CHANGES_KEY (localStorage w).

(** ** Invariants of the cart of the point of sale *)

Module CajaInv.

(** The product identifiers of the lines, in order. *)
Definition ids (carrito : list Caja.Renglon) : list (option string) :=
  map (fun item => id (Caja.ren_producto item)) carrito.

(** A quantity of at least one, of a product that has stock. *)
Definition positiva (item : Caja.Renglon) : Prop :=
  1 <= Caja.ren_cantidad item /\ 0 < stock (Caja.ren_producto item).

(** The quantity of the line is within the stock of its product object. *)
Definition surtida (item : Caja.Renglon) : Prop :=
  Caja.ren_cantidad item <= stock (Caja.ren_producto item).

Definition esAlta (g : Caja.Gesto) : bool :=
  match g with
  | Caja.Escanear _ => true
  | Caja.Sugerencia _ => true
  | _ => false
  end.

(** The stock update that [finalizarVenta] asks for a line. *)
Definition cambioDe (t : Z) (item : Caja.Renglon) : PendingChange :=
  {| operation := "update";
     data := DataStock (id (Caja.ren_producto item))
                       (stock (Caja.ren_producto item) - Caja.ren_cantidad item);
     timestamp := t |}.

End CajaInv.

(** ** Fulfilment against the reference store *)

Module Entrega.

(** The stock of a product once the lines [us] of an order have been taken
    from it. *)
Definition surtir (us : list (option string * Z)) (q : Producto) : Producto :=
  match find (fun u => id_eqb (id q) (fst u)) us with
  | Some u => with_stock (stock q - snd u) q
  | None => q
  end.

(** Every line is of a product that the table holds. *)
Definition enTabla (ps : list Producto) (u : option string * Z) : Prop :=
  exists p, find (fun p => id_eqb (id p) (fst u)) ps = Some p.

(** The pending orders of the table, latest first: what the query of
    [getPedidosPendientes] asks for. *)
Definition listaPendientes (t : Tablas.Tablas) : list Pedido :=
  sort (fun a b => Tablas.recienteAntes String.leb (pedido_created_at a) (pedido_created_at b))
       (filter (fun p => (estado p =? "pendiente")%string) (Tablas.t_pedidos t)).

(** The order of identifier [i] marked as delivered, the others as they
    are. *)
Definition entregar (i : string) (p : Pedido) : Pedido :=
  if id_eqb (pedido_id p) (Some i) then Tablas.con_estado "completado" p else p.

End Entrega.

(** ** The sale against the reference store *)

Module Venta.


(** The line is of a product that the table holds. *)
Definition enTabla (ps : list Producto) (l : Caja.Renglon) : Prop :=
  exists p, find (fun p => id_eqb (id p) (id (Caja.ren_producto l))) ps = Some p.

End Venta.

(** ** Amounts as the tables hold them *)

(** An amount that a column of type [NUMERIC(10, 2)] holds as it is given:
    a whole number of cents, below 10^8.  Any other amount is rounded to
    cents, and refused when eight digits do not hold what comes before the
    point. *)
Definition enCentavos (t : Q) : Prop :=
  (exists n : Z, (t == n # 100)%Q) /\ (t < 100000000)%Q.

(** * Properties *)

(** ** Barcode scanner *)

Section ScannerFacts.

Import Scanner.
Variable cfg : Config.

Lemma handleKeyPress_tecla e s :
  tecla e ->
  buffer (handleKeyPress cfg e s) = (carriedOver cfg e s ++ key e)%string
  /\ lastKeyTime (handleKeyPress cfg e s) = now e
  /\ dispatched (handleKeyPress cfg e s) = dispatched s
  /\ called (handleKeyPress cfg e s) = called s
  /\ callback (handleKeyPress cfg e s) = callback s.
Proof.
  intros [Hi Hk]. unfold handleKeyPress, carriedOver. rewrite Hi.
  apply String.eqb_neq in Hk. rewrite Hk. cbv zeta.
  destruct ((SCANNER_MAX_TIME_BETWEEN_CHARS cfg <? now e - lastKeyTime s)
            && (0 <? JS.length (buffer s)));
    match goal with
    | |- context [if ?c then set_isScanning true ?x else ?x] => destruct c
    end; cbn; auto.
Qed.

Lemma carriedOver_close e s :
  now e - lastKeyTime s < SCANNER_MAX_TIME_BETWEEN_CHARS cfg ->
  carriedOver cfg e s = buffer s.
Proof.
  intros H. unfold carriedOver.
  replace (SCANNER_MAX_TIME_BETWEEN_CHARS cfg <? now e - lastKeyTime s) with false; auto.
  symmetry. apply Z.ltb_ge. lia.
Qed.

Lemma append_assoc (a b c : string) : ((a ++ b) ++ c = a ++ (b ++ c))%string.
Proof. induction a; cbn; congruence. Qed.

Lemma handleKeys_burst es : forall s,
  Forall tecla es ->
  gapsBelow cfg (lastKeyTime s) es ->
  buffer (handleKeys cfg es s) = (buffer s ++ keys es)%string
  /\ dispatched (handleKeys cfg es s) = dispatched s
  /\ called (handleKeys cfg es s) = called s
  /\ callback (handleKeys cfg es s) = callback s.
Proof.
  induction es as [|e es IH]; intros s HF HG; cbn.
  - repeat split; auto. induction (buffer s); cbn; congruence.
  - inversion HF as [|? ? He HF']; subst. destruct HG as [Hg HG].
    destruct (handleKeyPress_tecla e s He) as (Hb & Hl & Hd & Hc & Hcb).
    fold (handleKeys cfg es (handleKeyPress cfg e s)).
    destruct (IH (handleKeyPress cfg e s) HF') as (Hb' & Hd' & Hc' & Hcb').
    { rewrite Hl. exact HG. }
    rewrite Hb', Hd', Hc', Hcb', Hb, Hd, Hc, Hcb, carriedOver_close by exact Hg.
    rewrite append_assoc. auto.
Qed.

Lemma handleKeyPress_Enter e s :
  ignored e = false -> key e = "Enter" ->
  buffer (handleKeyPress cfg e s) = ""
  /\ isScanning (handleKeyPress cfg e s) = false
  /\ dispatched (handleKeyPress cfg e s) =
       (if SCANNER_MIN_BARCODE_LENGTH cfg <=? JS.length (buffer s)
        then dispatched s ++ [JS.trim (buffer s)] else dispatched s)
  /\ called (handleKeyPress cfg e s) =
       (if (SCANNER_MIN_BARCODE_LENGTH cfg <=? JS.length (buffer s)) && callback s
        then called s ++ [JS.trim (buffer s)] else called s).
Proof.
  intros Hi Hk. unfold handleKeyPress. rewrite Hi, Hk. cbn.
  destruct (SCANNER_MIN_BARCODE_LENGTH cfg <=? JS.length (buffer s));
    destruct (callback s) eqn:Hc; cbn; rewrite ?Hc; auto.
Qed.

(** C6.  Character keys arriving less than the maximum interval apart
    accumulate in the buffer; an Enter that then finds at least the minimum
    number of characters dispatches exactly one [barcode-scanned] event,
    whose code is the trimmed concatenation of what the buffer held after
    the first key's own gap check and of the keys typed; and whatever the
    buffer holds, handling an Enter leaves the buffer empty and the
    [isScanning] flag down, with one event carrying the trimmed buffer when
    it is long enough and no event when it is too short. *)
Theorem scanner_burst_emits_one_code (s : BarcodeScanner) (e0 : KeyboardEvent)
    (es : list KeyboardEvent) (enter : KeyboardEvent) :
  Forall tecla (e0 :: es) ->
  gapsBelow cfg (now e0) es ->
  ignored enter = false -> key enter = "Enter" ->
  SCANNER_MIN_BARCODE_LENGTH cfg <= JS.length (buffer (handleKeys cfg (e0 :: es) s)) ->
  let s1 := handleKeys cfg (e0 :: es) s in
  let s2 := handleKeyPress cfg enter s1 in
  let codigo := JS.trim (carriedOver cfg e0 s ++ keys (e0 :: es)) in
  buffer s1 = (carriedOver cfg e0 s ++ keys (e0 :: es))%string
  /\ dispatched s1 = dispatched s
  /\ dispatched s2 = dispatched s ++ [codigo]
  /\ called s2 = (if callback s then called s ++ [codigo] else called s)
  /\ buffer s2 = "" /\ isScanning s2 = false
  /\ (forall s', buffer (handleKeyPress cfg enter s') = ""
                 /\ isScanning (handleKeyPress cfg enter s') = false
                 /\ (SCANNER_MIN_BARCODE_LENGTH cfg <= JS.length (buffer s') ->
                     dispatched (handleKeyPress cfg enter s')
                       = dispatched s' ++ [JS.trim (buffer s')])
                 /\ (JS.length (buffer s') < SCANNER_MIN_BARCODE_LENGTH cfg ->
                     dispatched (handleKeyPress cfg enter s') = dispatched s')).
Proof.
  intros HF HG Hi Hk Hmin s1 s2 codigo.
  inversion HF as [|? ? He0 HF']; subst.
  destruct (handleKeyPress_tecla e0 s He0) as (Hb & Hl & Hd & Hc & Hcb).
  destruct (handleKeys_burst es (handleKeyPress cfg e0 s) HF') as (Hb' & Hd' & Hc' & Hcb').
  { rewrite Hl. exact HG. }
  assert (Hs1 : buffer s1 = (carriedOver cfg e0 s ++ keys (e0 :: es))%string).
  { unfold s1. cbn. fold (handleKeys cfg es (handleKeyPress cfg e0 s)).
    rewrite Hb', Hb, append_assoc. reflexivity. }
  assert (Hd1 : dispatched s1 = dispatched s).
  { unfold s1. cbn. fold (handleKeys cfg es (handleKeyPress cfg e0 s)). congruence. }
  assert (Hc1 : called s1 = called s).
  { unfold s1. cbn. fold (handleKeys cfg es (handleKeyPress cfg e0 s)). congruence. }
  assert (Hcb1 : callback s1 = callback s).
  { unfold s1. cbn. fold (handleKeys cfg es (handleKeyPress cfg e0 s)). congruence. }
  fold s1 in Hmin. clearbody s1.
  destruct (handleKeyPress_Enter enter s1 Hi Hk) as (Eb & Ef & Ed & Ec).
  fold s2 in Eb, Ef, Ed, Ec. clearbody s2.
  apply Z.leb_le in Hmin. rewrite Hmin in Ed, Ec.
  rewrite Bool.andb_true_l in Ec.
  rewrite Hs1, Hd1 in Ed. rewrite Hs1, Hc1, Hcb1 in Ec.
  repeat split; auto.
  - apply (handleKeyPress_Enter enter s' Hi Hk).
  - apply (handleKeyPress_Enter enter s' Hi Hk).
  - intros Hge. destruct (handleKeyPress_Enter enter s' Hi Hk) as (_ & _ & Ed' & _).
    rewrite Ed'. apply Z.leb_le in Hge. rewrite Hge. reflexivity.
  - intros Hlt. destruct (handleKeyPress_Enter enter s' Hi Hk) as (_ & _ & Ed' & _).
    rewrite Ed'. apply Z.leb_gt in Hlt. rewrite Hlt. reflexivity.
Qed.

End ScannerFacts.

(** A scanner that has just been initialised reads the burst 7, 5, 0, 1 and
    a blank, ten milliseconds apart, then an Enter: one event, code 7501. *)
Lemma scanner_burst_witness :
  let s := Scanner.init Scanner.constructor in
  let e0 := Ejemplos.pulsar "7" 1000 in
  let enter := Ejemplos.pulsar "Enter" 5000 in
  Forall Scanner.tecla (e0 :: Ejemplos.rafaga)
  /\ Scanner.gapsBelow Ejemplos.config (Scanner.now e0) Ejemplos.rafaga
  /\ Scanner.dispatched
       (Scanner.handleKeyPress Ejemplos.config enter
          (Scanner.handleKeys Ejemplos.config (e0 :: Ejemplos.rafaga) s)) = ["7501"].
Proof.
  intros s e0 enter.
  assert (HF : Forall Scanner.tecla (e0 :: Ejemplos.rafaga)).
  { repeat constructor; discriminate. }
  assert (HG : Scanner.gapsBelow Ejemplos.config (Scanner.now e0) Ejemplos.rafaga).
  { cbn. lia. }
  split; [exact HF|]. split; [exact HG|].
  refine (proj1 (proj2 (proj2
    (scanner_burst_emits_one_code Ejemplos.config s e0 Ejemplos.rafaga enter
       HF HG eq_refl eq_refl _)))).
  vm_compute. discriminate.
Defined.

(** ** Order validation *)

Section ValidacionFacts.

Import PedidosHelper Validacion.

Lemma total_no_positivo_false p :
  total_no_positivo p = false <-> (0 < total p)%Q.
Proof.
  unfold total_no_positivo. split; intros H.
  - apply Qnot_le_lt. intros E. apply Qle_bool_iff in E. congruence.
  - apply Bool.not_true_is_false. intros E. apply Qle_bool_iff in E.
    exact (Qlt_not_le _ _ H E).
Qed.

(** The result of [validarPedido], check by check. *)
Lemma validarPedido_cases p :
  validarPedido p =
    if falta_nombre p then invalido "El nombre del cliente es requerido"
    else if nombre_corto p then invalido "El nombre debe tener al menos 2 caracteres"
    else if sin_productos p then invalido "El pedido debe contener al menos un producto"
    else if sin_tiempo p then invalido "Debe seleccionar un tiempo de llegada"
    else if sin_metodo p then invalido "Debe seleccionar un método de pago"
    else if total_no_positivo p then invalido "El total del pedido debe ser mayor a cero"
    else {| valid := true; error := None |}.
Proof.
  unfold validarPedido, falta_nombre, nombre_corto, sin_productos, sin_tiempo,
    sin_metodo, total_no_positivo, nombre.
  destruct (cliente p) as [c|]; [|reflexivity].
  destruct (String.eqb_spec c "") as [->|Hc]; [reflexivity|]. cbn [orb].
  destruct (JS.trim c =? "")%string; [reflexivity|].
  destruct (JS.length c <? 2); [reflexivity|].
  destruct (productos p) as [[|l ls]|]; reflexivity.
Qed.

(** C4, as the code has it.  [validarPedido] accepts an order exactly when
    the customer name is not blank, the name as given (untrimmed) has at
    least two characters, there is at least one line, arrival time and
    payment method are present and the total is strictly positive; an
    order that fails is answered with the message of the first failing
    check, in this order. *)
Theorem validarPedido_first_failing_check (p : DatosPedido) :
  (valid (validarPedido p) = true <->
     JS.trim (nombre p) <> "" /\ 2 <= JS.length (nombre p)
     /\ (exists l ls, productos p = Some (l :: ls))
     /\ JS.truthy (tiempo_llegada p) = true /\ JS.truthy (metodo_pago p) = true
     /\ (0 < total p)%Q)
  /\ valid (validarPedido p) = valido p
  /\ (valid (validarPedido p) = true -> error (validarPedido p) = None)
  /\ (falta_nombre p = true ->
        validarPedido p = invalido "El nombre del cliente es requerido")
  /\ (falta_nombre p = false -> nombre_corto p = true ->
        validarPedido p = invalido "El nombre debe tener al menos 2 caracteres")
  /\ (falta_nombre p = false -> nombre_corto p = false -> sin_productos p = true ->
        validarPedido p = invalido "El pedido debe contener al menos un producto")
  /\ (falta_nombre p = false -> nombre_corto p = false -> sin_productos p = false ->
      sin_tiempo p = true ->
        validarPedido p = invalido "Debe seleccionar un tiempo de llegada")
  /\ (falta_nombre p = false -> nombre_corto p = false -> sin_productos p = false ->
      sin_tiempo p = false -> sin_metodo p = true ->
        validarPedido p = invalido "Debe seleccionar un método de pago")
  /\ (falta_nombre p = false -> nombre_corto p = false -> sin_productos p = false ->
      sin_tiempo p = false -> sin_metodo p = false -> total_no_positivo p = true ->
        validarPedido p = invalido "El total del pedido debe ser mayor a cero").
Proof.
  rewrite validarPedido_cases. unfold valido.
  split; [|repeat split; intros;
           repeat match goal with H : _ = _ |- _ => rewrite H end; try reflexivity].
  - unfold falta_nombre, nombre_corto, sin_productos, sin_tiempo, sin_metodo.
    destruct (String.eqb_spec (JS.trim (nombre p)) "") as [E|E]; cbn.
    { split; [discriminate|]. intros (H & _). contradiction. }
    destruct (Z.ltb_spec (JS.length (nombre p)) 2) as [L|L]; cbn.
    { split; [discriminate|]. intros (_ & H & _). lia. }
    destruct (productos p) as [[|l ls]|]; cbn.
    { split; [discriminate|]. intros (_ & _ & (l & ls & H) & _). discriminate. }
    2:{ split; [discriminate|]. intros (_ & _ & (l & ls & H) & _). discriminate. }
    destruct (JS.truthy (tiempo_llegada p)); cbn.
    2:{ split; [discriminate|]. intros (_ & _ & _ & H & _). discriminate. }
    destruct (JS.truthy (metodo_pago p)); cbn.
    2:{ split; [discriminate|]. intros (_ & _ & _ & _ & H & _). discriminate. }
    destruct (total_no_positivo p) eqn:T; cbn.
    + split; [discriminate|]. intros (_ & _ & _ & _ & _ & H).
      apply total_no_positivo_false in H. congruence.
    + apply total_no_positivo_false in T.
      split; [|reflexivity]. intros _. repeat split; eauto.
  - destruct (falta_nombre p), (nombre_corto p), (sin_productos p), (sin_tiempo p),
      (sin_metodo p), (total_no_positivo p); reflexivity.
  - destruct (falta_nombre p), (nombre_corto p), (sin_productos p), (sin_tiempo p),
      (sin_metodo p), (total_no_positivo p); cbn in *; congruence.
Qed.

(** C4 as stated fails: the name [" a"] is one character long after
    trimming, and the order is accepted. *)
Lemma validarPedido_trim_counterexample :
  valid (validarPedido Ejemplos.pedido_nombre_en_blanco) = true
  /\ valido_segun_spec Ejemplos.pedido_nombre_en_blanco = false
  /\ JS.length (JS.trim (nombre Ejemplos.pedido_nombre_en_blanco)) = 1.
Proof. vm_compute. repeat split. Qed.

End ValidacionFacts.

(** ** The database layer offline *)

Section OfflineFacts.

Context {R : Type} {S : Supabase R}.

Ltac run := cbv [bind gets modify ret throw try_catch]; cbn.

(** C1.  Offline, [createPedido], [createVenta] and [getVentasPorDia] throw
    their own "not available offline" error and leave the world as it was;
    [addProducto] returns the product under a temporary identifier after
    appending it to the local mirror, [updateStock] returns the mirrored
    product after updating it in the mirror, each of the two appends
    exactly one change to the pending queue, and neither sends a query. *)
Theorem offline_gating (w : World R) (pedido : DatosPedido) (venta : DatosVenta)
    (desde hasta : string) (producto : Producto) (pid : option string) (n : Z) :
  isOnline w = false ->
  createPedido pedido w = (Thrown "No se pueden crear pedidos en modo offline", w)
  /\ createVenta venta w = (Thrown "No se pueden registrar ventas en modo offline", w)
  /\ getVentasPorDia desde hasta w
       = (Thrown "No se pueden obtener reportes en modo offline", w)
  /\ (let nuevo := productoTemporal (clock w) producto in
      let w' := snd (addProducto producto w) in
      fst (addProducto producto w) = Returned nuevo
      /\ id nuevo = Some ("temp_" ++ JS.numberToString (Date_now (clock w)))%string
      /\ espejo w' = espejo w ++ [nuevo]
      /\ pendientes w' = pendientes w ++
           [ {| operation := "insert"; data := DataProducto nuevo;
                timestamp := Date_now (clock w) |} ]
      /\ sent w' = sent w /\ remote w' = remote w)
  /\ (let w' := snd (updateStock pid n w) in
      fst (updateStock pid n w) = Returned (find (fun p => id_eqb (id p) pid) (espejo w'))
      /\ espejo w' =
           match update_first (fun p => id_eqb (id p) pid) (with_stock n) (espejo w) with
           | Some ps => ps
           | None => espejo w
           end
      /\ pendientes w' = pendientes w ++
           [ {| operation := "update"; data := DataStock pid n;
                timestamp := Date_now (clock w) |} ]
      /\ sent w' = sent w /\ remote w' = remote w).
Proof.
  intros Hoff.
  repeat split.
  - unfold createPedido. run. rewrite Hoff. reflexivity.
  - unfold createVenta. run. rewrite Hoff. reflexivity.
  - unfold getVentasPorDia. run. rewrite Hoff. reflexivity.
  - unfold addProducto. run. rewrite Hoff. reflexivity.
  - unfold addProducto. run. rewrite Hoff. reflexivity.
  - unfold addProducto. run. rewrite Hoff. reflexivity.
  - unfold addProducto. run. rewrite Hoff. reflexivity.
  - unfold addProducto. run. rewrite Hoff. reflexivity.
  - unfold updateStock, updateInLocalStorage, getFromLocalStorage, espejo. run.
    rewrite Hoff. cbn.
    destruct (update_first _ _ _); reflexivity.
  - unfold updateStock, updateInLocalStorage, getFromLocalStorage, espejo. run.
    rewrite Hoff. cbn.
    destruct (update_first _ _ _); reflexivity.
  - unfold updateStock, updateInLocalStorage, getFromLocalStorage, pendientes. run.
    rewrite Hoff. cbn.
    destruct (update_first _ _ _); reflexivity.
  - unfold updateStock, updateInLocalStorage, getFromLocalStorage. run.
    rewrite Hoff. cbn.
    destruct (update_first _ _ _); reflexivity.
  - unfold updateStock, updateInLocalStorage, getFromLocalStorage. run.
    rewrite Hoff. cbn.
    destruct (update_first _ _ _); reflexivity.
Qed.

End OfflineFacts.

(** ** Replay of the pending queue *)

Section ReplayFacts.

Context {R : Type} {S : Supabase R}.

Lemma replay_one (c : PendingChange) (w : World R) :
  let body := try_catch (replay c)
                (fun error => console_error_ "Error al sincronizar cambio:" error) in
  let w' := snd (body w) in
  fst (body w) = Returned tt
  /\ sent w' = sent w ++ consultaDe c
  /\ console_error w' = console_error w ++ etiquetar (fst (rechazos (consultaDe c) (remote w)))
  /\ remote w' = snd (rechazos (consultaDe c) (remote w))
  /\ localStorage w' = localStorage w
  /\ isOnline w' = isOnline w.
Proof.
  unfold replay, consultaDe.
  destruct (operation c =? "insert")%string;
    [|destruct (operation c =? "update")%string;
      [|destruct (operation c =? "delete")%string]];
    cbv [bind gets modify ret throw try_catch await console_error_ sentOf]; cbn;
    try (destruct (exec _ (remote w)) as [[e|r] r']; cbn;
         rewrite ?app_nil_r; repeat split; reflexivity).
  rewrite !app_nil_r. repeat split; reflexivity.
Qed.

Lemma rechazos_app (qs1 qs2 : list Sent) (r : R) :
  rechazos (qs1 ++ qs2) r =
    (fst (rechazos qs1 r) ++ fst (rechazos qs2 (snd (rechazos qs1 r))),
     snd (rechazos qs2 (snd (rechazos qs1 r)))).
Proof.
  revert r. induction qs1 as [|[A q] qs1 IH]; intros r; cbn.
  - destruct (rechazos qs2 r); reflexivity.
  - destruct (exec q r) as [reply r']. rewrite IH.
    destruct (rechazos qs1 r') as [es1 r1]; cbn.
    destruct (rechazos qs2 r1) as [es2 r2]; cbn.
    destruct reply; reflexivity.
Qed.

Lemma replay_all (l : list PendingChange) : forall (w : World R),
  let loop := for_of l (fun change =>
                try_catch (replay change)
                  (fun error => console_error_ "Error al sincronizar cambio:" error)) in
  let w' := snd (loop w) in
  fst (loop w) = Returned tt
  /\ sent w' = sent w ++ flat_map consultaDe l
  /\ console_error w' =
       console_error w ++ etiquetar (fst (rechazos (flat_map consultaDe l) (remote w)))
  /\ remote w' = snd (rechazos (flat_map consultaDe l) (remote w))
  /\ localStorage w' = localStorage w
  /\ isOnline w' = isOnline w.
Proof.
  induction l as [|c l IH]; intros w; cbn.
  - rewrite !app_nil_r. repeat split; reflexivity.
  - destruct (replay_one c w) as (H1 & H2 & H3 & H4 & H5 & H6).
    cbv zeta in *. unfold bind at 1 2 3 4 5 6.
    destruct (try_catch (replay c) _ w) as [o w1] eqn:E. cbn in H1, H2, H3, H4, H5, H6.
    subst o.
    destruct (IH w1) as (I1 & I2 & I3 & I4 & I5 & I6). cbv zeta in *.
    rewrite rechazos_app. cbn [fst snd].
    rewrite I1, I2, I3, I4, I5, I6, H2, H3, H4, H5, H6.
    unfold etiquetar. rewrite map_app, !app_assoc.
    repeat split; reflexivity.
Qed.

(** The sweep of [syncPendingChanges] over the queue. *)
Lemma syncPendingChanges_sweep (w : World R) :
  isOnline w = true ->
  let w' := snd (syncPendingChanges w) in
  let qs := flat_map consultaDe (pendientes w) in
  fst (syncPendingChanges w) = Returned tt
  /\ sent w' = sent w ++ qs
  /\ console_error w' = console_error w ++ etiquetar (fst (rechazos qs (remote w)))
  /\ remote w' = snd (rechazos qs (remote w))
  /\ pendientes w' = []
  /\ fst (getPendingChanges w') = Returned []
  /\ espejo w' = espejo w.
Proof.
  intros Hon. unfold syncPendingChanges, pendientes, espejo.
  cbv [bind gets getPendingChanges]. rewrite Hon. cbn [negb].
  destruct (PENDING_CHANGES_KEY (localStorage w)) as [[|c l]|] eqn:EP; cbn;
    try (rewrite ?EP, ?app_nil_r; repeat split; reflexivity).
  pose proof (replay_all (c :: l) w) as H. cbv zeta in H. cbn in H.
  destruct H as (H1 & H2 & H3 & H4 & H5 & H6).
  match goal with
  | |- context [bind ?m ?k w] => change (bind m k w) with (for_of (c :: l)
      (fun change => try_catch (replay change)
         (fun error => console_error_ "Error al sincronizar cambio:" error)) w) in *
  end.
  destruct (for_of (c :: l) _ w) as [o w1] eqn:E. cbn in *. subst o.
  cbv [setPendingChanges modify]. cbn.
  rewrite H2, H3, H4, H5. repeat split; reflexivity.
Qed.

(** X29.  When the database is online, [syncPendingChanges] sends the query
    of every queued change, by kind of operation and in the order of the
    queue, whatever the remote store answers; each query whose promise is
    rejected, and no other, leaves one entry in the error log; the method
    returns normally, and afterwards the pending queue is empty.  The order
    of the queue is the order in which [savePendingChange] was called: it
    appends at the end. *)
Theorem syncPendingChanges_replays_all_then_clears (w : World R) :
  isOnline w = true ->
  let w' := snd (syncPendingChanges w) in
  let qs := flat_map consultaDe (pendientes w) in
  fst (syncPendingChanges w) = Returned tt
  /\ sent w' = sent w ++ qs
  /\ console_error w' = console_error w ++ etiquetar (fst (rechazos qs (remote w)))
  /\ remote w' = snd (rechazos qs (remote w))
  /\ pendientes w' = []
  /\ fst (getPendingChanges w') = Returned []
  /\ espejo w' = espejo w
  /\ (forall op d,
        pendientes (snd (savePendingChange op d w))
          = pendientes w ++ [ {| operation := op; data := d;
                                 timestamp := Date_now (clock w) |} ]).
Proof.
  intros Hon. cbv zeta.
  destruct (syncPendingChanges_sweep w Hon) as (H1 & H2 & H3 & H4 & H5 & H6 & H7).
  repeat (split; [assumption|]).
  intros op d. reflexivity.
Qed.

End ReplayFacts.

(** ** Reads that never fail *)

Section ReadFacts.

Context {R : Type} {S : Supabase R}.

(** C10.  [getPedidosPendientes] always returns a list and never throws:
    offline it is the empty list, with no query sent; online it is the data
    of the reply, and the empty list again when the query is rejected or
    answered with an error, which is just what an empty table gives. *)
Theorem getPedidosPendientes_never_throws (w : World R) :
  exists pedidos,
    fst (getPedidosPendientes w) = Returned pedidos
    /\ (isOnline w = false -> pedidos = [] /\ snd (getPedidosPendientes w) = w)
    /\ (isOnline w = true ->
          sent (snd (getPedidosPendientes w)) = sent w ++ [sentOf SelectPedidosPendientes]
          /\ pedidos = match fst (exec SelectPedidosPendientes (remote w)) with
                       | Resolves (WithData d) => d
                       | Resolves (WithError _) => []
                       | Rejects _ => []
                       end).
Proof.
  unfold getPedidosPendientes.
  cbv [bind gets modify ret throw try_catch await data_or_throw console_error_]. cbn.
  destruct (isOnline w) eqn:Hon.
  - destruct (exec SelectPedidosPendientes (remote w)) as [[e|[e|d]] r']; cbn;
      eexists; (split; [reflexivity|split; [discriminate|intros _; split; reflexivity]]).
  - exists []. split; [reflexivity|]. split; [auto|discriminate].
Qed.

Lemma getProductos_returns (w : World R) :
  exists ps, fst (getProductos w) = Returned ps.
Proof.
  unfold getProductos.
  cbv [bind gets modify ret throw try_catch await data_or_throw console_error_
       saveToLocalStorage getFromLocalStorage]. cbn.
  destruct (isOnline w).
  - destruct (exec SelectProductos (remote w)) as [[e|[e|d]] r']; cbn;
      eexists; reflexivity.
  - eexists; reflexivity.
Qed.

(** C9.  After [cargarProductos] the public catalogue holds exactly the
    products returned by [getProductos] whose stock is greater than zero, in
    the same order, while the point of sale keeps them all. *)
Theorem catalogo_hides_products_without_stock (w : World R) :
  exists todos,
    fst (getProductos w) = Returned todos
    /\ catalogo_productos (snd (CatalogoCliente.cargarProductos w))
         = filter (fun p => 0 <? stock p) todos
    /\ (forall p, In p (catalogo_productos (snd (CatalogoCliente.cargarProductos w)))
                  <-> In p todos /\ 0 < stock p)
    /\ pos_productos (snd (POS.cargarProductos w)) = todos.
Proof.
  destruct (getProductos_returns w) as [todos H]. exists todos.
  assert (Hc : catalogo_productos (snd (CatalogoCliente.cargarProductos w))
               = filter (fun p => 0 <? stock p) todos).
  { unfold CatalogoCliente.cargarProductos. cbv [try_catch bind modify].
    destruct (getProductos w) as [o w1]. cbn in H. subst o. reflexivity. }
  repeat split; auto.
  - rewrite Hc in H0. apply filter_In in H0. tauto.
  - rewrite Hc in H0. apply filter_In in H0. destruct H0 as [_ H0].
    apply Z.ltb_lt in H0. exact H0.
  - intros [Hin Hpos]. rewrite Hc. apply filter_In. split; auto.
    apply Z.ltb_lt. exact Hpos.
  - unfold POS.cargarProductos. cbv [try_catch bind modify].
    destruct (getProductos w) as [o w1]. cbn in H. subst o. reflexivity.
Qed.

End ReadFacts.

(** ** Order fulfilment *)

Section FulfilmentFacts.

Context {R : Type} {S : Supabase R}.

Ltac run :=
  cbv [bind gets modify ret throw try_catch await data_or_throw console_error_ mostrar
       updateInLocalStorage getFromLocalStorage saveToLocalStorage]; cbn.

Lemma for_of_cons {A} (x : A) (l : list A) (body : A -> M R unit) (w : World R) :
  for_of (x :: l) body w =
    match body x w with
    | (Returned _, w') => for_of l body w'
    | (Thrown e, w') => (Thrown e, w')
    end.
Proof. reflexivity. Qed.

Lemma updateOneStock_trace (l : Linea) (w : World R) :
  let m := updateOneStock (linea_id l, cantidad l) in
  let w' := snd (m w) in
  isOnline w' = isOnline w
  /\ exists qs, sent w' = sent w ++ qs /\ Forall deStock qs
       /\ (fst (m w) = Returned tt -> exists actual, qs = decremento (l, actual)).
Proof.
  unfold updateOneStock. run.
  destruct (exec (SelectStock (linea_id l)) (remote w)) as [[e|[e|actual]] r1]; cbn.
  1,2: split; [reflexivity|]; eexists; split; [reflexivity|];
       split; [repeat constructor|discriminate].
  destruct (exec (UpdateStock (linea_id l) (actual - cantidad l)) r1) as [[e|[e|[]]] r2]; cbn.
  1,2: split; [reflexivity|]; eexists; split; [rewrite <- app_assoc; reflexivity|];
       split; [repeat constructor|discriminate].
  destruct (update_first _ _ _); cbn;
    (split; [reflexivity|]; eexists; split; [rewrite <- app_assoc; reflexivity|];
     split; [repeat constructor|intros _; exists actual; reflexivity]).
Qed.

Lemma stock_loop (ls : list Linea) : forall (w : World R),
  let m := for_of (POS.actualizacionesDe ls) updateOneStock in
  let w' := snd (m w) in
  isOnline w' = isOnline w
  /\ exists qs, sent w' = sent w ++ qs /\ Forall deStock qs
       /\ (fst (m w) = Returned tt ->
           exists actuales, List.length actuales = List.length ls
                            /\ qs = flat_map decremento (combine ls actuales)).
Proof.
  induction ls as [|l ls IH]; intros w.
  - cbn. split; [reflexivity|]. exists []. rewrite app_nil_r.
    repeat split; auto. intros _. exists []. split; reflexivity.
  - cbv zeta.
    change (POS.actualizacionesDe (l :: ls))
      with ((linea_id l, cantidad l) :: POS.actualizacionesDe ls).
    rewrite !for_of_cons.
    destruct (updateOneStock_trace l w) as (Ho & qs1 & Hs & Hf & Hr). cbv zeta in *.
    destruct (updateOneStock (linea_id l, cantidad l) w) as [[[]|e] w1];
      cbn [fst snd] in *.
    + destruct (IH w1) as (Ho' & qs2 & Hs' & Hf' & Hr'). cbv zeta in *.
      split; [congruence|]. exists (qs1 ++ qs2).
      split; [rewrite Hs', Hs, app_assoc; reflexivity|].
      split; [apply Forall_app; auto|].
      intros Hok. destruct (Hr eq_refl) as [actual ->].
      destruct (Hr' Hok) as (actuales & Hlen & ->).
      exists (actual :: actuales). split; [cbn; congruence|reflexivity].
    + split; [exact Ho|]. exists qs1. repeat split; auto. discriminate.
Qed.

Lemma updateMultipleStock_trace (ls : list Linea) (w : World R) :
  isOnline w = true ->
  let m := updateMultipleStock (POS.actualizacionesDe ls) in
  let w' := snd (m w) in
  isOnline w' = true
  /\ (forall b, fst (m w) = Returned b -> b = true)
  /\ exists qs, sent w' = sent w ++ qs /\ Forall deStock qs
       /\ (fst (m w) = Returned true ->
           exists actuales, List.length actuales = List.length ls
                            /\ qs = flat_map decremento (combine ls actuales)).
Proof.
  intros Hon. unfold updateMultipleStock.
  destruct (stock_loop ls w) as (Ho & qs & Hs & Hf & Hr). cbv zeta in *.
  cbv [bind gets try_catch ret throw console_error_ modify]. rewrite Hon.
  destruct (for_of (POS.actualizacionesDe ls) updateOneStock w) as [[[]|e] w1]; cbn in *.
  - split; [congruence|]. split; [intros b Hb; congruence|].
    exists qs. repeat split; auto.
  - split; [congruence|]. split; [discriminate|].
    exists qs. repeat split; auto. discriminate.
Qed.

(** A turn of the loop that returns has read the stock from the store and
    written it lowered by the quantity of the line. *)
Lemma updateOneStock_surtido (l : Linea) (w w' : World R) :
  updateOneStock (linea_id l, cantidad l) w = (Returned tt, w') ->
  exists actual r1,
    exec (SelectStock (linea_id l)) (remote w) = (Resolves (WithData actual), r1)
    /\ exec (UpdateStock (linea_id l) (actual - cantidad l)) r1
         = (Resolves (WithData tt), remote w')
    /\ sent w' = sent w ++ decremento (l, actual).
Proof.
  unfold updateOneStock. run.
  destruct (exec (SelectStock (linea_id l)) (remote w)) as [[e|[e|actual]] r1] eqn:E1; cbn;
    try discriminate.
  destruct (exec (UpdateStock (linea_id l) (actual - cantidad l)) r1) as [[e|[e|[]]] r2] eqn:E2;
    cbn; try discriminate.
  destruct (update_first _ _ _); cbn; intros H; apply (f_equal snd) in H;
    cbn [snd] in H; subst w'; cbn;
    exists actual, r1; rewrite <- app_assoc;
    repeat split; first [reflexivity | assumption].
Qed.

Lemma stock_loop_surtido (ls : list Linea) : forall (w w' : World R),
  for_of (POS.actualizacionesDe ls) updateOneStock w = (Returned tt, w') ->
  exists actuales,
    List.length actuales = List.length ls
    /\ sent w' = sent w ++ flat_map decremento (combine ls actuales)
    /\ Surtido (remote w) ls actuales (remote w').
Proof.
  induction ls as [|l ls IH]; intros w w' H.
  - cbn in H. inversion H; subst. exists []. rewrite app_nil_r.
    repeat split; constructor.
  - change (POS.actualizacionesDe (l :: ls))
      with ((linea_id l, cantidad l) :: POS.actualizacionesDe ls) in H.
    rewrite for_of_cons in H.
    destruct (updateOneStock (linea_id l, cantidad l) w) as [[[]|e] w1] eqn:E;
      [|discriminate].
    destruct (updateOneStock_surtido l w w1 E) as (actual & r1 & H1 & H2 & H3).
    destruct (IH w1 w' H) as (actuales & Hlen & Hs & Hsur).
    exists (actual :: actuales). split; [cbn; congruence|]. split.
    + rewrite Hs, H3, <- app_assoc. reflexivity.
    + econstructor; eassumption.
Qed.

Lemma updateMultipleStock_surtido (ls : list Linea) (w : World R) :
  fst (updateMultipleStock (POS.actualizacionesDe ls) w) = Returned true ->
  let w' := snd (updateMultipleStock (POS.actualizacionesDe ls) w) in
  exists actuales,
    List.length actuales = List.length ls
    /\ sent w' = sent w ++ flat_map decremento (combine ls actuales)
    /\ Surtido (remote w) ls actuales (remote w').
Proof.
  unfold updateMultipleStock.
  cbv [bind gets try_catch ret throw console_error_ modify].
  destruct (isOnline w); [|discriminate].
  destruct (for_of (POS.actualizacionesDe ls) updateOneStock w) as [[[]|e] w1] eqn:E;
    cbn; [|discriminate].
  intros _. apply stock_loop_surtido. exact E.
Qed.

Lemma createVenta_online (v : DatosVenta) (w : World R) :
  isOnline w = true ->
  let q := InsertVenta (nuevaVenta (Date_iso (clock w)) v) in
  let w' := snd (createVenta v w) in
  sent w' = sent w ++ [sentOf q]
  /\ remote w' = snd (exec q (remote w))
  /\ isOnline w' = true
  /\ localStorage w' = localStorage w.
Proof.
  intros Hon. unfold createVenta. run. rewrite Hon.
  destruct (exec _ (remote w)) as [[e|[e|d]] r1]; cbn; auto.
Qed.

Lemma updatePedidoEstado_online (pid : option string) (e : string) (w : World R) :
  isOnline w = true ->
  let q := UpdatePedidoEstado pid e in
  let w' := snd (updatePedidoEstado pid e w) in
  sent w' = sent w ++ [sentOf q]
  /\ remote w' = snd (exec q (remote w))
  /\ isOnline w' = true
  /\ localStorage w' = localStorage w.
Proof.
  intros Hon. unfold updatePedidoEstado. run. rewrite Hon.
  destruct (exec _ (remote w)) as [[e'|[e'|d]] r1]; cbn; auto.
Qed.

Lemma cargarPedidosPendientes_online (w : World R) :
  isOnline w = true ->
  let w' := snd (POS.cargarPedidosPendientes w) in
  fst (POS.cargarPedidosPendientes w) = Returned tt
  /\ sent w' = sent w ++ [sentOf SelectPedidosPendientes]
  /\ isOnline w' = true.
Proof.
  intros Hon. unfold POS.cargarPedidosPendientes, getPedidosPendientes. run. rewrite Hon.
  destruct (exec _ (remote w)) as [[e'|[e'|d]] r1]; cbn; auto.
Qed.

Lemma cargarProductos_online (w : World R) :
  isOnline w = true ->
  let w' := snd (POS.cargarProductos w) in
  fst (POS.cargarProductos w) = Returned tt
  /\ sent w' = sent w ++ [sentOf SelectProductos].
Proof.
  intros Hon. unfold POS.cargarProductos, getProductos. run. rewrite Hon.
  destruct (exec _ (remote w)) as [[e'|[e'|d]] r1]; cbn; auto.
Qed.

Lemma getPedidosPendientes_found (w w1 : World R) pedidos :
  getPedidosPendientes w = (Returned pedidos, w1) -> pedidos <> [] ->
  isOnline w1 = true.
Proof.
  unfold getPedidosPendientes. run.
  destruct (isOnline w) eqn:Hon.
  - destruct (exec _ (remote w)) as [[e'|[e'|d]] r1]; cbn;
      intros H; inversion H; subst; cbn; auto.
  - intros H; inversion H; subst. congruence.
Qed.

Lemma id_eqb_eq (a b : option string) : id_eqb a b = true -> a = b.
Proof.
  destruct a, b; cbn; try discriminate; auto.
  intros H. apply String.eqb_eq in H. congruence.
Qed.

Lemma or_null_some (s : string) : s <> "" -> or_null (Some s) = Some s.
Proof.
  intros H. unfold or_null, JS.truthy. apply String.eqb_neq in H. rewrite H. reflexivity.
Qed.

Lemma refresco (w : World R) :
  isOnline w = true ->
  let r := try_catch
             (mostrar "✅ Pedido completado exitosamente" "success" ;;
              POS.cargarPedidosPendientes ;;
              POS.cargarProductos)
             (fun error =>
                console_error_ "Error al confirmar entrega:" error ;;
                mostrar "Error al procesar el pedido" "error") w in
  fst r = Returned tt
  /\ sent (snd r) = sent w ++ [sentOf SelectPedidosPendientes; sentOf SelectProductos].
Proof.
  intros Hon. cbv zeta. cbv [try_catch bind mostrar modify].
  destruct (cargarPedidosPendientes_online
              (add_mensaje ("✅ Pedido completado exitosamente", "success") w) Hon)
    as (H1 & H2 & H3).
  destruct (POS.cargarPedidosPendientes _) as [r1 w1]. cbn [fst snd] in *. subst r1.
  destruct (cargarProductos_online w1 H3) as (H4 & H5).
  destruct (POS.cargarProductos w1) as [r2 w2]. cbn [fst snd] in *. subst r2.
  split; [reflexivity|]. cbn. rewrite H5, H2, <- app_assoc. reflexivity.
Qed.

(** The body of [confirmarEntrega] once the order is found and confirmed:
    the three steps in sequence, each failure going to the [catch]. *)
Lemma confirmarEntrega_unfold (w w1 : World R) (pedidoId : string)
    (pedidos : list Pedido) (pedido : Pedido) (lineas : list Linea) :
  getPedidosPendientes w = (Returned pedidos, w1) ->
  find (fun p => id_eqb (pedido_id p) (Some pedidoId)) pedidos = Some pedido ->
  productos (pedido_datos pedido) = Some lineas ->
  let fallo := fun error =>
    console_error_ (R := R) "Error al confirmar entrega:" error ;;
    mostrar "Error al procesar el pedido" "error" in
  POS.confirmarEntrega pedidoId true w =
    match updateMultipleStock (POS.actualizacionesDe lineas) w1 with
    | (Thrown e, w2) => fallo e w2
    | (Returned _, w2) =>
        match createVenta (POS.ventaDe pedido lineas) w2 with
        | (Thrown e, w3) => fallo e w3
        | (Returned _, w3) =>
            match updatePedidoEstado (pedido_id pedido) "completado" w3 with
            | (Thrown e, w4) => fallo e w4
            | (Returned _, w4) =>
                try_catch
                  (mostrar "✅ Pedido completado exitosamente" "success" ;;
                   POS.cargarPedidosPendientes ;;
                   POS.cargarProductos) fallo w4
            end
        end
    end.
Proof.
  intros Hget Hfind Hprod fallo. unfold POS.confirmarEntrega.
  unfold try_catch at 1. unfold bind at 1. rewrite Hget. cbv beta.
  rewrite Hfind. cbn [negb]. rewrite Hprod.
  unfold bind at 1.
  destruct (updateMultipleStock _ w1) as [[b|e] w2]; [|reflexivity].
  unfold bind at 1.
  destruct (createVenta _ w2) as [[v|e] w3]; [|reflexivity].
  unfold bind at 1.
  destruct (updatePedidoEstado _ _ w3) as [[p|e] w4]; [|reflexivity].
  reflexivity.
Qed.

(** The queries of [confirmarEntrega] for an order found and confirmed, by
    outcome of its three steps. *)
Lemma confirmarEntrega_found (w w1 : World R) (pedidoId : string)
    (pedidos : list Pedido) (pedido : Pedido) (lineas : list Linea) :
  getPedidosPendientes w = (Returned pedidos, w1) ->
  find (fun p => id_eqb (pedido_id p) (Some pedidoId)) pedidos = Some pedido ->
  productos (pedido_datos pedido) = Some lineas ->
  let paso1 := updateMultipleStock (POS.actualizacionesDe lineas) w1 in
  let w2 := snd paso1 in
  let paso2 := createVenta (POS.ventaDe pedido lineas) w2 in
  let w3 := snd paso2 in
  let paso3 := updatePedidoEstado (pedido_id pedido) "completado" w3 in
  let fila := nuevaVenta (Date_iso (clock w2)) (POS.ventaDe pedido lineas) in
  let venta := sentOf (InsertVenta fila) in
  let completar := sentOf (UpdatePedidoEstado (Some pedidoId) "completado") in
  let final := POS.confirmarEntrega pedidoId true w in
  fst final = Returned tt
  /\ (exists qs, sent w2 = sent w1 ++ qs /\ Forall deStock qs
         /\ (fst paso1 = Returned true ->
             exists actuales, List.length actuales = List.length lineas
                              /\ qs = flat_map decremento (combine lineas actuales)))
  /\ match fst paso1, fst paso2, fst paso3 with
     | Thrown _, _, _ =>
         sent (snd final) = sent w2
         /\ remote (snd final) = remote w2
         /\ localStorage (snd final) = localStorage w2
     | Returned _, Thrown _, _ =>
         sent (snd final) = sent w2 ++ [venta]
         /\ remote (snd final) = snd (exec (InsertVenta fila) (remote w2))
         /\ localStorage (snd final) = localStorage w2
     | Returned _, Returned _, Thrown _ =>
         sent (snd final) = sent w2 ++ [venta; completar]
         /\ remote (snd final) =
              snd (exec (UpdatePedidoEstado (Some pedidoId) "completado")
                     (snd (exec (InsertVenta fila) (remote w2))))
         /\ localStorage (snd final) = localStorage w2
     | Returned _, Returned _, Returned _ =>
         sent (snd final) =
           sent w2 ++ [venta; completar;
                       sentOf SelectPedidosPendientes; sentOf SelectProductos]
     end.
Proof.
  intros Hget Hfind Hprod. cbv zeta.
  assert (Hon1 : isOnline w1 = true).
  { apply (getPedidosPendientes_found w w1 pedidos Hget).
    intros ->. discriminate. }
  assert (Hpid : pedido_id pedido = Some pedidoId).
  { apply find_some in Hfind. apply id_eqb_eq. apply Hfind. }
  rewrite (confirmarEntrega_unfold w w1 pedidoId pedidos pedido lineas Hget Hfind Hprod).
  destruct (updateMultipleStock_trace lineas w1 Hon1) as (Hon2 & Hb1 & qs & Hs1 & Hf1 & Hr1).
  destruct (updateMultipleStock _ w1) as [r1 w2]. cbn [fst snd] in *.
  destruct (createVenta_online (POS.ventaDe pedido lineas) w2 Hon2) as (Hs2 & Hr2 & Hon3 & Hl2).
  destruct (createVenta _ w2) as [r2 w3]. cbn [fst snd] in *.
  destruct (updatePedidoEstado_online (pedido_id pedido) "completado" w3 Hon3)
    as (Hs3 & Hr3 & Hon4 & Hl3).
  rewrite Hpid in Hs3, Hr3, Hon4, Hl3 |- *.
  destruct (updatePedidoEstado _ _ w3) as [r3 w4]. cbn [fst snd] in *.
  destruct (refresco w4 Hon4) as (Hf5 & Hs5).
  split; [|split].
  - destruct r1; [|reflexivity]. destruct r2; [|reflexivity].
    destruct r3; [|reflexivity]. exact Hf5.
  - exists qs. auto.
  - destruct r1; [|cbn; auto]. destruct r2.
    2:{ cbn. rewrite Hs2, Hr2, Hl2. auto. }
    destruct r3.
    2:{ cbn. rewrite Hs3, Hr3, Hl3, Hs2, Hr2, Hl2, <- app_assoc. auto. }
    rewrite Hs5, Hs3, Hs2, <- !app_assoc. reflexivity.
Qed.

(** C3.  For an order that the pending-orders query returned and whose
    delivery the operator confirms, [confirmarEntrega] sends, after the
    look-up: first the queries of the stock step, two per line and line by
    line: the read of the stock of the product of the line, and the write of
    the stock that the store answered to that read, lowered by the quantity
    of the line; then the insertion of a sale whose [pedido_id] is the
    order's; then the update of the order's [estado] to completado.  It
    never throws.  When a step fails, nothing more is sent: no later step,
    no compensating write; the remote store stays as the failed query left
    it and the local mirror as the stock step left it.  When all three
    succeed, only the two reads that refresh the page follow. *)
Theorem confirmarEntrega_three_steps_no_rollback (w w1 : World R) (pedidoId : string)
    (pedidos : list Pedido) (pedido : Pedido) (lineas : list Linea) :
  pedidoId <> "" ->
  getPedidosPendientes w = (Returned pedidos, w1) ->
  find (fun p => id_eqb (pedido_id p) (Some pedidoId)) pedidos = Some pedido ->
  productos (pedido_datos pedido) = Some lineas ->
  let paso1 := updateMultipleStock (POS.actualizacionesDe lineas) w1 in
  let w2 := snd paso1 in
  let paso2 := createVenta (POS.ventaDe pedido lineas) w2 in
  let w3 := snd paso2 in
  let paso3 := updatePedidoEstado (pedido_id pedido) "completado" w3 in
  let fila := nuevaVenta (Date_iso (clock w2)) (POS.ventaDe pedido lineas) in
  let venta := sentOf (InsertVenta fila) in
  let completar := sentOf (UpdatePedidoEstado (Some pedidoId) "completado") in
  let final := POS.confirmarEntrega pedidoId true w in
  fst final = Returned tt
  /\ venta_pedido_id (venta_datos fila) = Some pedidoId
  /\ (exists qs, sent w2 = sent w1 ++ qs /\ Forall deStock qs
         /\ (fst paso1 = Returned true ->
             exists actuales, List.length actuales = List.length lineas
                              /\ qs = flat_map decremento (combine lineas actuales)
                              /\ Surtido (remote w1) lineas actuales (remote w2)))
  /\ match fst paso1, fst paso2, fst paso3 with
     | Thrown _, _, _ =>
         sent (snd final) = sent w2
         /\ remote (snd final) = remote w2
         /\ localStorage (snd final) = localStorage w2
     | Returned _, Thrown _, _ =>
         sent (snd final) = sent w2 ++ [venta]
         /\ remote (snd final) = snd (exec (InsertVenta fila) (remote w2))
         /\ localStorage (snd final) = localStorage w2
     | Returned _, Returned _, Thrown _ =>
         sent (snd final) = sent w2 ++ [venta; completar]
         /\ remote (snd final) =
              snd (exec (UpdatePedidoEstado (Some pedidoId) "completado")
                     (snd (exec (InsertVenta fila) (remote w2))))
         /\ localStorage (snd final) = localStorage w2
     | Returned _, Returned _, Returned _ =>
         sent (snd final) =
           sent w2 ++ [venta; completar;
                       sentOf SelectPedidosPendientes; sentOf SelectProductos]
     end.
Proof.
  intros Hid Hget Hfind Hprod.
  destruct (confirmarEntrega_found w w1 pedidoId pedidos pedido lineas Hget Hfind Hprod)
    as (H1 & H2 & H3).
  cbv zeta. split; [exact H1|]. split; [|split; [|exact H3]].
  - cbn. apply find_some in Hfind. destruct Hfind as [_ Hfind].
    apply id_eqb_eq in Hfind. rewrite Hfind. apply or_null_some. exact Hid.
  - cbv zeta in H2. destruct H2 as (qs & Hs & Hf & _).
    exists qs. split; [exact Hs|]. split; [exact Hf|]. intros Hok.
    destruct (updateMultipleStock_surtido lineas w1 Hok) as (actuales & Hlen & Hs' & Hsur).
    cbv zeta in Hs'. exists actuales. split; [exact Hlen|]. split; [|exact Hsur].
    rewrite Hs in Hs'. apply app_inv_head in Hs'. exact Hs'.
Qed.

End FulfilmentFacts.

(** ** The sales report *)

Section SortFacts.

Context {A : Type} (cmp : A -> A -> Z).

Lemma sort_insert_perm (x : A) (l : list A) : Permutation (sort_insert cmp x l) (x :: l).
Proof.
  induction l as [|y r IH]; cbn; auto.
  destruct (cmp x y <=? 0); auto.
  rewrite IH. apply perm_swap.
Qed.

Lemma sort_perm (l : list A) : Permutation (sort cmp l) l.
Proof.
  induction l as [|x l IH]; auto.
  change (sort cmp (x :: l)) with (sort_insert cmp x (sort cmp l)).
  rewrite sort_insert_perm. auto.
Qed.

(** With a comparator that agrees with a transitive relation [le] on the
    elements at hand, the result is sorted. *)
Lemma sort_sorted (le : A -> A -> Prop) (P : A -> Prop) (l : list A) :
  (forall a b, P a -> P b -> cmp a b <= 0 -> le a b) ->
  (forall a b, P a -> P b -> 0 < cmp a b -> le b a) ->
  (forall a b c, le a b -> le b c -> le a c) ->
  Forall P l -> StronglySorted le (sort cmp l).
Proof.
  intros Hle Hgt Htr. induction l as [|x l IH]; intros HP.
  - constructor.
  - change (sort cmp (x :: l)) with (sort_insert cmp x (sort cmp l)).
    inversion HP as [|? ? Hx HP']; subst. specialize (IH HP').
    assert (HPs : Forall P (sort cmp l)).
    { eapply Permutation_Forall; [symmetry; apply sort_perm|exact HP']. }
    revert IH HPs. generalize (sort cmp l) as s.
    induction s as [|y r IHr]; intros Hs HPs; cbn.
    + repeat constructor.
    + inversion Hs as [|? ? Hr Hy]; subst. inversion HPs as [|? ? Py Pr]; subst.
      destruct (Z.leb_spec (cmp x y) 0) as [Hc|Hc].
      * assert (Hxy : le x y) by (apply Hle; auto).
        constructor; [exact Hs|]. constructor; [exact Hxy|].
        eapply Forall_impl; [|exact Hy]. intros z Hz. exact (Htr _ _ _ Hxy Hz).
      * assert (Hyx : le y x) by (apply Hgt; auto).
        constructor; [apply IHr; auto|].
        eapply Permutation_Forall; [symmetry; apply sort_insert_perm|].
        constructor; auto.
Qed.

End SortFacts.

Section GroupFacts.

Lemma fechas_snoc (vs : list Venta) (v : Venta) :
  fechas (vs ++ [v]) =
    if existsb (fun f => (f =? claveDia v)%string) (fechas vs)
    then fechas vs else fechas vs ++ [claveDia v].
Proof. unfold fechas. rewrite fold_left_app. reflexivity. Qed.

Lemma fechas_In (vs : list Venta) (f : string) :
  In f (fechas vs) <-> exists v, In v vs /\ claveDia v = f.
Proof.
  induction vs as [|v vs IH] using rev_ind.
  - cbn. split; [tauto|]. intros (v & [] & _).
  - rewrite fechas_snoc.
    destruct (existsb _ (fechas vs)) eqn:E.
    + rewrite IH. split.
      * intros (u & Hu & Hf). exists u. split; auto. apply in_or_app; auto.
      * intros (u & Hu & Hf). apply in_app_or in Hu. destruct Hu as [Hu|[->|[]]].
        -- eauto.
        -- apply IH. apply existsb_exists in E. destruct E as (g & Hg & Eg).
           apply String.eqb_eq in Eg. subst. exact Hg.
    + rewrite in_app_iff, IH. cbn. split.
      * intros [(u & Hu & Hf)|[Hf|[]]].
        -- exists u. split; auto. apply in_or_app; auto.
        -- exists v. split; auto. apply in_or_app; cbn; auto.
      * intros (u & Hu & Hf). apply in_app_or in Hu. destruct Hu as [Hu|[->|[]]]; eauto.
Qed.

Lemma fechas_NoDup (vs : list Venta) : NoDup (fechas vs).
Proof.
  induction vs as [|v vs IH] using rev_ind.
  - constructor.
  - rewrite fechas_snoc. destruct (existsb _ (fechas vs)) eqn:E; auto.
    apply NoDup_app; auto.
    + repeat constructor. intros [].
    + intros f Hf [<-|[]].
      assert (existsb (fun g => (g =? claveDia v)%string) (fechas vs) = true); [|congruence].
      apply existsb_exists. exists (claveDia v). split; auto. apply String.eqb_refl.
Qed.

Lemma delDia_snoc (f : string) (vs : list Venta) (v : Venta) :
  delDia f (vs ++ [v]) = if (claveDia v =? f)%string then delDia f vs ++ [v] else delDia f vs.
Proof.
  unfold delDia. rewrite filter_app. cbn.
  destruct (claveDia v =? f)%string; auto. apply app_nil_r.
Qed.

Lemma diaDe_snoc (f : string) (vs : list Venta) (v : Venta) :
  diaDe (vs ++ [v]) f =
    if (f =? claveDia v)%string then
      {| fecha := f;
         dia_total := (dia_total (diaDe vs f) + venta_total (venta_datos v))%Q;
         dia_cantidad := dia_cantidad (diaDe vs f) + 1;
         dia_ventas := dia_ventas (diaDe vs f) ++ [v] |}
    else diaDe vs f.
Proof.
  unfold diaDe. rewrite delDia_snoc, (String.eqb_sym f).
  destruct (claveDia v =? f)%string; cbn [fecha dia_total dia_cantidad dia_ventas]; auto.
  f_equal.
  - unfold suma. rewrite fold_left_app. reflexivity.
  - rewrite length_app. cbn. lia.
Qed.

Lemma delDia_absent (f : string) (vs : list Venta) :
  ~ In f (fechas vs) -> delDia f vs = [].
Proof.
  intros H. unfold delDia.
  destruct (filter _ vs) as [|u r] eqn:E; auto.
  exfalso. apply H. apply fechas_In. exists u.
  assert (Hu : In u (filter (fun v => (claveDia v =? f)%string) vs)) by (rewrite E; left; auto).
  apply filter_In in Hu. destruct Hu as [Hu Hk]. apply String.eqb_eq in Hk. auto.
Qed.

Lemma existsb_map {A B} (f : B -> bool) (g : A -> B) (l : list A) :
  existsb f (map g l) = existsb (fun x => f (g x)) l.
Proof. induction l; cbn; congruence. Qed.

(** One round of the [forEach] keeps the object in step with [diaDe]. *)
Lemma agregarVenta_step (vs : list Venta) (v : Venta) :
  agregarVenta (map (diaDe vs) (fechas vs)) v = map (diaDe (vs ++ [v])) (fechas (vs ++ [v])).
Proof.
  unfold agregarVenta. fold (claveDia v). rewrite fechas_snoc.
  rewrite existsb_map. cbn [fecha diaDe].
  destruct (existsb (fun f => (f =? claveDia v)%string) (fechas vs)) eqn:E.
  - rewrite map_map. apply map_ext. intros f. rewrite diaDe_snoc. cbn [fecha diaDe].
    destruct (f =? claveDia v)%string; reflexivity.
  - rewrite !map_app, map_map. f_equal.
    + apply map_ext. intros f. rewrite diaDe_snoc. cbn [fecha diaDe].
      destruct (f =? claveDia v)%string; reflexivity.
    + cbn. rewrite String.eqb_refl. rewrite diaDe_snoc, String.eqb_refl.
      unfold diaDe. rewrite delDia_absent; [reflexivity|].
      intros Hin.
      assert (existsb (fun g => (g =? claveDia v)%string) (fechas vs) = true); [|congruence].
      apply existsb_exists. exists (claveDia v). split; auto. apply String.eqb_refl.
Qed.

Lemma agregarVenta_all (vs done : list Venta) :
  fold_left agregarVenta vs (map (diaDe done) (fechas done))
    = map (diaDe (done ++ vs)) (fechas (done ++ vs)).
Proof.
  revert done. induction vs as [|v vs IH]; intros done; cbn.
  - rewrite app_nil_r. reflexivity.
  - rewrite agregarVenta_step, IH, <- app_assoc. reflexivity.
Qed.

End GroupFacts.

Section ReportFacts.

Lemma noAnterior_trans (a b c : VentasDia) :
  noAnterior a b -> noAnterior b c -> noAnterior a c.
Proof.
  unfold noAnterior.
  destruct (Fecha.valueOf (fecha a)), (Fecha.valueOf (fecha b)), (Fecha.valueOf (fecha c));
    try tauto. lia.
Qed.

Lemma informe_sorted (gs : list VentasDia) :
  Forall (fun d => Fecha.valueOf (fecha d) <> None) gs ->
  StronglySorted noAnterior (sort porFechaDesc gs).
Proof.
  apply sort_sorted.
  - intros a b Ha Hb. unfold porFechaDesc, noAnterior.
    destruct (Fecha.valueOf (fecha a)), (Fecha.valueOf (fecha b)); try congruence. lia.
  - intros a b Ha Hb. unfold porFechaDesc, noAnterior.
    destruct (Fecha.valueOf (fecha a)), (Fecha.valueOf (fecha b)); try congruence. lia.
  - apply noAnterior_trans.
Qed.

(** The report computed from the rows [filas] that the range query
    returned. *)
Lemma informe_spec (filas : list Venta) :
  let dias := sort porFechaDesc (fold_left agregarVenta filas []) in
  Permutation dias (map (diaDe filas) (fechas filas))
  /\ NoDup (map fecha dias)
  /\ (forall f, In f (map fecha dias) <-> exists v, In v filas /\ claveDia v = f)
  /\ ((forall v, In v filas -> Fecha.valueOf (claveDia v) <> None) ->
      StronglySorted noAnterior dias).
Proof.
  cbv zeta.
  pose proof (agregarVenta_all filas []) as E. cbn [app] in E.
  change (map (diaDe []) (fechas [])) with (@nil VentasDia) in E. rewrite E.
  assert (Hm : map fecha (map (diaDe filas) (fechas filas)) = fechas filas).
  { rewrite map_map. cbn [fecha diaDe]. apply map_id. }
  assert (HP : Permutation (map fecha (sort porFechaDesc (map (diaDe filas) (fechas filas))))
                           (fechas filas)).
  { rewrite <- Hm at 2. apply Permutation_map, sort_perm. }
  split; [apply sort_perm|]. split; [|split].
  - eapply Permutation_NoDup; [symmetry; exact HP|apply fechas_NoDup].
  - intros f. rewrite <- fechas_In. split; intros H.
    + eapply Permutation_in; [exact HP|exact H].
    + eapply Permutation_in; [symmetry; exact HP|exact H].
  - intros Hv. apply informe_sorted. apply Forall_forall. intros d Hd.
    apply in_map_iff in Hd. destruct Hd as (f & <- & Hf). cbn [fecha diaDe].
    apply fechas_In in Hf. destruct Hf as (v & Hin & <-). auto.
Qed.

(** X30.  Whatever the remote store: [getVentasPorDia] sends one query, for
    the sales created from [desde]T00:00:00 to [hasta]T23:59:59, and from the
    rows of the reply it returns one entry for each day on which a row
    falls, holding that day's rows, the sum of their totals and their
    number; when the date parts are calendar dates the entries come latest
    day first.  With sales of 100 and 50 on 2024-01-01 and of 30 on
    2024-01-02, the range 2024-01-01 to 2024-01-02 gives 2024-01-02 (30, one
    sale) and then 2024-01-01 (150, two sales). *)
Theorem getVentasPorDia_groups_sales_by_day :
  (forall (R : Type) (S : Supabase R) (w : World R) (desde hasta : string)
          (filas : list Venta) (r' : R),
     isOnline w = true ->
     exec (SelectVentas (desde ++ "T00:00:00")%string (hasta ++ "T23:59:59")%string) (remote w)
       = (Resolves (WithData filas), r') ->
     exists dias,
       fst (getVentasPorDia desde hasta w) = Returned dias
       /\ sent (snd (getVentasPorDia desde hasta w)) =
            sent w ++ [sentOf (SelectVentas (desde ++ "T00:00:00")%string
                                            (hasta ++ "T23:59:59")%string)]
       /\ Permutation dias (map (diaDe filas) (fechas filas))
       /\ NoDup (map fecha dias)
       /\ (forall f, In f (map fecha dias) <-> exists v, In v filas /\ claveDia v = f)
       /\ ((forall v, In v filas -> Fecha.valueOf (claveDia v) <> None) ->
           StronglySorted noAnterior dias))
  /\ fst (getVentasPorDia "2024-01-01" "2024-01-02"
            (inicio true Ejemplos.tienda_con_ventas Ejemplos.reloj))
     = Returned
         [ {| fecha := "2024-01-02"; dia_total := 30; dia_cantidad := 1;
              dia_ventas := [Ejemplos.v3] |};
           {| fecha := "2024-01-01"; dia_total := 150; dia_cantidad := 2;
              dia_ventas := [Ejemplos.v2; Ejemplos.v1] |} ].
Proof.
  split.
  - intros R S w desde hasta filas r' Hon Hex.
    exists (sort porFechaDesc (fold_left agregarVenta filas [])).
    destruct (informe_spec filas) as (H1 & H2 & H3 & H4).
    split; [|split; [|split; [exact H1|split; [exact H2|split; [exact H3|exact H4]]]]].
    + unfold getVentasPorDia.
      cbv [bind gets modify ret throw try_catch await data_or_throw].
      rewrite Hon. cbn [negb]. rewrite Hex. reflexivity.
    + unfold getVentasPorDia.
      cbv [bind gets modify ret throw try_catch await data_or_throw].
      rewrite Hon. cbn [negb]. rewrite Hex. reflexivity.
  - vm_compute. reflexivity.
Qed.

End ReportFacts.

(** ** The cart of the public catalogue *)

Section CartFacts.

Import CatalogoCliente Carrito.
Context {R : Type} {S : Supabase R}.
Variable cfg : Config.

Ltac run := cbv [bind gets modify ret throw try_catch mostrar mutar_carrito guardarCarrito]; cbn.

Lemma mutate_first_found {A} (P : A -> Prop) f g (l : list A) (x : A) :
  find f l = Some x -> Forall P l -> P (g x) -> Forall P (mutate_first f g l).
Proof.
  induction l as [|y r IH]; cbn; [discriminate|].
  intros Hf HP Hg. inversion HP; subst.
  destruct (f y); [inversion Hf; subst; constructor; auto|].
  constructor; auto.
Qed.

Lemma Forall_filter {A} (P : A -> Prop) f (l : list A) :
  Forall P l -> Forall P (filter f l).
Proof.
  intros H. apply Forall_forall. intros x Hx. apply filter_In in Hx.
  rewrite Forall_forall in H. apply H, Hx.
Qed.

Lemma eliminarDelCarrito_carrito pid (w : World R) :
  catalogo_carrito (snd (eliminarDelCarrito pid w))
    = filter (fun item => negb (id_eqb (item_id item) pid)) (catalogo_carrito w).
Proof. reflexivity. Qed.

Lemma agregarAlCarrito_inv (P : Item -> Prop) (p : Producto) (w : World R) :
  Forall P (catalogo_carrito w) ->
  P {| item_id := id p; item_nombre := nombre p; item_precio := precio p;
       item_cantidad := 1; item_stock := stock p |} ->
  (forall item, In item (catalogo_carrito w) ->
     id_eqb (item_id item) (id p) = true -> item_cantidad item < stock p ->
     P item -> P (with_cantidad (item_cantidad item + 1) item)) ->
  Forall P (catalogo_carrito (snd (agregarAlCarrito p w))).
Proof.
  intros HP Hnew Hinc. unfold agregarAlCarrito. run.
  destruct (find _ (catalogo_carrito w)) as [item|] eqn:Ef.
  - destruct (Z.ltb_spec (item_cantidad item) (stock p)) as [Hlt|Hge]; cbn; auto.
    eapply mutate_first_found; eauto.
    pose proof (find_some _ _ Ef) as [Hin Hid].
    apply Hinc; auto. rewrite Forall_forall in HP. auto.
  - cbn. apply Forall_app. split; auto.
Qed.

Lemma actualizarCantidad_inv (P : Item -> Prop) pid (n : Z) (w : World R) :
  Forall P (catalogo_carrito w) ->
  (forall item, In item (catalogo_carrito w) ->
     0 < n -> n <= item_stock item -> n <= CARRITO_MAX_CANTIDAD_POR_PRODUCTO cfg ->
     P (with_cantidad n item)) ->
  Forall P (catalogo_carrito (snd (actualizarCantidad cfg pid n w))).
Proof.
  intros HP Hset. unfold actualizarCantidad. run.
  destruct (find _ (catalogo_carrito w)) as [item|] eqn:Ef; cbn; auto.
  destruct (Z.leb_spec n 0) as [Hn|Hn]; cbn.
  { apply Forall_filter. exact HP. }
  destruct (Z.ltb_spec (item_stock item) n) as [Hs|Hs]; cbn; auto.
  destruct (Z.ltb_spec (CARRITO_MAX_CANTIDAD_POR_PRODUCTO cfg) n) as [Hc|Hc]; cbn; auto.
  eapply mutate_first_found; eauto.
  pose proof (find_some _ _ Ef) as [Hin Hid]. apply Hset; auto.
Qed.

Lemma operar_inv (P : Item -> Prop) (o : Operacion) (w : World R) :
  Forall P (catalogo_carrito w) ->
  (forall p, o = Agregar p ->
     P {| item_id := id p; item_nombre := nombre p; item_precio := precio p;
          item_cantidad := 1; item_stock := stock p |}
     /\ forall item, In item (catalogo_carrito w) ->
          id_eqb (item_id item) (id p) = true -> item_cantidad item < stock p ->
          P item -> P (with_cantidad (item_cantidad item + 1) item)) ->
  (forall item n, In item (catalogo_carrito w) ->
     0 < n -> n <= item_stock item -> n <= CARRITO_MAX_CANTIDAD_POR_PRODUCTO cfg ->
     P (with_cantidad n item)) ->
  Forall P (catalogo_carrito (snd (operar cfg o w))).
Proof.
  intros HP Hadd Hset. destruct o as [p|pid|pid|pid n|pid]; cbn [operar].
  - destruct (Hadd p eq_refl). apply agregarAlCarrito_inv; auto.
  - unfold bind at 1, gets at 1.
    destruct (find _ (catalogo_carrito w)); [|exact HP].
    apply actualizarCantidad_inv; auto.
  - unfold bind at 1, gets at 1.
    destruct (find _ (catalogo_carrito w)); [|exact HP].
    apply actualizarCantidad_inv; auto.
  - apply actualizarCantidad_inv; auto.
  - rewrite eliminarDelCarrito_carrito. apply Forall_filter. exact HP.
Qed.

(** C7, as the code has it.  (1) Over any sequence of increments,
    decrements, direct edits and removals, lines that have a positive
    quantity within their remembered stock and within the cap keep having
    one.  (2) Over any sequence of operations in which every add-to-cart
    presents a product with the positive stock [st] lists for it, lines that
    remember that stock and have a positive quantity within it keep doing
    so.  (3) Over any sequence of operations at all, quantities stay
    positive.  (4) Setting a quantity to zero or less leaves no line for
    that product. *)
Theorem cart_quantities_stay_bounded (os : list Operacion) (w : World R)
    (st : option string -> Z) (pid : option string) (n : Z) :
  (forallb (fun o => negb (esAgregar o)) os = true ->
   Forall (acotada cfg) (catalogo_carrito w) ->
   Forall (acotada cfg) (catalogo_carrito (operarTodas cfg os w)))
  /\ (Forall (agregaListado st) os ->
      Forall (alDia st) (catalogo_carrito w) ->
      Forall (alDia st) (catalogo_carrito (operarTodas cfg os w)))
  /\ (Forall positiva (catalogo_carrito w) ->
      Forall positiva (catalogo_carrito (operarTodas cfg os w)))
  /\ (n <= 0 ->
      forall item, In item (catalogo_carrito (snd (actualizarCantidad cfg pid n w))) ->
                   id_eqb (item_id item) pid = false).
Proof.
  split; [|split; [|split]].
  - revert w. induction os as [|o os IH]; intros w Hno Hw; cbn in *; auto.
    apply andb_prop in Hno. destruct Hno as [Ho Hno].
    apply IH; auto. apply operar_inv; auto.
    + intros p ->. discriminate.
    + intros item k Hin Hk Hs Hc. rewrite Forall_forall in Hw.
      destruct (Hw item Hin) as (_ & _ & _). unfold acotada. cbn. lia.
  - revert w. induction os as [|o os IH]; intros w Hos Hw; cbn in *; auto.
    inversion Hos as [|? ? Ho Hos']; subst.
    apply IH; auto. apply operar_inv; auto.
    + intros p ->. cbn in Ho. destruct Ho as [Hpos Hst]. split.
      * unfold alDia. cbn. lia.
      * intros item Hin Hid Hlt (Hs & H1 & H2). apply id_eqb_eq in Hid.
        unfold alDia in *. cbn. rewrite Hid in *. lia.
    + intros item k Hin Hk Hs Hc. rewrite Forall_forall in Hw.
      destruct (Hw item Hin) as (Hst & _ & _). unfold alDia. cbn. lia.
  - revert w. induction os as [|o os IH]; intros w Hw; cbn in *; auto.
    apply IH. apply operar_inv; auto.
    + intros p ->. split; [unfold positiva; cbn; lia|].
      intros item _ _ _ Hp. unfold positiva in *. cbn. lia.
    + intros item k _ Hk _ _. unfold positiva. cbn. lia.
  - intros Hn item. unfold actualizarCantidad.
    cbv [bind gets modify ret throw try_catch mostrar mutar_carrito guardarCarrito].
    destruct (find _ (catalogo_carrito w)) as [found|] eqn:Ef.
    + apply Z.leb_le in Hn. rewrite Hn. cbn. intros Hin.
      apply filter_In in Hin. destruct Hin as [_ Hin].
      apply Bool.negb_true_iff in Hin. exact Hin.
    + cbn. intros Hin.
      destruct (id_eqb (item_id item) pid) eqn:E; auto.
      pose proof (find_none _ _ Ef item Hin) as Hnone. cbn in Hnone. congruence.
Qed.

End CartFacts.

(** C7 as stated fails: the second click finds the bread listed with three
    units and raises the quantity of its line to two, while the line still
    remembers a stock of one. *)
Lemma cart_remembered_stock_counterexample :
  catalogo_carrito
    (CatalogoCliente.operarTodas Ejemplos.config Ejemplos.dosClics Ejemplos.navegador)
  = [ {| item_id := Some "p1"; item_nombre := "Pan"; item_precio := 5;
         item_cantidad := 2; item_stock := 1 |} ]
  /\ ~ Forall (Carrito.acotada Ejemplos.config)
         (catalogo_carrito
            (CatalogoCliente.operarTodas Ejemplos.config Ejemplos.dosClics
               Ejemplos.navegador)).
Proof.
  assert (E : catalogo_carrito
                (CatalogoCliente.operarTodas Ejemplos.config Ejemplos.dosClics
                   Ejemplos.navegador)
              = [ {| item_id := Some "p1"; item_nombre := "Pan"; item_precio := 5;
                     item_cantidad := 2; item_stock := 1 |} ])
    by (vm_compute; reflexivity).
  split; [exact E|].
  rewrite E. intros H. inversion H as [|? ? Hc _]; subst.
  destruct Hc as (_ & Hc & _). cbn in Hc. lia.
Qed.

(** ** The status of an order *)

Section EstadoFacts.

Context {R : Type} {S : Supabase R}.

Lemma deStock_no_estado (q : Sent) : deStock q -> estadoEscrito q = None.
Proof. destruct q as [A []]; cbn; tauto. Qed.

Lemma getPedidosPendientes_trace (w : World R) :
  exists pedidos w1 qs,
    getPedidosPendientes w = (Returned pedidos, w1)
    /\ sent w1 = sent w ++ qs
    /\ Forall (fun q => estadoEscrito q = None) qs.
Proof.
  unfold getPedidosPendientes.
  cbv [bind gets modify ret throw try_catch await data_or_throw console_error_]. cbn.
  destruct (isOnline w).
  - destruct (exec SelectPedidosPendientes (remote w)) as [[e|[e|d]] r']; cbn;
      do 2 eexists; exists [sentOf SelectPedidosPendientes];
      (split; [reflexivity|split; [reflexivity|repeat constructor]]).
  - do 2 eexists. exists []. rewrite app_nil_r. repeat split; constructor.
Qed.

(** C8, as the code has it.  [createPedido] submits every order with
    [estado] pendiente.  Every update of an [estado] that
    [confirmarEntrega] sends writes completado, on the order asked for,
    which the pending-orders query has just returned.  [updatePedidoEstado]
    itself sends the update with whatever status it is given, without
    reading the current one. *)
Theorem estado_written_as_given (w : World R) (pedido : DatosPedido)
    (pedidoId : string) (confirma : bool) (pid : option string) (e : string) :
  (estado (nuevoPedido (Date_iso (clock w)) pedido) = "pendiente"
   /\ sent (snd (createPedido pedido w)) =
        sent w ++ (if isOnline w
                   then [sentOf (InsertPedido (nuevoPedido (Date_iso (clock w)) pedido))]
                   else []))
  /\ (exists qs,
        sent (snd (POS.confirmarEntrega pedidoId confirma w)) = sent w ++ qs
        /\ Forall (fun q => forall i x, estadoEscrito q = Some (i, x) ->
                     i = Some pedidoId /\ x = "completado"
                     /\ exists pedidos p,
                          fst (getPedidosPendientes w) = Returned pedidos
                          /\ In p pedidos /\ pedido_id p = Some pedidoId) qs)
  /\ (isOnline w = true ->
      sent (snd (updatePedidoEstado pid e w)) = sent w ++ [sentOf (UpdatePedidoEstado pid e)]
      /\ remote (snd (updatePedidoEstado pid e w))
           = snd (exec (UpdatePedidoEstado pid e) (remote w))).
Proof.
  split; [|split].
  - split; [reflexivity|]. unfold createPedido.
    cbv [bind gets modify ret throw try_catch await data_or_throw console_error_]. cbn.
    destruct (isOnline w); cbn; [|rewrite app_nil_r; reflexivity].
    destruct (exec _ (remote w)) as [[x|[x|d]] r']; reflexivity.
  - destruct (getPedidosPendientes_trace w) as (pedidos & w1 & qs0 & Hget & Hs0 & Hf0).
    assert (Hnone : forall qs, Forall (fun q => estadoEscrito q = None) qs ->
              Forall (fun q => forall i x, estadoEscrito q = Some (i, x) ->
                        i = Some pedidoId /\ x = "completado"
                        /\ exists pedidos p,
                             fst (getPedidosPendientes w) = Returned pedidos
                             /\ In p pedidos /\ pedido_id p = Some pedidoId) qs).
    { intros qs H. eapply Forall_impl; [|exact H]. cbn. intros q Hq i x Hx. congruence. }
    destruct (find (fun p => id_eqb (pedido_id p) (Some pedidoId)) pedidos)
      as [found|] eqn:Hfind.
    2:{ exists qs0. split; [|auto]. unfold POS.confirmarEntrega.
        unfold try_catch at 1. unfold bind at 1. rewrite Hget. cbv beta.
        rewrite Hfind. cbn. exact Hs0. }
    destruct confirma.
    2:{ exists qs0. split; [|auto]. unfold POS.confirmarEntrega.
        unfold try_catch at 1. unfold bind at 1. rewrite Hget. cbv beta.
        rewrite Hfind. cbn. exact Hs0. }
    destruct (productos (pedido_datos found)) as [lineas|] eqn:Hprod.
    2:{ exists qs0. split; [|auto]. unfold POS.confirmarEntrega.
        unfold try_catch at 1. unfold bind at 1. rewrite Hget. cbv beta.
        rewrite Hfind. cbn [negb]. rewrite Hprod. cbn. exact Hs0. }
    destruct (confirmarEntrega_found w w1 pedidoId pedidos found lineas Hget Hfind Hprod)
      as (_ & (qs1 & Hs1 & Hf1 & _) & Hm). cbv zeta in *.
    assert (Hone : forall i x,
              estadoEscrito (sentOf (UpdatePedidoEstado (Some pedidoId) "completado"))
                = Some (i, x) ->
              i = Some pedidoId /\ x = "completado"
              /\ exists pedidos p,
                   fst (getPedidosPendientes w) = Returned pedidos
                   /\ In p pedidos /\ pedido_id p = Some pedidoId).
    { intros i x Hx. cbn in Hx. inversion Hx; subst. repeat split.
      exists pedidos, found. rewrite Hget. split; [reflexivity|].
      apply find_some in Hfind. destruct Hfind as [Hin Hid].
      apply id_eqb_eq in Hid. auto. }
    assert (Hstock : Forall (fun q => estadoEscrito q = None) qs1).
    { eapply Forall_impl; [|exact Hf1]. apply deStock_no_estado. }
    destruct (fst (updateMultipleStock (POS.actualizacionesDe lineas) w1)).
    2:{ destruct Hm as (Hs & _). exists (qs0 ++ qs1).
        split; [rewrite Hs, Hs1, Hs0, app_assoc; reflexivity|].
        apply Hnone, Forall_app; auto. }
    destruct (fst (createVenta _ _)).
    2:{ destruct Hm as (Hs & _). eexists (qs0 ++ qs1 ++ [_]).
        split; [rewrite Hs, Hs1, Hs0, <- !app_assoc; reflexivity|].
        apply Hnone.
        apply Forall_app; split; [exact Hf0|].
        apply Forall_app; split; [exact Hstock|].
        constructor; [reflexivity|constructor]. }
    destruct (fst (updatePedidoEstado _ _ _)).
    2:{ destruct Hm as (Hs & _). eexists (qs0 ++ qs1 ++ [_; _]).
        split; [rewrite Hs, Hs1, Hs0, <- !app_assoc; reflexivity|].
        apply Forall_app; split; [apply Hnone; exact Hf0|].
        apply Forall_app; split; [apply Hnone; exact Hstock|].
        constructor; [intros i x Hx; discriminate|].
        constructor; [exact Hone|constructor]. }
    eexists (qs0 ++ qs1 ++ [_; _; _; _]).
    split; [rewrite Hm, Hs1, Hs0, <- !app_assoc; reflexivity|].
    apply Forall_app; split; [apply Hnone; exact Hf0|].
    apply Forall_app; split; [apply Hnone; exact Hstock|].
    constructor; [intros i x Hx; discriminate|]. constructor; [exact Hone|].
    constructor; [intros i x Hx; discriminate|].
    constructor; [intros i x Hx; discriminate|constructor].
  - intros Hon. destruct (updatePedidoEstado_online pid e w Hon) as (H1 & H2 & _). auto.
Qed.

End EstadoFacts.

(** C8 as stated fails: [updatePedidoEstado] puts a delivered order back to
    pendiente, and the table's constraint lets it. *)
Lemma estado_back_to_pending_counterexample :
  let w := inicio true Ejemplos.tienda_con_entregado Ejemplos.reloj in
  let w' := snd (updatePedidoEstado (Some "o1") "pendiente" w) in
  map estado (Tablas.t_pedidos (remote w)) = ["completado"]
  /\ map estado (Tablas.t_pedidos (remote w')) = ["pendiente"]
  /\ fst (updatePedidoEstado (Some "o1") "pendiente" w)
       = Returned (Tablas.con_estado "pendiente" Ejemplos.pedido_entregado).
Proof. vm_compute. repeat split. Qed.

(** ** The reference store *)

(** A query that the reference store rejects or answers with an error
    leaves its tables as they were. *)
Lemma tablas_failed_query_changes_nothing (leb : string -> string -> bool)
    (A : Type) (q : Request A) (t : Tablas.Tablas) :
  match fst (Tablas.ejecutar leb A q t) with
  | Resolves (WithData _) => True
  | _ =>
      Tablas.t_productos (snd (Tablas.ejecutar leb A q t)) = Tablas.t_productos t
      /\ Tablas.t_pedidos (snd (Tablas.ejecutar leb A q t)) = Tablas.t_pedidos t
      /\ Tablas.t_ventas (snd (Tablas.ejecutar leb A q t)) = Tablas.t_ventas t
  end.
Proof.
  assert (H : forall t0 : Tablas.Tablas,
            match fst (Tablas.responder leb q t0) with
            | WithData _ => True
            | WithError _ =>
                Tablas.t_productos (snd (Tablas.responder leb q t0)) = Tablas.t_productos t0
                /\ Tablas.t_pedidos (snd (Tablas.responder leb q t0)) = Tablas.t_pedidos t0
                /\ Tablas.t_ventas (snd (Tablas.responder leb q t0)) = Tablas.t_ventas t0
            end).
  { intros t0. destruct q; cbn; auto.
    - unfold Tablas.insertarProducto. destruct (existsb _ _); cbn; auto.
    - destruct (update_first _ _ _); cbn; auto. destruct (find _ _); cbn; auto.
    - destruct d; cbn; auto. unfold Tablas.insertarProducto.
      destruct (existsb _ _); cbn; auto.
    - destruct d; cbn; auto.
    - destruct (Tablas.pedido_admisible p); cbn; auto.
    - destruct (Tablas.estado_permitido e); cbn; auto.
      destruct (update_first _ _ _); cbn; auto. destruct (find _ _); cbn; auto.
    - destruct (_ && _); cbn; auto.
    - destruct (find _ _); cbn; auto. }
  unfold Tablas.ejecutar. destruct (Tablas.averias t) as [|[] resto]; cbn; auto.
  - specialize (H t). destruct (Tablas.responder leb q t) as [[e|a] t']; cbn in *; auto.
  - specialize (H (Tablas.with_averias resto t)).
    destruct (Tablas.responder leb q _) as [[e|a] t']; cbn in *; auto.
Qed.

(** Add-to-cart does not look at the cap: eleven clicks on a product with
    fifty units in stock give a line of eleven, over a cap of ten, whereas
    the quantity field refuses eleven. *)
Lemma cart_cap_not_checked_on_add :
  CARRITO_MAX_CANTIDAD_POR_PRODUCTO Ejemplos.config = 10
  /\ map item_cantidad
       (catalogo_carrito
          (CatalogoCliente.operarTodas Ejemplos.config Ejemplos.onceClics Ejemplos.navegador))
     = [11]
  /\ map item_cantidad
       (catalogo_carrito
          (CatalogoCliente.operarTodas Ejemplos.config
             [CatalogoCliente.Agregar (Ejemplos.pan 50);
              CatalogoCliente.Editar (Some "p1") 11] Ejemplos.navegador))
     = [1].
Proof. vm_compute. repeat split. Qed.

(** ** The theorems at work on concrete worlds *)

(** Offline, on an empty mirror: the three refusals, and one pending change
    after an insert or a stock update. *)
Lemma offline_gating_witness :
  isOnline Ejemplos.mundo_offline = false
  /\ createPedido Ejemplos.pedido_nombre_en_blanco Ejemplos.mundo_offline
       = (Thrown "No se pueden crear pedidos en modo offline", Ejemplos.mundo_offline)
  /\ createVenta Ejemplos.venta_directa Ejemplos.mundo_offline
       = (Thrown "No se pueden registrar ventas en modo offline", Ejemplos.mundo_offline)
  /\ getVentasPorDia "2024-01-01" "2024-01-02" Ejemplos.mundo_offline
       = (Thrown "No se pueden obtener reportes en modo offline", Ejemplos.mundo_offline)
  /\ List.length (pendientes (snd (addProducto (Ejemplos.pan 4) Ejemplos.mundo_offline))) = 1%nat
  /\ List.length (pendientes (snd (updateStock (Some "p1") 3 Ejemplos.mundo_offline))) = 1%nat.
Proof.
  pose proof (offline_gating Ejemplos.mundo_offline Ejemplos.pedido_nombre_en_blanco
                Ejemplos.venta_directa "2024-01-01" "2024-01-02" (Ejemplos.pan 4)
                (Some "p1") 3 eq_refl) as (H1 & H2 & H3 & H4 & H5).
  cbv zeta in H4, H5.
  destruct H4 as (_ & _ & _ & H4 & _). destruct H5 as (_ & _ & H5 & _).
  split; [reflexivity|]. split; [exact H1|]. split; [exact H2|]. split; [exact H3|].
  split; [rewrite H4|rewrite H5]; reflexivity.
Defined.

(** A queue of an insert and a stock update, the first query dropped by the
    network: both are sent, one error is logged, the queue ends empty. *)
Lemma syncPendingChanges_witness :
  isOnline Ejemplos.mundo_con_cola = true
  /\ fst (syncPendingChanges Ejemplos.mundo_con_cola) = Returned tt
  /\ sent (snd (syncPendingChanges Ejemplos.mundo_con_cola))
       = [ sentOf (ReplayInsert (DataProducto (Ejemplos.pan 4)));
           sentOf (ReplayUpdate (DataStock (Some "p1") 7) (Some "p1")) ]
  /\ console_error (snd (syncPendingChanges Ejemplos.mundo_con_cola))
       = [ ("Error al sincronizar cambio:", "TypeError: Failed to fetch") ]
  /\ pendientes (snd (syncPendingChanges Ejemplos.mundo_con_cola)) = [].
Proof.
  pose proof (syncPendingChanges_replays_all_then_clears Ejemplos.mundo_con_cola eq_refl)
    as (H1 & H2 & H3 & _ & H5 & _).
  split; [reflexivity|]. split; [exact H1|]. split; [exact H2|].
  split; [exact H3|exact H5].
Defined.

(** C2.  A replay that the store answers with an error is not logged.  The
    store holds the bread and the operator, online, adds a product with the
    bar code of the bread: the store answers the insertion with an error,
    which [addProducto] reads from the reply, logs and rethrows, leaving
    the insertion on the pending queue.  [syncPendingChanges] then sends the
    insertion again and gets the same answer, but does not read it: nothing
    is added to the error log, the queue is emptied and the product is in
    no table. *)
Theorem replay_error_reply_is_not_logged :
  let w0 := inicio true (Tablas.with_productos [Ejemplos.pan 4] Tablas.vacias)
              Ejemplos.reloj in
  let w := snd (addProducto (Ejemplos.pan 4) w0) in
  let w' := snd (syncPendingChanges w) in
  let error := "duplicate key value violates unique constraint" in
  fst (addProducto (Ejemplos.pan 4) w0) = Thrown error
  /\ console_error w = [("Error al agregar producto:", error)]
  /\ isOnline w = true
  /\ map operation (pendientes w) = ["insert"]
  /\ (exists q : Request unit,
        flat_map consultaDe (pendientes w) = [sentOf q]
        /\ sent w' = sent w ++ [sentOf q]
        /\ fst (exec q (remote w)) = Resolves (WithError error))
  /\ fst (syncPendingChanges w) = Returned tt
  /\ console_error w' = console_error w
  /\ pendientes w' = []
  /\ Tablas.t_productos (remote w') = [Ejemplos.pan 4].
Proof.
  cbv zeta.
  split; [vm_compute; reflexivity|]. split; [vm_compute; reflexivity|].
  split; [vm_compute; reflexivity|]. split; [vm_compute; reflexivity|].
  split.
  - eexists. split; [vm_compute; reflexivity|].
    split; vm_compute; reflexivity.
  - repeat split; vm_compute; reflexivity.
Qed.

(** Delivery of an order of two loaves with the insertion of the sale
    dropped by the network: the stock goes from ten to eight and stays so,
    no sale is recorded and the order is still pendiente. *)
Lemma confirmarEntrega_witness :
  let w := Ejemplos.mundo_entrega in
  let w1 := snd (getPedidosPendientes w) in
  let final := snd (POS.confirmarEntrega "o2" true w) in
  "o2" <> ""
  /\ getPedidosPendientes w = (Returned [Ejemplos.pedido_pendiente], w1)
  /\ find (fun p => id_eqb (pedido_id p) (Some "o2")) [Ejemplos.pedido_pendiente]
       = Some Ejemplos.pedido_pendiente
  /\ productos (pedido_datos Ejemplos.pedido_pendiente) = Some [Ejemplos.dos_panes]
  /\ fst (POS.confirmarEntrega "o2" true w) = Returned tt
  /\ sent final
       = [ sentOf SelectPedidosPendientes;
           sentOf (SelectStock (Some "p1"));
           sentOf (UpdateStock (Some "p1") 8);
           sentOf (InsertVenta
                     (nuevaVenta "2024-01-01T10:00:00.000Z"
                        (POS.ventaDe Ejemplos.pedido_pendiente [Ejemplos.dos_panes]))) ]
  /\ map stock (Tablas.t_productos (remote final)) = [8]
  /\ Tablas.t_ventas (remote final) = []
  /\ map estado (Tablas.t_pedidos (remote final)) = ["pendiente"].
Proof.
  intros w w1 final.
  assert (Hid : "o2" <> "") by discriminate.
  assert (Hget : getPedidosPendientes w = (Returned [Ejemplos.pedido_pendiente], w1))
    by (vm_compute; reflexivity).
  pose proof (confirmarEntrega_three_steps_no_rollback w w1 "o2"
                [Ejemplos.pedido_pendiente] Ejemplos.pedido_pendiente [Ejemplos.dos_panes]
                Hid Hget eq_refl eq_refl) as (H1 & _ & _ & H4).
  split; [exact Hid|]. split; [exact Hget|]. split; [reflexivity|]. split; [reflexivity|].
  split; [exact H1|].
  split; [exact (proj1 H4)|].
  vm_compute. repeat split.
Defined.

(** The report for 2024-01-01 to 2024-01-02 on the store with four sales:
    the sale of 2024-01-03 is left out, and the two days come latest first. *)
Lemma getVentasPorDia_witness :
  let w := inicio true Ejemplos.tienda_con_ventas Ejemplos.reloj in
  isOnline w = true
  /\ exec (SelectVentas "2024-01-01T00:00:00" "2024-01-02T23:59:59") (remote w)
       = (Resolves (WithData [Ejemplos.v3; Ejemplos.v2; Ejemplos.v1]), remote w)
  /\ exists dias,
       fst (getVentasPorDia "2024-01-01" "2024-01-02" w) = Returned dias
       /\ map fecha dias = ["2024-01-02"; "2024-01-01"]
       /\ StronglySorted noAnterior dias.
Proof.
  intros w.
  assert (Hex : exec (SelectVentas "2024-01-01T00:00:00" "2024-01-02T23:59:59") (remote w)
                = (Resolves (WithData [Ejemplos.v3; Ejemplos.v2; Ejemplos.v1]), remote w))
    by (vm_compute; reflexivity).
  destruct (proj1 getVentasPorDia_groups_sales_by_day _ _ w "2024-01-01" "2024-01-02"
              [Ejemplos.v3; Ejemplos.v2; Ejemplos.v1] (remote w) eq_refl Hex)
    as (dias & H1 & _ & _ & _ & _ & H6).
  split; [reflexivity|]. split; [exact Hex|].
  exists dias. split; [exact H1|]. split.
  - assert (E : fst (getVentasPorDia "2024-01-01" "2024-01-02" w)
                = Returned
                    [ {| fecha := "2024-01-02"; dia_total := 30; dia_cantidad := 1;
                         dia_ventas := [Ejemplos.v3] |};
                      {| fecha := "2024-01-01"; dia_total := 150; dia_cantidad := 2;
                         dia_ventas := [Ejemplos.v2; Ejemplos.v1] |} ])
      by (vm_compute; reflexivity).
    rewrite E in H1. inversion H1. reflexivity.
  - apply H6. intros v [<-|[<-|[<-|[]]]]; vm_compute; discriminate.
Defined.


(** C5.  A sale of the last second of the range is left out of the report.
    A sale recorded half a second before the end of 2024-01-02 is stamped
    2024-01-02T23:59:59.500Z and stored; its day is 2024-01-02.  The report
    for 2024-01-01 to 2024-01-02 asks for the sales up to
    2024-01-02T23:59:59 and so does not count it: the day shows one sale of
    30, as before the sale was recorded. *)
Theorem getVentasPorDia_leaves_out_last_second :
  let w0 := inicio true Ejemplos.tienda_con_ventas Ejemplos.reloj_fin_de_dia in
  let alta := createVenta Ejemplos.venta_directa w0 in
  let informe := getVentasPorDia "2024-01-01" "2024-01-02" (snd alta) in
  exists fila,
    fst alta = Returned fila
    /\ venta_created_at fila = "2024-01-02T23:59:59.500Z"
    /\ claveDia fila = "2024-01-02"
    /\ In fila (Tablas.t_ventas (remote (snd alta)))
    /\ fst informe = fst (getVentasPorDia "2024-01-01" "2024-01-02" w0)
    /\ fst informe
       = Returned
           [ {| fecha := "2024-01-02"; dia_total := 30; dia_cantidad := 1;
                dia_ventas := [Ejemplos.v3] |};
             {| fecha := "2024-01-01"; dia_total := 150; dia_cantidad := 2;
                dia_ventas := [Ejemplos.v2; Ejemplos.v1] |} ].
Proof.
  cbv zeta. eexists.
  split; [vm_compute; reflexivity|].
  split; [reflexivity|]. split; [vm_compute; reflexivity|].
  split; [vm_compute; auto 10|].
  split; vm_compute; reflexivity.
Qed.

(** * Further properties *)

(** ** Host strings *)

Section TrimFacts.

Lemma trimStart_head (s : string) : sinBlancoInicial (JS.trimStart s).
Proof.
  induction s as [|c r IH]; cbn; [exact I|].
  destruct (JS.isWhiteSpace c) eqn:E; [exact IH | exact E].
Qed.

Lemma trimEnd_head (s : string) :
  sinBlancoInicial s -> JS.trimStart (JS.trimEnd s) = JS.trimEnd s.
Proof.
  destruct s as [|c r]; cbn; [reflexivity|]. intros Hc.
  destruct (JS.trimEnd r); rewrite ?Hc; cbn; rewrite Hc; reflexivity.
Qed.

Lemma trimEnd_idempotent (s : string) : JS.trimEnd (JS.trimEnd s) = JS.trimEnd s.
Proof.
  induction s as [|c r IH]; cbn; [reflexivity|].
  destruct (JS.trimEnd r) as [|c' r'] eqn:E.
  - destruct (JS.isWhiteSpace c) eqn:Ec; cbn; rewrite ?Ec; reflexivity.
  - cbn in IH |- *. rewrite IH. reflexivity.
Qed.

Lemma trim_idempotent (s : string) : JS.trim (JS.trim s) = JS.trim s.
Proof.
  unfold JS.trim.
  rewrite (trimEnd_head _ (trimStart_head s)). apply trimEnd_idempotent.
Qed.

End TrimFacts.

(** ** The scanner over any run of events *)

Section LectorFacts.

Import Scanner Lector.
Variable cfg : Config.

Lemma handleKeys_app (es1 es2 : list KeyboardEvent) (s : BarcodeScanner) :
  handleKeys cfg (es1 ++ es2) s = handleKeys cfg es2 (handleKeys cfg es1 s).
Proof. unfold handleKeys. apply fold_left_app. Qed.

(** X1.  Key presses that arrive while a text field other than the product
    search holds the focus can be struck from any run of events: the
    scanner ends in the same state, buffer and emitted codes included. *)
Theorem handleKeys_skips_foreign_fields (es : list KeyboardEvent) (s : BarcodeScanner) :
  handleKeys cfg es s = handleKeys cfg (filter (fun e => negb (ignored e)) es) s.
Proof.
  revert s. induction es as [|e es IH]; intros s; [reflexivity|].
  cbn [filter]. destruct (ignored e) eqn:Hi; cbn [negb].
  - change (handleKeys cfg (e :: es) s) with (handleKeys cfg es (handleKeyPress cfg e s)).
    unfold handleKeyPress at 1. rewrite Hi. apply IH.
  - change (handleKeys cfg (e :: es) s) with (handleKeys cfg es (handleKeyPress cfg e s)).
    change (handleKeys cfg (e :: filter (fun e => negb (ignored e)) es) s)
      with (handleKeys cfg (filter (fun e => negb (ignored e)) es) (handleKeyPress cfg e s)).
    apply IH.
Qed.

Lemma paso_emite (x : Suceso) (s : BarcodeScanner) :
  exists nuevos,
    dispatched (paso cfg x s) = dispatched s ++ nuevos
    /\ called (paso cfg x s) = called s ++ (if callback s then nuevos else [])
    /\ callback (paso cfg x s) = callback s
    /\ (List.length nuevos <= List.length (filter esEnter [x]))%nat
    /\ Forall (fun c => JS.trim c = c) nuevos.
Proof.
  destruct x as [e|t]; cbn [paso filter esEnter].
  - unfold handleKeyPress. destruct (ignored e) eqn:Hi; cbn [negb andb].
    + exists []. rewrite !app_nil_r. destruct (callback s); rewrite ?app_nil_r; cbn; auto.
    + destruct (key e =? "Enter")%string eqn:Hk.
      * destruct (SCANNER_MIN_BARCODE_LENGTH cfg <=? JS.length (buffer s)).
        -- exists [JS.trim (buffer s)]. cbn.
           destruct (callback s); rewrite ?app_nil_r; repeat split; auto.
           all: constructor; [apply trim_idempotent | constructor].
        -- exists []. cbn. rewrite !app_nil_r.
           destruct (callback s); rewrite ?app_nil_r; repeat split; auto.
      * exists []. rewrite !app_nil_r.
        destruct (_ && _); destruct (_ && _); cbn;
          destruct (callback s); rewrite ?app_nil_r; repeat split; auto.
  - exists []. rewrite !app_nil_r. unfold timerFired.
    destruct (bufferClearTimer s) as [due|]; [destruct (due <=? t)|]; cbn;
      destruct (callback s); rewrite ?app_nil_r; repeat split; auto.
Qed.

(** X2.  Codes are emitted by Enter keys only.  Over any run of key presses
    and timer expiries the scanner dispatches at most one code for each
    Enter key that it processes, every code it dispatches is trimmed, and
    the registered callback is called with the very same codes. *)
Theorem scanner_emits_on_enter_only (xs : list Suceso) (s : BarcodeScanner) :
  exists nuevos,
    dispatched (correr cfg xs s) = dispatched s ++ nuevos
    /\ called (correr cfg xs s) = called s ++ (if callback s then nuevos else [])
    /\ (List.length nuevos <= List.length (filter esEnter xs))%nat
    /\ Forall (fun c => JS.trim c = c) nuevos.
Proof.
  revert s. induction xs as [|x xs IH]; intros s.
  - exists []. cbn. rewrite !app_nil_r. destruct (callback s); rewrite ?app_nil_r; auto.
  - change (correr cfg (x :: xs) s) with (correr cfg xs (paso cfg x s)).
    destruct (paso_emite x s) as (n1 & Hd1 & Hc1 & Hcb & Hl1 & Ht1).
    destruct (IH (paso cfg x s)) as (n2 & Hd2 & Hc2 & Hl2 & Ht2).
    exists (n1 ++ n2). rewrite Hd2, Hc2, Hd1, Hc1, Hcb.
    repeat split.
    + now rewrite app_assoc.
    + destruct (callback s); rewrite <- ?app_assoc; cbn; rewrite ?app_nil_r; reflexivity.
    + rewrite length_app. change (x :: xs) with ([x] ++ xs).
      rewrite filter_app, length_app. lia.
    + apply Forall_app; auto.
Qed.

Lemma handleKeyPress_slow (e : KeyboardEvent) (s : BarcodeScanner) :
  tecla e ->
  SCANNER_MAX_TIME_BETWEEN_CHARS cfg < now e - lastKeyTime s ->
  buffer (handleKeyPress cfg e s) = key e
  /\ lastKeyTime (handleKeyPress cfg e s) = now e
  /\ dispatched (handleKeyPress cfg e s) = dispatched s
  /\ called (handleKeyPress cfg e s) = called s
  /\ isScanning (handleKeyPress cfg e s) = isScanning s.
Proof.
  intros [Hi Hk] Hgap. unfold handleKeyPress. rewrite Hi.
  apply String.eqb_neq in Hk. rewrite Hk.
  assert (H1 : (SCANNER_MAX_TIME_BETWEEN_CHARS cfg <? now e - lastKeyTime s) = true)
    by (apply Z.ltb_lt; lia).
  assert (H2 : (now e - lastKeyTime s <? SCANNER_MAX_TIME_BETWEEN_CHARS cfg) = false)
    by (apply Z.ltb_ge; lia).
  rewrite H1, H2. cbn [andb].
  destruct (0 <? JS.length (buffer s)) eqn:Hb; cbn; auto.
  apply Z.ltb_ge in Hb. unfold JS.length in Hb.
  destruct (buffer s); cbn in *; [auto | lia].
Qed.

(** X3.  Typing by hand is not a scan.  When every key of a run comes more
    than the maximum interval after the one before, the buffer holds the
    last key alone, nothing is dispatched, the scanning flag is left as it
    was, and an Enter key that follows dispatches nothing as long as that
    one key is shorter than the minimum length of a code. *)
Theorem slow_typing_is_not_a_scan (es : list KeyboardEvent) (e enter : KeyboardEvent)
    (s : BarcodeScanner) :
  Forall tecla (es ++ [e]) ->
  gapsAbove cfg (lastKeyTime s) (es ++ [e]) ->
  ignored enter = false -> key enter = "Enter" ->
  JS.length (key e) < SCANNER_MIN_BARCODE_LENGTH cfg ->
  let s1 := handleKeys cfg (es ++ [e]) s in
  buffer s1 = key e
  /\ dispatched s1 = dispatched s
  /\ called s1 = called s
  /\ isScanning s1 = isScanning s
  /\ dispatched (handleKeyPress cfg enter s1) = dispatched s
  /\ called (handleKeyPress cfg enter s1) = called s.
Proof.
  intros Ht Hg Hi Hk Hmin s1.
  assert (H : buffer s1 = key e /\ dispatched s1 = dispatched s
              /\ called s1 = called s /\ isScanning s1 = isScanning s).
  { subst s1. clear Hi Hk Hmin enter. revert s Ht Hg.
    induction es as [|e1 es IH]; intros s Ht Hg.
    - cbn in Hg. destruct Hg as [Hg _]. inversion Ht; subst.
      destruct (handleKeyPress_slow e s H1 Hg) as (? & ? & ? & ? & ?). cbn. auto.
    - cbn [app] in *. destruct Hg as [Hg Hg']. inversion Ht; subst.
      destruct (handleKeyPress_slow e1 s H1 Hg) as (Hb & Hl & Hd & Hc & Hs).
      change (handleKeys cfg (e1 :: es ++ [e]) s)
        with (handleKeys cfg (es ++ [e]) (handleKeyPress cfg e1 s)).
      rewrite <- Hl in Hg'.
      destruct (IH _ H2 Hg') as (? & ? & ? & ?).
      repeat split; congruence. }
  destruct H as (Hb & Hd & Hc & Hs). repeat split; auto.
  - destruct (handleKeyPress_Enter cfg enter s1 Hi Hk) as (_ & _ & He & _).
    rewrite He, Hb. apply Z.leb_gt in Hmin. rewrite Hmin. exact Hd.
  - destruct (handleKeyPress_Enter cfg enter s1 Hi Hk) as (_ & _ & _ & He).
    rewrite He, Hb. apply Z.leb_gt in Hmin. rewrite Hmin. exact Hc.
Qed.

(** X4.  A buffer that is left alone expires.  After a character key at
    time [now e] the timer is due [SCANNER_BUFFER_CLEAR_TIMEOUT] later; once
    it has come due the buffer is empty and the timer disarmed, so that an
    Enter key dispatches nothing (the minimum length being positive) and
    the next character key starts a buffer of its own.  Before it is due
    the timer changes nothing. *)
Theorem expired_buffer_is_not_scanned (e enter e' : KeyboardEvent) (t : Z) (s : BarcodeScanner) :
  tecla e -> ignored enter = false -> key enter = "Enter" -> tecla e' ->
  0 < SCANNER_MIN_BARCODE_LENGTH cfg ->
  let s1 := handleKeyPress cfg e s in
  let s2 := timerFired t s1 in
  bufferClearTimer s1 = Some (now e + SCANNER_BUFFER_CLEAR_TIMEOUT cfg)
  /\ (t < now e + SCANNER_BUFFER_CLEAR_TIMEOUT cfg -> s2 = s1)
  /\ (now e + SCANNER_BUFFER_CLEAR_TIMEOUT cfg <= t ->
       buffer s2 = "" /\ bufferClearTimer s2 = None
       /\ dispatched s2 = dispatched s
       /\ dispatched (handleKeyPress cfg enter s2) = dispatched s
       /\ buffer (handleKeyPress cfg e' s2) = key e').
Proof.
  intros Ht Hi Hk Ht' Hmin s1 s2.
  assert (Htimer : bufferClearTimer s1 = Some (now e + SCANNER_BUFFER_CLEAR_TIMEOUT cfg)).
  { subst s1. destruct Ht as [Hig Hke]. unfold handleKeyPress. rewrite Hig.
    apply String.eqb_neq in Hke. rewrite Hke. reflexivity. }
  destruct (handleKeyPress_tecla cfg e s Ht) as (_ & _ & Hd1 & _ & _).
  fold s1 in Hd1.
  split; [exact Htimer|]. split.
  - intros Hlt. subst s2. unfold timerFired. rewrite Htimer.
    apply Z.leb_gt in Hlt. now rewrite Hlt.
  - intros Hle. subst s2. unfold timerFired. rewrite Htimer.
    apply Z.leb_le in Hle. rewrite Hle. cbn [buffer bufferClearTimer dispatched clearBuffer].
    repeat split; auto.
    + destruct (handleKeyPress_Enter cfg enter
                  {| buffer := ""; lastKeyTime := 0; listening := listening s1;
                     callback := callback s1; bufferClearTimer := None;
                     isScanning := isScanning s1; dispatched := dispatched s1;
                     called := called s1 |} Hi Hk) as (_ & _ & He & _).
      cbn in He. cbn. rewrite He.
      destruct (SCANNER_MIN_BARCODE_LENGTH cfg <=? 0) eqn:Hm; [|exact Hd1].
      apply Z.leb_le in Hm. lia.
    + destruct (handleKeyPress_tecla cfg e'
                  {| buffer := ""; lastKeyTime := 0; listening := listening s1;
                     callback := callback s1; bufferClearTimer := None;
                     isScanning := isScanning s1; dispatched := dispatched s1;
                     called := called s1 |} Ht') as (Hb & _).
      cbn in Hb. cbn. rewrite Hb. unfold carriedOver. cbn. rewrite andb_false_r. reflexivity.
Qed.

End LectorFacts.

(** The letters a and b typed a second apart, then Enter: the buffer held
    the b alone and nothing is dispatched. *)
Lemma slow_typing_witness :
  let s := Scanner.init Scanner.constructor in
  let a := Ejemplos.pulsar "a" 1000 in
  let b := Ejemplos.pulsar "b" 2000 in
  let enter := Ejemplos.pulsar "Enter" 3000 in
  Lector.gapsAbove Ejemplos.config (Scanner.lastKeyTime s) [a; b]
  /\ Scanner.buffer (Scanner.handleKeys Ejemplos.config [a; b] s) = "b"
  /\ Scanner.dispatched
       (Scanner.handleKeyPress Ejemplos.config enter
          (Scanner.handleKeys Ejemplos.config [a; b] s)) = [].
Proof.
  intros s a b enter.
  assert (HF : Forall Scanner.tecla ([a] ++ [b])).
  { repeat constructor; discriminate. }
  assert (HG : Lector.gapsAbove Ejemplos.config (Scanner.lastKeyTime s) ([a] ++ [b])).
  { cbn. lia. }
  assert (HM : JS.length (Scanner.key b) < SCANNER_MIN_BARCODE_LENGTH Ejemplos.config).
  { cbn. lia. }
  pose proof (slow_typing_is_not_a_scan Ejemplos.config [a] b enter s
                HF HG eq_refl eq_refl HM) as (H1 & _ & _ & _ & H5 & _).
  split; [exact HG|]. split; [exact H1 | exact H5].
Defined.

(** A 7 at time 1000 arms the timer for 1100; it comes due and the Enter
    that follows finds nothing to dispatch. *)
Lemma expired_buffer_witness :
  let s := Scanner.init Scanner.constructor in
  let e := Ejemplos.pulsar "7" 1000 in
  let enter := Ejemplos.pulsar "Enter" 1200 in
  let s2 := Scanner.timerFired 1100 (Scanner.handleKeyPress Ejemplos.config e s) in
  0 < SCANNER_MIN_BARCODE_LENGTH Ejemplos.config
  /\ Scanner.buffer (Scanner.handleKeyPress Ejemplos.config e s) = "7"
  /\ Scanner.buffer s2 = ""
  /\ Scanner.dispatched (Scanner.handleKeyPress Ejemplos.config enter s2) = [].
Proof.
  intros s e enter s2.
  assert (HT : Scanner.tecla e) by (split; [reflexivity | discriminate]).
  assert (HM : 0 < SCANNER_MIN_BARCODE_LENGTH Ejemplos.config) by (cbn; lia).
  pose proof (expired_buffer_is_not_scanned Ejemplos.config e enter e 1100 s
                HT eq_refl eq_refl HT HM) as (_ & _ & H3).
  assert (HD : Scanner.now e + SCANNER_BUFFER_CLEAR_TIMEOUT Ejemplos.config <= 1100)
    by (cbn; lia).
  destruct (H3 HD) as (Hb & _ & _ & He & _).
  split; [exact HM|]. split; [reflexivity|]. split; [exact Hb | exact He].
Defined.

(** ** Stock check and formatting of an order *)

Section PedidosFacts.

Import Pedidos.

(** X5.  On a cart whose quantities are integers, [verificarStock] accepts
    exactly when every line names a product of the list that has at least
    the quantity of the line in stock; an accepted cart comes with no error
    and no product name, and the empty cart is accepted.  Quantities are
    integers throughout this development: a line whose quantity is [NaN],
    which an emptied quantity field leaves in the cart and which the
    comparison [producto.stock < item.cantidad] lets through, is not
    covered. *)
Theorem verificarStock_accepts_iff (carrito : list Item) (db : list Producto) :
  (valid (verificarStock carrito db) = true <->
     Forall (fun item =>
               exists p, find (fun p => id_eqb (id p) (item_id item)) db = Some p
                         /\ item_cantidad item <= stock p) carrito)
  /\ (valid (verificarStock carrito db) = true ->
        verificarStock carrito db = {| valid := true; error := None; producto := None |}).
Proof.
  induction carrito as [|item resto [IH1 IH2]]; cbn [verificarStock].
  - split; [split; [constructor | reflexivity] | reflexivity].
  - destruct (find (fun p => id_eqb (id p) (item_id item)) db) as [p|] eqn:Hf.
    + destruct (stock p <? item_cantidad item) eqn:Hs.
      * cbn. split; [split; [discriminate|] | discriminate].
        intros H. inversion H as [|? ? (p' & Hp' & Hle) _]; subst.
        rewrite Hf in Hp'. inversion Hp'; subst. apply Z.ltb_lt in Hs. lia.
      * split; [|exact IH2]. rewrite IH1. split.
        -- intros H. constructor; [|exact H]. exists p. split; [exact Hf|].
           apply Z.ltb_ge in Hs. exact Hs.
        -- intros H. inversion H; assumption.
    + cbn. split; [split; [discriminate|] | discriminate].
      intros H. inversion H as [|? ? (p' & Hp' & _) _]; subst. rewrite Hf in Hp'. discriminate.
Qed.

(** X6.  [verificarStock] stops at the first line that fails: the lines
    before it being in order, the result names that line, with "Producto no
    encontrado" when the list has no product of its identifier and with the
    stock available when the list has too little, whatever comes after. *)
Theorem verificarStock_reports_first_failure (ok : list Item) (item : Item)
    (resto : list Item) (db : list Producto) :
  valid (verificarStock ok db) = true ->
  valid (verificarStock [item] db) = false ->
  verificarStock (ok ++ item :: resto) db =
    {| valid := false;
       error := match find (fun p => id_eqb (id p) (item_id item)) db with
                | None => Some "Producto no encontrado"
                | Some p => Some ("Stock insuficiente. Disponible: "
                                  ++ JS.numberToString (stock p))%string
                end;
       producto := Some (item_nombre item) |}.
Proof.
  intros Hok Hitem. induction ok as [|o ok IH]; cbn [app verificarStock] in *.
  - destruct (find (fun p => id_eqb (id p) (item_id item)) db) as [p|]; [|reflexivity].
    destruct (stock p <? item_cantidad item); [reflexivity | discriminate].
  - destruct (find (fun p => id_eqb (id p) (item_id o)) db) as [p|]; [|discriminate].
    destruct (stock p <? item_cantidad o); [discriminate|]. apply IH. exact Hok.
Qed.

(** X7.  An order built by [formatearPedido] from a numeric total carries
    the trimmed name and one line for each line of the cart, in order;
    [validarPedido] then measures the trimmed name, so that such an order is
    valid exactly when the trimmed name has two characters or more, the cart
    is not empty, a time of arrival and a payment method are chosen and the
    total is positive.  A form without the name field makes
    [formatearPedido] throw.  Totals are numbers throughout this
    development: the total [NaN] of a cart that holds a [NaN] quantity,
    which the comparison [pedido.total <= 0] lets through, is not
    covered. *)
Theorem formatted_order_is_validated_on_trimmed_name
    (c : string) (tiempo metodo : option string) (carrito : list Item) (t : Q) :
  let formulario := {| form_cliente := Some c; form_tiempo_llegada := tiempo;
                       form_metodo_pago := metodo |} in
  exists pedido,
    formatearPedido formulario carrito t = Returned pedido
    /\ cliente pedido = Some (JS.trim c)
    /\ productos pedido = Some (map lineaDe carrito)
    /\ total pedido = t
    /\ (PedidosHelper.valid (PedidosHelper.validarPedido pedido) = true <->
          2 <= JS.length (JS.trim c) /\ carrito <> []
          /\ JS.truthy tiempo = true /\ JS.truthy metodo = true /\ (0 < t)%Q)
    /\ PedidosHelper.valid (PedidosHelper.validarPedido pedido)
         = Validacion.valido_segun_spec pedido
    /\ (forall tiempo' metodo',
          formatearPedido {| form_cliente := None; form_tiempo_llegada := tiempo';
                             form_metodo_pago := metodo' |} carrito t
            = Thrown "TypeError: datosFormulario.cliente is null").
Proof.
  intros formulario.
  set (pedido := {| cliente := Some (JS.trim c); productos := Some (map lineaDe carrito);
                    total := t; metodo_pago := metodo; tiempo_llegada := tiempo |}).
  exists pedido. split; [reflexivity|].
  split; [reflexivity|]. split; [reflexivity|]. split; [reflexivity|].
  assert (Hv : PedidosHelper.valid (PedidosHelper.validarPedido pedido)
               = Validacion.valido_segun_spec pedido).
  { rewrite validarPedido_cases.
    unfold Validacion.valido_segun_spec, Validacion.falta_nombre, Validacion.nombre_corto,
      Validacion.nombre_recortado_corto, Validacion.nombre. cbn [cliente pedido].
    rewrite trim_idempotent.
    destruct (JS.trim c =? "")%string; [reflexivity|].
    destruct (JS.length (JS.trim c) <? 2); [reflexivity|].
    destruct (Validacion.sin_productos pedido); [reflexivity|].
    destruct (Validacion.sin_tiempo pedido); [reflexivity|].
    destruct (Validacion.sin_metodo pedido); [reflexivity|].
    destruct (Validacion.total_no_positivo pedido); reflexivity. }
  split; [|split; [exact Hv | reflexivity]].
  rewrite Hv. unfold Validacion.valido_segun_spec.
  rewrite !andb_true_iff, !negb_true_iff.
  unfold Validacion.falta_nombre, Validacion.nombre_recortado_corto, Validacion.nombre,
    Validacion.sin_productos, Validacion.sin_tiempo, Validacion.sin_metodo.
  cbn [cliente productos tiempo_llegada metodo_pago pedido].
  rewrite trim_idempotent, !negb_false_iff, total_no_positivo_false, Z.ltb_ge.
  cbn [total pedido].
  split.
  - intros (((((_ & H2) & H3) & H4) & H5) & H6). repeat split; auto.
    destruct carrito; [discriminate H3 | discriminate].
  - intros (H2 & H3 & H4 & H5 & H6). repeat split; auto.
    + apply String.eqb_neq. intros E. rewrite E in H2. cbn in H2. lia.
    + destruct carrito; [congruence | reflexivity].
Qed.

End PedidosFacts.

(** Two loaves in the cart where the list has ten, then five of a milk that
    the list has three of: the milk is the line reported. *)
Lemma verificarStock_witness :
  let pan := {| item_id := Some "p1"; item_nombre := "Pan"; item_precio := 5;
                item_cantidad := 2; item_stock := 10 |} in
  let leche := {| item_id := Some "p2"; item_nombre := "Leche"; item_precio := 20;
                  item_cantidad := 5; item_stock := 8 |} in
  let db := [Ejemplos.pan 10; Ejemplos.leche 3] in
  Pedidos.valid (Pedidos.verificarStock [pan] db) = true
  /\ Pedidos.valid (Pedidos.verificarStock [leche] db) = false
  /\ Pedidos.verificarStock [pan; leche; pan] db =
       {| Pedidos.valid := false;
          Pedidos.error := Some "Stock insuficiente. Disponible: 3";
          Pedidos.producto := Some "Leche" |}.
Proof.
  intros pan leche db.
  split; [reflexivity|]. split; [reflexivity|].
  exact (verificarStock_reports_first_failure [pan] leche [pan] db eq_refl eq_refl).
Defined.

(** ** What the database layer leaves alone *)

Section FrameFacts.

Context {R : Type} {S : Supabase R}.

Lemma getProductos_frame (w : World R) :
  let w' := snd (getProductos w) in
  catalogo_carrito w' = catalogo_carrito w
  /\ CARRITO_KEY (localStorage w') = CARRITO_KEY (localStorage w)
  /\ PENDING_CHANGES_KEY (localStorage w') = PENDING_CHANGES_KEY (localStorage w)
  /\ clock w' = clock w
  /\ isOnline w' = isOnline w
  /\ sent w' = sent w ++ (if isOnline w then [sentOf SelectProductos] else [])
  /\ remote w' = (if isOnline w then snd (exec SelectProductos (remote w)) else remote w)
  /\ exists ps, fst (getProductos w) = Returned ps.
Proof.
  unfold getProductos.
  cbv [bind gets modify ret throw try_catch await data_or_throw console_error_
       getFromLocalStorage saveToLocalStorage]; cbn.
  destruct (isOnline w) eqn:Hon; cbn.
  - destruct (exec SelectProductos (remote w)) as [[e|[e|d]] r']; cbn;
      rewrite ?Hon; repeat split; eauto.
  - rewrite Hon, app_nil_r. repeat split; eauto.
Qed.

Lemma createPedido_frame (p : DatosPedido) (w : World R) :
  let q := InsertPedido (nuevoPedido (Date_iso (clock w)) p) in
  let w' := snd (createPedido p w) in
  catalogo_carrito w' = catalogo_carrito w
  /\ localStorage w' = localStorage w
  /\ isOnline w' = isOnline w
  /\ sent w' = sent w ++ (if isOnline w then [sentOf q] else [])
  /\ (forall fila, fst (createPedido p w) = Returned fila ->
        isOnline w = true /\ fst (exec q (remote w)) = Resolves (WithData fila))
  /\ (forall e, fst (createPedido p w) = Thrown e ->
        forall fila, isOnline w = true -> fst (exec q (remote w)) <> Resolves (WithData fila)).
Proof.
  unfold createPedido.
  cbv [bind gets modify ret throw try_catch await data_or_throw console_error_]; cbn.
  destruct (isOnline w) eqn:Hon; cbn.
  - destruct (exec (InsertPedido (nuevoPedido (Date_iso (clock w)) p)) (remote w))
      as [[e|[e|d]] r']; cbn; rewrite ?Hon;
      (split; [reflexivity|]); (split; [reflexivity|]); (split; [reflexivity|]);
      (split; [reflexivity|]); split;
      try (intros ? HH; discriminate HH);
      try (intros ? _ ? _ HH; discriminate HH).
    + intros fila HH. inversion HH. auto.
  - rewrite Hon, app_nil_r. repeat split; auto; try discriminate.
Qed.

End FrameFacts.

(** ** Submitting an order from the catalogue *)

Section EnviarFacts.

Import Pedidos Catalogo.
Context {R : Type} {S : Supabase R}.

Lemma enviarPedido_unfold (w : World R) (c : string) (tiempo metodo : option string) :
  let formulario := {| form_cliente := Some c; form_tiempo_llegada := tiempo;
                       form_metodo_pago := metodo |} in
  let carrito := catalogo_carrito w in
  let pedido := {| cliente := Some (JS.trim c); productos := Some (map lineaDe carrito);
                   total := calcularTotal carrito; metodo_pago := metodo;
                   tiempo_llegada := tiempo |} in
  enviarPedido formulario w =
    if negb (PedidosHelper.valid (PedidosHelper.validarPedido pedido)) then
      mostrar (match PedidosHelper.error (PedidosHelper.validarPedido pedido) with
               | Some e => e
               | None => "undefined"
               end) "error" w
    else
      match getProductos w with
      | (Thrown e, w1) => (Thrown e, w1)
      | (Returned productos, w1) =>
          let stockCheck := verificarStock (catalogo_carrito w1) productos in
          if negb (valid stockCheck) then
            mostrar (match producto stockCheck with Some n => n | None => "undefined" end
                     ++ ": "
                     ++ match error stockCheck with Some e => e | None => "undefined" end)%string
                    "error" w1
          else
            match createPedido pedido w1 with
            | (Returned _, w2) =>
                (Returned tt,
                 snd (CatalogoCliente.guardarCarrito
                        (snd (CatalogoCliente.mutar_carrito (fun _ => []) w2))))
            | (Thrown e, w2) =>
                (Returned tt,
                 add_mensaje ("Error al enviar el pedido. Por favor intenta nuevamente.", "error")
                   (add_console_error "Error al enviar pedido:" e w2))
            end
      end.
Proof.
  intros formulario carrito pedido.
  unfold enviarPedido. unfold bind at 1. unfold gets at 1. cbn [formatearPedido formulario form_cliente form_tiempo_llegada form_metodo_pago].
  fold carrito. fold pedido.
  destruct (negb (PedidosHelper.valid (PedidosHelper.validarPedido pedido))); [reflexivity|].
  unfold bind at 1. destruct (getProductos w) as [[ps|e] w1]; [|reflexivity].
  unfold bind at 1. unfold gets at 1.
  destruct (negb (valid (verificarStock (catalogo_carrito w1) ps))); [reflexivity|].
  unfold try_catch. unfold bind at 1.
  destruct (createPedido pedido w1) as [[fila|e] w2]; reflexivity.
Qed.

Lemma app_inv_nil {A} (l l' : list A) : l = l ++ l' -> l' = [].
Proof.
  intros H. apply (app_inv_head l). now rewrite app_nil_r.
Qed.

(** X8.  Submitting the order form never throws when the form has a name
    field, and it empties the cart exactly when the order has been created:
    when the insertion of the order built from the cart (trimmed name, one
    line for each cart line, the cart total, status pendiente) was sent after
    the product query and answered with a row, the cart and its stored copy
    are empty; in every other case both are as they were.  At most those
    two queries are sent, none offline, and nothing is put on the pending
    queue. *)
Theorem enviarPedido_empties_cart_iff_order_created
    (w : World R) (c : string) (tiempo metodo : option string) :
  let formulario := {| form_cliente := Some c; form_tiempo_llegada := tiempo;
                       form_metodo_pago := metodo |} in
  let carrito := catalogo_carrito w in
  let pedido := {| cliente := Some (JS.trim c); productos := Some (map lineaDe carrito);
                   total := calcularTotal carrito; metodo_pago := metodo;
                   tiempo_llegada := tiempo |} in
  let q := InsertPedido (nuevoPedido (Date_iso (clock w)) pedido) in
  let w' := snd (enviarPedido formulario w) in
  let creado :=
    sent w' = sent w ++ [sentOf SelectProductos; sentOf q]
    /\ exists fila,
         fst (exec q (snd (exec SelectProductos (remote w)))) = Resolves (WithData fila) in
  fst (enviarPedido formulario w) = Returned tt
  /\ (creado -> catalogo_carrito w' = [] /\ CARRITO_KEY (localStorage w') = Some [])
  /\ (~ creado ->
      catalogo_carrito w' = carrito
      /\ CARRITO_KEY (localStorage w') = CARRITO_KEY (localStorage w))
  /\ (exists qs, sent w' = sent w ++ qs
                 /\ (qs = [] \/ qs = [sentOf SelectProductos]
                     \/ qs = [sentOf SelectProductos; sentOf q]))
  /\ (isOnline w = false -> sent w' = sent w)
  /\ pendientes w' = pendientes w.
Proof.
  intros formulario carrito pedido q w' creado.
  subst w' creado formulario. rewrite (enviarPedido_unfold w c tiempo metodo).
  fold carrito pedido.
  destruct (negb (PedidosHelper.valid (PedidosHelper.validarPedido pedido))).
  { cbn. split; [reflexivity|]. split.
    - intros [H _]. apply app_inv_nil in H. discriminate.
    - split; [auto|]. split; [exists []; rewrite app_nil_r; auto|]. auto. }
  destruct (getProductos_frame w) as (Hc1 & Hk1 & Hp1 & Hclk1 & Hon1 & Hs1 & Hr1 & ps & Hps).
  destruct (getProductos w) as [o1 w1] eqn:Hg. cbn [fst snd] in *. subst o1.
  cbv zeta.
  assert (Hpend1 : pendientes w1 = pendientes w) by (unfold pendientes; now rewrite Hp1).
  destruct (negb (valid (verificarStock (catalogo_carrito w1) ps))).
  { cbn. split; [reflexivity|]. split.
    - intros [H _]. rewrite Hs1 in H. apply app_inv_head in H.
      destruct (isOnline w); discriminate.
    - split; [auto|]. split; [|split; [|exact Hpend1]].
      + exists (if isOnline w then [sentOf SelectProductos] else []).
        split; [exact Hs1|]. destruct (isOnline w); auto.
      + intros Hoff. rewrite Hs1, Hoff. apply app_nil_r. }
  destruct (createPedido_frame pedido w1) as (Hc2 & Hl2 & Hon2 & Hs2 & Hok & Hko).
  cbv zeta in *. rewrite Hclk1 in *. fold q in Hs2, Hok, Hko.
  destruct (createPedido pedido w1) as [[fila|e] w2] eqn:Hcp; cbn [fst snd] in *.
  - destruct (Hok fila eq_refl) as [Hon Hex]. rewrite Hon in Hs2.
    rewrite Hon1 in Hon. rewrite Hon in Hs1, Hr1.
    cbn. split; [reflexivity|]. split; [auto|]. split.
    + intros Hno. exfalso. apply Hno. split.
      * rewrite Hs2, Hs1, <- app_assoc. reflexivity.
      * exists fila. rewrite <- Hr1. exact Hex.
    + split; [|split; [intros Hoff; congruence|]].
      * exists [sentOf SelectProductos; sentOf q]. split; [|auto].
        rewrite Hs2, Hs1, <- app_assoc. reflexivity.
      * unfold pendientes in *. cbn. rewrite Hl2. exact Hpend1.
  - cbn. split; [reflexivity|]. split.
    + intros [Hsent [fila Hex]]. exfalso.
      rewrite Hs2, Hs1, <- app_assoc, Hon1 in Hsent. apply app_inv_head in Hsent.
      destruct (isOnline w) eqn:Hon; [|discriminate].
      rewrite <- Hr1 in Hex. exact (Hko e eq_refl fila Hon1 Hex).
    + split; [|split; [|split]].
      * intros _. rewrite Hc2, Hl2. auto.
      * exists ((if isOnline w then [sentOf SelectProductos] else [])
                ++ (if isOnline w1 then [sentOf q] else [])).
        split; [rewrite Hs2, Hs1, <- app_assoc; reflexivity|].
        rewrite Hon1. destruct (isOnline w); cbn; auto.
      * intros Hoff. rewrite Hs2, Hs1, Hon1, Hoff, !app_nil_r. reflexivity.
      * unfold pendientes in *. cbn. rewrite Hl2. exact Hpend1.
Qed.

End EnviarFacts.

(** ** The cart across page loads *)

Section ReloadFacts.

Import Pedidos Catalogo CatalogoCliente.
Context {R : Type} {S : Supabase R}.
Variable cfg : Config.

Ltac run := cbv [bind gets modify ret throw try_catch mostrar mutar_carrito guardarCarrito]; cbn.

Lemma agregarAlCarrito_guarda (p : Producto) (w : World R) :
  guardaOCalla w (snd (agregarAlCarrito p w)).
Proof.
  unfold guardaOCalla, agregarAlCarrito. run.
  destruct (find _ (catalogo_carrito w)) as [item|]; run.
  - destruct (item_cantidad item <? stock p); run; auto.
  - auto.
Qed.

Lemma eliminarDelCarrito_guarda pid (w : World R) :
  guardaOCalla w (snd (eliminarDelCarrito pid w)).
Proof. unfold guardaOCalla, eliminarDelCarrito. run. auto. Qed.

Lemma actualizarCantidad_guarda pid n (w : World R) :
  guardaOCalla w (snd (actualizarCantidad cfg pid n w)).
Proof.
  unfold actualizarCantidad. unfold bind at 1. unfold gets at 1.
  destruct (find _ (catalogo_carrito w)) as [item|].
  - destruct (n <=? 0); [apply eliminarDelCarrito_guarda|].
    destruct (item_stock item <? n); [unfold guardaOCalla; run; auto|].
    destruct (CARRITO_MAX_CANTIDAD_POR_PRODUCTO cfg <? n); unfold guardaOCalla; run; auto.
  - unfold guardaOCalla; cbn; auto.
Qed.

Lemma operar_guarda (o : Operacion) (w : World R) :
  guardaOCalla w (snd (operar cfg o w)).
Proof.
  destruct o as [p|pid|pid|pid n|pid]; cbn [operar].
  - apply agregarAlCarrito_guarda.
  - unfold bind at 1. unfold gets at 1.
    destruct (find _ (catalogo_carrito w)); [apply actualizarCantidad_guarda|].
    unfold guardaOCalla; cbn; auto.
  - unfold bind at 1. unfold gets at 1.
    destruct (find _ (catalogo_carrito w)); [apply actualizarCantidad_guarda|].
    unfold guardaOCalla; cbn; auto.
  - apply actualizarCantidad_guarda.
  - apply eliminarDelCarrito_guarda.
Qed.

Lemma vaciarCarrito_guarda (confirma : bool) (w : World R) :
  guardaOCalla w (snd (vaciarCarrito confirma w)).
Proof.
  unfold guardaOCalla, vaciarCarrito. run.
  destruct (List.length (catalogo_carrito w) =? 0)%nat; run; auto.
  destruct confirma; run; auto.
Qed.

(** What [enviarPedido] does to the cart: it leaves the cart and its
    stored copy alone, or it empties both. *)
Lemma enviarPedido_carrito (f : DatosFormulario) (w : World R) :
  let w' := snd (enviarPedido f w) in
  (catalogo_carrito w' = catalogo_carrito w
   /\ CARRITO_KEY (localStorage w') = CARRITO_KEY (localStorage w))
  \/ (catalogo_carrito w' = [] /\ CARRITO_KEY (localStorage w') = Some []).
Proof.
  destruct f as [[c|] tiempo metodo].
  2:{ left. unfold enviarPedido. cbn. auto. }
  cbv zeta. rewrite (enviarPedido_unfold w c tiempo metodo).
  destruct (negb (PedidosHelper.valid _)); [left; cbn; auto|].
  destruct (getProductos_frame w) as (Hc1 & Hk1 & _).
  destruct (getProductos w) as [[ps|e] w1]; cbn [fst snd] in *; [|left; auto].
  cbv zeta.
  destruct (negb (valid _)); [left; cbn; auto|].
  match goal with |- context [createPedido ?p w1] =>
    destruct (createPedido_frame p w1) as (Hc2 & Hl2 & _);
    destruct (createPedido p w1) as [[fila|e] w2] end; cbn [fst snd] in *.
  - right. cbn. auto.
  - left. cbn. rewrite Hc2, Hl2. auto.
Qed.

Lemma actuar_guarda (a : Accion) (w : World R) :
  guardaOCalla w (snd (actuar cfg a w)).
Proof.
  destruct a as [o|confirma|f]; cbn [actuar].
  - apply operar_guarda.
  - apply vaciarCarrito_guarda.
  - destruct (enviarPedido_carrito f w) as [H|[H1 H2]]; [left; exact H|].
    right. rewrite H1. exact H2.
Qed.

Lemma actuarTodas_guardado (acciones : list Accion) : forall (w : World R),
  carritoGuardado w = catalogo_carrito w ->
  carritoGuardado (actuarTodas cfg acciones w) = catalogo_carrito (actuarTodas cfg acciones w).
Proof.
  induction acciones as [|a l IH]; intros w H; [exact H|].
  change (actuarTodas cfg (a :: l) w) with (actuarTodas cfg l (snd (actuar cfg a w))).
  apply IH. unfold carritoGuardado in *.
  destruct (actuar_guarda a w) as [[H1 H2]|H1].
  - rewrite H1, H2. exact H.
  - rewrite H1. reflexivity.
Qed.

(** X9.  The cart survives a reload of the page.  Once the page has loaded
    the stored cart, whatever the customer does next (adding, removing,
    setting a quantity to an integer, emptying the cart, submitting the
    order form, in any number and order), the stored copy of the cart is the
    cart, and opening the page again brings back exactly that cart.
    Quantities are integers throughout this development: an emptied quantity
    field, which hands [actualizarCantidad] a [NaN] that is kept in the cart
    and stored as [null], is not covered. *)
Theorem cart_survives_reload (acciones : list Accion) (w : World R) :
  let w0 := snd (cargarCarrito (constructor w)) in
  let w1 := actuarTodas cfg acciones w0 in
  carritoGuardado w1 = catalogo_carrito w1
  /\ catalogo_carrito (snd (cargarCarrito (constructor w1))) = catalogo_carrito w1.
Proof.
  intros w0 w1.
  assert (H0 : carritoGuardado w0 = catalogo_carrito w0).
  { subst w0. unfold carritoGuardado, cargarCarrito, constructor. run.
    destruct (CARRITO_KEY (localStorage w)) eqn:E; cbn; rewrite E; reflexivity. }
  assert (H1 : carritoGuardado w1 = catalogo_carrito w1)
    by (apply actuarTodas_guardado; exact H0).
  split; [exact H1|].
  rewrite <- H1. unfold carritoGuardado, cargarCarrito, constructor. run.
  destruct (CARRITO_KEY (localStorage w1)) eqn:E; cbn; reflexivity.
Qed.

End ReloadFacts.

(** ** One line for each product *)

Section LineFacts.

Import Pedidos Catalogo CatalogoCliente.
Context {R : Type} {S : Supabase R}.
Variable cfg : Config.

Ltac run := cbv [bind gets modify ret throw try_catch mostrar mutar_carrito guardarCarrito]; cbn.

Lemma id_eqb_refl (a : option string) : id_eqb a a = true.
Proof. destruct a; cbn; [apply String.eqb_refl | reflexivity]. Qed.

Lemma find_none_ids (pid : option string) (l : list Item) :
  find (fun item => id_eqb (item_id item) pid) l = None -> ~ In pid (map item_id l).
Proof.
  induction l as [|x l IH]; cbn; [auto|].
  destruct (id_eqb (item_id x) pid) eqn:E; [discriminate|].
  intros H [H1|H1]; [|exact (IH H H1)].
  rewrite H1, id_eqb_refl in E. discriminate.
Qed.

Lemma mutate_first_ids (f : Item -> bool) (n : Item -> Z) (l : list Item) :
  map item_id (mutate_first f (fun item => with_cantidad (n item) item) l) = map item_id l.
Proof.
  induction l as [|x l IH]; cbn; [reflexivity|].
  destruct (f x); cbn; [reflexivity | now rewrite IH].
Qed.

Lemma filter_ids_NoDup (f : Item -> bool) (l : list Item) :
  NoDup (map item_id l) -> NoDup (map item_id (filter f l)).
Proof.
  induction l as [|x l IH]; cbn; [auto|]. intros H. inversion H as [|? ? Hn Hd]; subst.
  destruct (f x); cbn; [|auto]. constructor; [|auto].
  intros Hin. apply Hn. apply in_map_iff in Hin. destruct Hin as (y & Hy & Hin).
  apply filter_In in Hin. apply in_map_iff. exists y. tauto.
Qed.

Lemma agregarAlCarrito_ids (p : Producto) (w : World R) :
  NoDup (map item_id (catalogo_carrito w)) ->
  NoDup (map item_id (catalogo_carrito (snd (agregarAlCarrito p w)))).
Proof.
  intros H. unfold agregarAlCarrito. run.
  destruct (find _ (catalogo_carrito w)) as [item|] eqn:Hf; run.
  - destruct (item_cantidad item <? stock p); run; [|exact H].
    rewrite (mutate_first_ids _ (fun item => item_cantidad item + 1)). exact H.
  - rewrite map_app. cbn. apply NoDup_app; [exact H | repeat constructor; auto |].
    intros x Hx [<-|[]]. exact (find_none_ids _ _ Hf Hx).
Qed.

Lemma actualizarCantidad_ids pid n (w : World R) :
  NoDup (map item_id (catalogo_carrito w)) ->
  NoDup (map item_id (catalogo_carrito (snd (actualizarCantidad cfg pid n w)))).
Proof.
  intros H. unfold actualizarCantidad, eliminarDelCarrito. run.
  destruct (find _ (catalogo_carrito w)) as [item|]; run; [|exact H].
  destruct (n <=? 0); run; [apply filter_ids_NoDup; exact H|].
  destruct (item_stock item <? n); run; [exact H|].
  destruct (CARRITO_MAX_CANTIDAD_POR_PRODUCTO cfg <? n); run; [exact H|].
  rewrite (mutate_first_ids _ (fun _ => n)). exact H.
Qed.

Lemma actuar_ids (a : Accion) (w : World R) :
  NoDup (map item_id (catalogo_carrito w)) ->
  NoDup (map item_id (catalogo_carrito (snd (actuar cfg a w)))).
Proof.
  intros H. destruct a as [[p|pid|pid|pid n|pid]|confirma|f]; cbn [actuar operar].
  - apply agregarAlCarrito_ids; exact H.
  - unfold bind at 1. unfold gets at 1.
    destruct (find _ (catalogo_carrito w)); [apply actualizarCantidad_ids; exact H | exact H].
  - unfold bind at 1. unfold gets at 1.
    destruct (find _ (catalogo_carrito w)); [apply actualizarCantidad_ids; exact H | exact H].
  - apply actualizarCantidad_ids; exact H.
  - unfold eliminarDelCarrito. run. apply filter_ids_NoDup; exact H.
  - unfold vaciarCarrito. run.
    destruct (List.length (catalogo_carrito w) =? 0)%nat; run; [exact H|].
    destruct confirma; run; [constructor | exact H].
  - destruct (enviarPedido_carrito f w) as [[H1 _]|[H1 _]]; rewrite H1; [exact H | constructor].
Qed.

(** X10.  The cart holds one line for each product.  If no two lines of
    the cart have the same product identifier, that is still so after
    anything the customer does on the page: adding a product that already
    has a line raises the quantity of that line and never adds a second
    one. *)
Theorem cart_has_one_line_per_product (acciones : list Accion) (w : World R) :
  NoDup (map item_id (catalogo_carrito w)) ->
  NoDup (map item_id (catalogo_carrito (actuarTodas cfg acciones w))).
Proof.
  revert w. induction acciones as [|a l IH]; intros w H; [exact H|].
  change (actuarTodas cfg (a :: l) w) with (actuarTodas cfg l (snd (actuar cfg a w))).
  apply IH, actuar_ids, H.
Qed.

End LineFacts.

Section TotalFacts.

Import Catalogo.

Lemma calcularTotal_acc (carrito : list Item) : forall (acc : Q),
  Forall (fun i => (0 < item_precio i)%Q /\ 1 <= item_cantidad i) carrito ->
  (acc <= fold_left (fun sum item => sum + item_precio item * inject_Z (item_cantidad item))
                    carrito acc)%Q.
Proof.
  induction carrito as [|i l IH]; intros acc H; cbn; [apply Qle_refl|].
  inversion H as [|? ? [Hp Hc] Hl]; subst.
  eapply Qle_trans; [|apply IH; exact Hl].
  rewrite <- (Qplus_0_r acc) at 1. apply Qplus_le_compat; [apply Qle_refl|].
  apply Qmult_le_0_compat; [apply Qlt_le_weak; exact Hp|].
  unfold Qle; cbn; lia.
Qed.

(** X11.  The total of a cart that has at least one line, every line with
    a positive price and a quantity of at least one, is positive, so that
    the check of the total in [validarPedido] does not turn such a cart
    down. *)
Theorem calcularTotal_positive (carrito : list Item) :
  carrito <> [] ->
  Forall (fun i => (0 < item_precio i)%Q /\ 1 <= item_cantidad i) carrito ->
  (0 < calcularTotal carrito)%Q.
Proof.
  intros Hne H. destruct carrito as [|i l]; [congruence|].
  inversion H as [|? ? [Hp Hc] Hl]; subst.
  unfold calcularTotal. cbn [fold_left].
  eapply Qlt_le_trans; [|apply calcularTotal_acc; exact Hl].
  rewrite Qplus_0_l.
  apply Qmult_lt_0_compat; [exact Hp|]. unfold Qlt; cbn; lia.
Qed.

End TotalFacts.

(** The bread twice and the milk once, on an empty cart: two lines, the
    bread with a quantity of two. *)
Lemma cart_lines_witness :
  let acciones := [Catalogo.Operar (CatalogoCliente.Agregar (Ejemplos.pan 3));
                   Catalogo.Operar (CatalogoCliente.Agregar (Ejemplos.leche 2));
                   Catalogo.Operar (CatalogoCliente.Agregar (Ejemplos.pan 3))] in
  let w' := Catalogo.actuarTodas Ejemplos.config acciones Ejemplos.navegador in
  NoDup (map item_id (catalogo_carrito Ejemplos.navegador))
  /\ map item_cantidad (catalogo_carrito w') = [2; 1]
  /\ NoDup (map item_id (catalogo_carrito w')).
Proof.
  intros acciones w'.
  assert (H0 : NoDup (map item_id (catalogo_carrito Ejemplos.navegador))) by constructor.
  split; [exact H0|]. split; [reflexivity|].
  exact (cart_has_one_line_per_product Ejemplos.config acciones Ejemplos.navegador H0).
Defined.

(** Two loaves at 5 each: a total of 10. *)
Lemma calcularTotal_witness :
  let carrito := [ {| item_id := Some "p1"; item_nombre := "Pan"; item_precio := 5;
                      item_cantidad := 2; item_stock := 10 |} ] in
  carrito <> []
  /\ (Catalogo.calcularTotal carrito == 10)%Q
  /\ (0 < Catalogo.calcularTotal carrito)%Q.
Proof.
  intros carrito.
  assert (H0 : carrito <> []) by discriminate.
  split; [exact H0|]. split; [reflexivity|].
  apply (calcularTotal_positive carrito H0).
  repeat constructor; cbn; lia.
Defined.

(** ** What a computation leaves alone *)

Section DejaFacts.

Context {R : Type} {S : Supabase R} {X : Type}.
Variable f : World R -> X.

Lemma deja_ret {A} (a : A) : deja f (ret a).
Proof. intros w. reflexivity. Qed.

Lemma deja_throw {A} (e : Error) : deja f (throw (A := A) e).
Proof. intros w. reflexivity. Qed.

Lemma deja_gets {A} (g : World R -> A) : deja f (gets g).
Proof. intros w. reflexivity. Qed.

Lemma deja_modify (g : World R -> World R) :
  (forall w, f (g w) = f w) -> deja f (modify g).
Proof. intros H w. apply H. Qed.

Lemma deja_bind {A B} (m : M R A) (k : A -> M R B) :
  deja f m -> (forall a, deja f (k a)) -> deja f (bind m k).
Proof.
  intros Hm Hk w. unfold bind. specialize (Hm w).
  destruct (m w) as [[a|e] w1]; cbn [snd] in *; [|exact Hm].
  rewrite (Hk a w1). exact Hm.
Qed.

Lemma deja_try_catch {A} (m : M R A) (h : Error -> M R A) :
  deja f m -> (forall e, deja f (h e)) -> deja f (try_catch m h).
Proof.
  intros Hm Hh w. unfold try_catch. specialize (Hm w).
  destruct (m w) as [[a|e] w1]; cbn [snd] in *; [exact Hm|].
  rewrite (Hh e w1). exact Hm.
Qed.

Lemma deja_for_of {A} (l : list A) (body : A -> M R unit) :
  (forall x, deja f (body x)) -> deja f (for_of l body).
Proof.
  intros H. induction l as [|x l IH]; cbn [for_of]; [apply deja_ret|].
  apply deja_bind; [apply H | intros _; exact IH].
Qed.

Lemma deja_await {A} (q : Request A) :
  (forall r s w, f (set_remote_sent r s w) = f w) -> deja f (await q).
Proof.
  intros H w. unfold await. destruct (exec q (remote w)) as [[e|r] r']; cbn; apply H.
Qed.

Lemma deja_data_or_throw {A} (r : Response A) : deja f (data_or_throw r).
Proof. destruct r; [apply deja_throw | apply deja_ret]. Qed.

Lemma deja_if {A} (b : bool) (m1 m2 : M R A) :
  deja f m1 -> deja f m2 -> deja f (if b then m1 else m2).
Proof. destruct b; auto. Qed.

End DejaFacts.

Ltac dejar :=
  repeat first
    [ apply deja_ret | apply deja_throw | apply deja_gets | apply deja_data_or_throw
    | apply deja_bind; [|intros ?]
    | apply deja_try_catch; [|intros ?]
    | apply deja_for_of; intros ?
    | apply deja_await; intros; reflexivity
    | apply deja_modify; intros; reflexivity
    | match goal with |- deja _ (if ?b then _ else _) => destruct b end
    | match goal with |- deja _ (match ?x with _ => _ end) => destruct x end ].

(** ** Orders and sales live on the server only *)

Section ServerOnlyFacts.

Context {R : Type} {S : Supabase R}.

Lemma createPedido_deja {X} (f : World R -> X) (p : DatosPedido) :
  (forall r s w, f (set_remote_sent r s w) = f w) ->
  (forall l e w, f (add_console_error l e w) = f w) ->
  deja f (createPedido p).
Proof.
  intros H1 H2. unfold createPedido, console_error_.
  dejar; try (apply deja_await; exact H1); apply deja_modify; intros; apply H2.
Qed.

Lemma createVenta_deja {X} (f : World R -> X) (v : DatosVenta) :
  (forall r s w, f (set_remote_sent r s w) = f w) ->
  (forall l e w, f (add_console_error l e w) = f w) ->
  deja f (createVenta v).
Proof.
  intros H1 H2. unfold createVenta, console_error_.
  dejar; try (apply deja_await; exact H1); apply deja_modify; intros; apply H2.
Qed.

Lemma updatePedidoEstado_deja {X} (f : World R -> X) pid e :
  (forall r s w, f (set_remote_sent r s w) = f w) ->
  (forall l e w, f (add_console_error l e w) = f w) ->
  deja f (updatePedidoEstado pid e).
Proof.
  intros H1 H2. unfold updatePedidoEstado, console_error_.
  dejar; try (apply deja_await; exact H1); apply deja_modify; intros; apply H2.
Qed.

Lemma getPedidosPendientes_deja {X} (f : World R -> X) :
  (forall r s w, f (set_remote_sent r s w) = f w) ->
  (forall l e w, f (add_console_error l e w) = f w) ->
  deja f getPedidosPendientes.
Proof.
  intros H1 H2. unfold getPedidosPendientes, console_error_.
  dejar; try (apply deja_await; exact H1); apply deja_modify; intros; apply H2.
Qed.

Lemma getVentasPorDia_deja {X} (f : World R -> X) desde hasta :
  (forall r s w, f (set_remote_sent r s w) = f w) ->
  (forall l e w, f (add_console_error l e w) = f w) ->
  deja f (getVentasPorDia desde hasta).
Proof.
  intros H1 H2. unfold getVentasPorDia, console_error_.
  dejar; try (apply deja_await; exact H1); apply deja_modify; intros; apply H2.
Qed.

(** X12.  Orders and sales live on the server only.  Whatever the mode and
    the outcome, [createPedido], [createVenta], [updatePedidoEstado],
    [getPedidosPendientes] and [getVentasPorDia] leave [localStorage] as it
    was: nothing of an order or a sale is mirrored, and nothing is queued
    for a later try. *)
Theorem orders_and_sales_bypass_localStorage (w : World R) (p : DatosPedido)
    (v : DatosVenta) (pid : option string) (e desde hasta : string) :
  localStorage (snd (createPedido p w)) = localStorage w
  /\ localStorage (snd (createVenta v w)) = localStorage w
  /\ localStorage (snd (updatePedidoEstado pid e w)) = localStorage w
  /\ localStorage (snd (getPedidosPendientes w)) = localStorage w
  /\ localStorage (snd (getVentasPorDia desde hasta w)) = localStorage w.
Proof.
  repeat split.
  - apply (createPedido_deja localStorage); reflexivity.
  - apply (createVenta_deja localStorage); reflexivity.
  - apply (updatePedidoEstado_deja localStorage); reflexivity.
  - apply (getPedidosPendientes_deja localStorage); reflexivity.
  - apply (getVentasPorDia_deja localStorage); reflexivity.
Qed.

Lemma updateMultipleStock_cola us : deja (R := R) cola (updateMultipleStock us).
Proof.
  unfold updateMultipleStock, console_error_. dejar.
  destruct x as [pid cant]. unfold updateOneStock. dejar.
Qed.

Lemma getProductos_cola : deja (R := R) cola getProductos.
Proof.
  unfold getProductos, console_error_, getFromLocalStorage, saveToLocalStorage. dejar.
Qed.

Lemma confirmarEntrega_cola pedidoId confirma : deja (R := R) cola (POS.confirmarEntrega pedidoId confirma).
Proof.
  unfold POS.confirmarEntrega.
  apply deja_try_catch; [|intros e; unfold console_error_, mostrar; dejar].
  apply deja_bind; [apply getPedidosPendientes_deja; reflexivity|]. intros pedidos.
  destruct (find _ pedidos) as [pedido|]; [|unfold mostrar; dejar].
  destruct (negb confirma); [dejar|].
  destruct (productos (pedido_datos pedido)) as [lineas|]; [|dejar].
  apply deja_bind; [apply updateMultipleStock_cola|]. intros _.
  apply deja_bind; [apply createVenta_deja; reflexivity|]. intros _.
  apply deja_bind; [apply updatePedidoEstado_deja; reflexivity|]. intros _.
  apply deja_bind; [unfold mostrar; dejar|]. intros _.
  apply deja_bind.
  - unfold POS.cargarPedidosPendientes, console_error_.
    apply deja_try_catch; [|intros; dejar].
    apply deja_bind; [apply getPedidosPendientes_deja; reflexivity|]. intros; dejar.
  - intros _. unfold POS.cargarProductos, console_error_, mostrar.
    apply deja_try_catch; [|intros; dejar].
    apply deja_bind; [apply getProductos_cola|]. intros; dejar.
Qed.

(** X13.  A fulfilment is never queued.  Unlike the single-product writes,
    [updateMultipleStock] and [confirmarEntrega] leave the pending queue as
    it was in every mode and whatever fails on the way, so that the replay
    of the queue never goes back to an order left half fulfilled. *)
Theorem fulfilment_is_never_queued (w : World R) (us : list (option string * Z))
    (pedidoId : string) (confirma : bool) :
  pendientes (snd (updateMultipleStock us w)) = pendientes w
  /\ pendientes (snd (POS.confirmarEntrega pedidoId confirma w)) = pendientes w.
Proof.
  pose proof (updateMultipleStock_cola us w) as H1.
  pose proof (confirmarEntrega_cola pedidoId confirma w) as H2.
  unfold cola in H1, H2. unfold pendientes. rewrite H1, H2. split; reflexivity.
Qed.

End ServerOnlyFacts.

(** ** Product writes online *)

Section OnlineFacts.

Context {R : Type} {S : Supabase R}.

Ltac run :=
  cbv [bind gets modify ret throw try_catch await data_or_throw console_error_
       updateInLocalStorage getFromLocalStorage saveToLocalStorage
       savePendingChange getPendingChanges setPendingChanges]; cbn.

Lemma addProducto_deja_online (producto : Producto) : deja isOnline (addProducto producto).
Proof.
  unfold addProducto, console_error_, savePendingChange, getPendingChanges, setPendingChanges,
    getFromLocalStorage, saveToLocalStorage. dejar.
Qed.

Lemma updateStock_deja_online (pid : option string) (n : Z) :
  deja isOnline (updateStock pid n).
Proof.
  unfold updateStock, console_error_, savePendingChange, getPendingChanges, setPendingChanges,
    updateInLocalStorage, getFromLocalStorage, saveToLocalStorage. dejar.
Qed.

(** X14.  [addProducto] online sends one insertion of the product, without
    identifier and stamped with the clock.  When the store answers with the
    row, the row is returned and appended to the mirror, and the queue is
    left alone.  When the query is rejected or answered with an error, the
    error is thrown again to the caller after being logged, the mirror is
    left alone, and exactly one insert of that product joins the pending
    queue; the next run of [syncPendingChanges] then sends the queue, that
    insertion last, and leaves the queue empty. *)
Theorem addProducto_online_failure_is_queued_and_rethrown
    (w : World R) (producto : Producto) :
  isOnline w = true ->
  let nuevo := productoNuevo (clock w) producto in
  let w' := snd (addProducto producto w) in
  sent w' = sent w ++ [sentOf (InsertProducto nuevo)]
  /\ remote w' = snd (exec (InsertProducto nuevo) (remote w))
  /\ match fst (exec (InsertProducto nuevo) (remote w)) with
     | Resolves (WithData fila) =>
         fst (addProducto producto w) = Returned fila
         /\ espejo w' = espejo w ++ [fila]
         /\ ultimaSync w' = Some (Date_iso (clock w))
         /\ pendientes w' = pendientes w
         /\ console_error w' = console_error w
     | Resolves (WithError e) | Rejects e =>
         fst (addProducto producto w) = Thrown e
         /\ espejo w' = espejo w
         /\ pendientes w' = pendientes w ++
              [ {| operation := "insert"; data := DataProducto nuevo;
                   timestamp := Date_now (clock w) |} ]
         /\ console_error w' = console_error w ++ [("Error al agregar producto:", e)]
         /\ sent (snd (syncPendingChanges w')) =
              sent w' ++ flat_map consultaDe (pendientes w)
                ++ [sentOf (ReplayInsert (DataProducto nuevo))]
         /\ pendientes (snd (syncPendingChanges w')) = []
     end.
Proof.
  intros Hon nuevo w'.
  assert (Hon' : isOnline w' = true).
  { subst w'. rewrite <- Hon. apply (addProducto_deja_online producto w). }
  pose proof (syncPendingChanges_sweep w' Hon') as (_ & Hsync & _ & _ & Hvacia & _).
  cbv zeta in Hsync, Hvacia.
  assert (Hbase :
    sent w' = sent w ++ [sentOf (InsertProducto nuevo)]
    /\ remote w' = snd (exec (InsertProducto nuevo) (remote w))
    /\ match fst (exec (InsertProducto nuevo) (remote w)) with
       | Resolves (WithData fila) =>
           fst (addProducto producto w) = Returned fila
           /\ espejo w' = espejo w ++ [fila]
           /\ ultimaSync w' = Some (Date_iso (clock w))
           /\ pendientes w' = pendientes w
           /\ console_error w' = console_error w
       | Resolves (WithError e) | Rejects e =>
           fst (addProducto producto w) = Thrown e
           /\ espejo w' = espejo w
           /\ pendientes w' = pendientes w ++
                [ {| operation := "insert"; data := DataProducto nuevo;
                     timestamp := Date_now (clock w) |} ]
           /\ console_error w' = console_error w ++ [("Error al agregar producto:", e)]
       end).
  { subst w' nuevo. unfold addProducto, productoNuevo.
    run. rewrite Hon. run.
    destruct (exec _ (remote w)) as [[e|[e|d]] r']; cbn; repeat split; reflexivity. }
  destruct Hbase as (H1 & H2 & H3). split; [exact H1|]. split; [exact H2|].
  destruct (fst (exec (InsertProducto nuevo) (remote w))) as [e|[e|fila]]; [| |exact H3].
  - destruct H3 as (G1 & G2 & G3 & G4). repeat split; auto.
    rewrite Hsync, G3, flat_map_app. reflexivity.
  - destruct H3 as (G1 & G2 & G3 & G4). repeat split; auto.
    rewrite Hsync, G3, flat_map_app. reflexivity.
Qed.

(** X15.  [updateStock] online sends one update that asks for the row back.
    When the store answers with the row, the row is returned and the first
    product of the mirror with that identifier gets the new stock (a mirror
    without it is left alone), while the queue is left alone.  When the
    query is rejected or answered with an error, the error is thrown again
    after being logged, the mirror keeps the old stock, and exactly one
    update joins the pending queue; the next run of [syncPendingChanges]
    then sends the queue, that update last, and leaves the queue empty. *)
Theorem updateStock_online_failure_is_queued_and_rethrown
    (w : World R) (pid : option string) (n : Z) :
  isOnline w = true ->
  let q := UpdateStockReturning pid n in
  let w' := snd (updateStock pid n w) in
  sent w' = sent w ++ [sentOf q]
  /\ remote w' = snd (exec q (remote w))
  /\ match fst (exec q (remote w)) with
     | Resolves (WithData fila) =>
         fst (updateStock pid n w) = Returned (Some fila)
         /\ espejo w' =
              match update_first (fun p => id_eqb (id p) pid) (with_stock n) (espejo w) with
              | Some ps => ps
              | None => espejo w
              end
         /\ pendientes w' = pendientes w
         /\ console_error w' = console_error w
     | Resolves (WithError e) | Rejects e =>
         fst (updateStock pid n w) = Thrown e
         /\ espejo w' = espejo w
         /\ pendientes w' = pendientes w ++
              [ {| operation := "update"; data := DataStock pid n;
                   timestamp := Date_now (clock w) |} ]
         /\ console_error w' = console_error w ++ [("Error al actualizar stock:", e)]
         /\ sent (snd (syncPendingChanges w')) =
              sent w' ++ flat_map consultaDe (pendientes w)
                ++ [sentOf (ReplayUpdate (DataStock pid n) pid)]
         /\ pendientes (snd (syncPendingChanges w')) = []
     end.
Proof.
  intros Hon q w'.
  assert (Hon' : isOnline w' = true).
  { subst w'. rewrite <- Hon. apply (updateStock_deja_online pid n w). }
  pose proof (syncPendingChanges_sweep w' Hon') as (_ & Hsync & _ & _ & Hvacia & _).
  cbv zeta in Hsync, Hvacia.
  assert (Hbase :
    sent w' = sent w ++ [sentOf q]
    /\ remote w' = snd (exec q (remote w))
    /\ match fst (exec q (remote w)) with
       | Resolves (WithData fila) =>
           fst (updateStock pid n w) = Returned (Some fila)
           /\ espejo w' =
                match update_first (fun p => id_eqb (id p) pid) (with_stock n) (espejo w) with
                | Some ps => ps
                | None => espejo w
                end
           /\ pendientes w' = pendientes w
           /\ console_error w' = console_error w
       | Resolves (WithError e) | Rejects e =>
           fst (updateStock pid n w) = Thrown e
           /\ espejo w' = espejo w
           /\ pendientes w' = pendientes w ++
                [ {| operation := "update"; data := DataStock pid n;
                     timestamp := Date_now (clock w) |} ]
           /\ console_error w' = console_error w ++ [("Error al actualizar stock:", e)]
       end).
  { subst w' q. unfold updateStock.
    run. rewrite Hon. run.
    destruct (exec _ (remote w)) as [[e|[e|d]] r']; cbn; try (repeat split; reflexivity).
    unfold espejo. cbn.
    destruct (update_first _ _ _); cbn; repeat split; reflexivity. }
  destruct Hbase as (H1 & H2 & H3). split; [exact H1|]. split; [exact H2|].
  destruct (fst (exec q (remote w))) as [e|[e|fila]]; [| |exact H3].
  - destruct H3 as (G1 & G2 & G3 & G4). repeat split; auto.
    rewrite Hsync, G3, flat_map_app. reflexivity.
  - destruct H3 as (G1 & G2 & G3 & G4). repeat split; auto.
    rewrite Hsync, G3, flat_map_app. reflexivity.
Qed.

(** X16.  [getProductos] serves the last good copy.  A query answered with
    the rows refreshes the mirror and the time of the last refresh, and
    returns the rows; from then on, as long as [localStorage] is not
    written, [getProductos] returns those same rows whenever it runs offline
    or its query is rejected or answered with an error, and it throws in no
    case. *)
Theorem getProductos_serves_last_good_copy
    (w : World R) (ps : list Producto) (r' : R) :
  isOnline w = true ->
  exec SelectProductos (remote w) = (Resolves (WithData ps), r') ->
  let w1 := snd (getProductos w) in
  fst (getProductos w) = Returned ps
  /\ espejo w1 = ps
  /\ ultimaSync w1 = Some (Date_iso (clock w))
  /\ (forall w2 : World R,
        localStorage w2 = localStorage w1 ->
        (isOnline w2 = false ->
           getProductos w2 = (Returned ps, w2))
        /\ (isOnline w2 = true ->
            (forall d, fst (exec SelectProductos (remote w2)) <> Resolves (WithData d)) ->
            fst (getProductos w2) = Returned ps
            /\ localStorage (snd (getProductos w2)) = localStorage w2)).
Proof.
  intros Hon Hex w1.
  assert (H1 : getProductos w
               = (Returned ps,
                  set_localStorage
                    {| PRODUCTOS_KEY := Some ps;
                       LAST_SYNC_KEY := Some (Date_iso (clock w));
                       PENDING_CHANGES_KEY := PENDING_CHANGES_KEY (localStorage w);
                       CARRITO_KEY := CARRITO_KEY (localStorage w) |}
                    (set_remote_sent r' (sentOf SelectProductos) w))).
  { unfold getProductos. run. rewrite Hon. run. rewrite Hex. reflexivity. }
  subst w1. rewrite H1. cbn [fst snd].
  split; [reflexivity|]. split; [reflexivity|]. split; [reflexivity|].
  intros w2 Hls. split.
  - intros Hoff. unfold getProductos. run. rewrite Hoff. run. rewrite Hls. reflexivity.
  - intros Hon2 Hbad. unfold getProductos. run. rewrite Hon2. run.
    destruct (exec SelectProductos (remote w2)) as [[e|[e|d]] r2]; cbn in *.
    + rewrite Hls. split; reflexivity.
    + rewrite Hls. split; reflexivity.
    + exfalso. exact (Hbad d eq_refl).
Qed.

End OnlineFacts.

(** The network drops the insertion of the bread: the error comes back to
    the caller and one insert waits in the queue. *)
Lemma addProducto_online_witness :
  let w := Ejemplos.mundo_sin_red in
  isOnline w = true
  /\ fst (addProducto (Ejemplos.pan 4) w) = Thrown "TypeError: Failed to fetch"
  /\ espejo (snd (addProducto (Ejemplos.pan 4) w)) = []
  /\ map operation (pendientes (snd (addProducto (Ejemplos.pan 4) w))) = ["insert"].
Proof.
  intros w.
  pose proof (addProducto_online_failure_is_queued_and_rethrown w (Ejemplos.pan 4) eq_refl)
    as (_ & _ & H).
  cbv zeta in H.
  assert (E : fst (exec (InsertProducto (productoNuevo (clock w) (Ejemplos.pan 4))) (remote w))
              = Rejects "TypeError: Failed to fetch") by reflexivity.
  rewrite E in H. destruct H as (H1 & H2 & H3 & _).
  split; [reflexivity|]. split; [exact H1|]. split; [exact H2|].
  rewrite H3. reflexivity.
Defined.

(** The store has no product "p9": the update of its stock is answered
    with an error, thrown again, and one update waits in the queue. *)
Lemma updateStock_online_witness :
  let w := Ejemplos.mundo_con_pan in
  isOnline w = true
  /\ fst (updateStock (Some "p9") 3 w) = Thrown "PGRST116"
  /\ map data (pendientes (snd (updateStock (Some "p9") 3 w))) = [DataStock (Some "p9") 3].
Proof.
  intros w.
  pose proof (updateStock_online_failure_is_queued_and_rethrown w (Some "p9") 3 eq_refl)
    as (_ & _ & H).
  cbv zeta in H.
  assert (E : fst (exec (UpdateStockReturning (Some "p9") 3) (remote w))
              = Resolves (WithError "PGRST116")) by reflexivity.
  rewrite E in H. destruct H as (H1 & _ & H3 & _).
  split; [reflexivity|]. split; [exact H1|].
  rewrite H3. reflexivity.
Defined.

(** The list is fetched once with the network up; the same browser, then
    offline, still returns the bread. *)
Lemma getProductos_cache_witness :
  let w := Ejemplos.mundo_con_pan in
  let w1 := snd (getProductos w) in
  let w2 := inicio false Tablas.vacias Ejemplos.reloj in
  let w3 := set_localStorage (localStorage w1) w2 in
  isOnline w = true
  /\ exec SelectProductos (remote w) = (Resolves (WithData [Ejemplos.pan 4]), remote w)
  /\ fst (getProductos w) = Returned [Ejemplos.pan 4]
  /\ getProductos w3 = (Returned [Ejemplos.pan 4], w3).
Proof.
  intros w w1 w2 w3.
  assert (Hex : exec SelectProductos (remote w)
                = (Resolves (WithData [Ejemplos.pan 4]), remote w)) by reflexivity.
  pose proof (getProductos_serves_last_good_copy w [Ejemplos.pan 4] (remote w) eq_refl Hex)
    as (H1 & _ & _ & H4).
  split; [reflexivity|]. split; [exact Hex|]. split; [exact H1|].
  exact (proj1 (H4 w3 eq_refl) eq_refl).
Defined.

(** ** The summary of the report *)

Section ResumenFacts.

Import ReportesVentas.

Lemma suma_acc (vs : list Venta) : forall (a : Q),
  (fold_left (fun acc v => acc + venta_total (venta_datos v)) vs a == a + suma vs)%Q.
Proof.
  unfold suma. induction vs as [|v vs IH]; intros a; cbn [fold_left].
  - now rewrite Qplus_0_r.
  - rewrite IH, (IH (0 + _)%Q), Qplus_0_l, Qplus_assoc. reflexivity.
Qed.

Lemma suma_cons (v : Venta) (vs : list Venta) :
  (suma (v :: vs) == venta_total (venta_datos v) + suma vs)%Q.
Proof. unfold suma at 1. cbn [fold_left]. rewrite suma_acc, Qplus_0_l. reflexivity. Qed.

Lemma suma_app (l1 l2 : list Venta) : (suma (l1 ++ l2) == suma l1 + suma l2)%Q.
Proof.
  induction l1 as [|v l1 IH]; cbn [app].
  - unfold suma at 2. cbn. now rewrite Qplus_0_l.
  - rewrite !suma_cons, IH, Qplus_assoc. reflexivity.
Qed.

Lemma suma_perm (l1 l2 : list Venta) : Permutation l1 l2 -> (suma l1 == suma l2)%Q.
Proof.
  induction 1 as [|x l l' _ IH|x y l|l l' l'' _ IH1 _ IH2].
  - reflexivity.
  - rewrite !suma_cons, IH. reflexivity.
  - rewrite !suma_cons, !Qplus_assoc, (Qplus_comm (venta_total (venta_datos y))). reflexivity.
  - now rewrite IH1.
Qed.

Lemma totalPeriodo_acc (ds : list VentasDia) : forall (a : Q),
  (fold_left (fun sum dia => sum + dia_total dia) ds a == a + totalPeriodo ds)%Q.
Proof.
  unfold totalPeriodo. induction ds as [|d ds IH]; intros a; cbn [fold_left].
  - now rewrite Qplus_0_r.
  - rewrite IH, (IH (0 + _)%Q), Qplus_0_l, Qplus_assoc. reflexivity.
Qed.

Lemma totalPeriodo_cons (d : VentasDia) (ds : list VentasDia) :
  (totalPeriodo (d :: ds) == dia_total d + totalPeriodo ds)%Q.
Proof.
  unfold totalPeriodo at 1. cbn [fold_left]. rewrite totalPeriodo_acc, Qplus_0_l. reflexivity.
Qed.

Lemma totalPeriodo_perm (l1 l2 : list VentasDia) :
  Permutation l1 l2 -> (totalPeriodo l1 == totalPeriodo l2)%Q.
Proof.
  induction 1 as [|x l l' _ IH|x y l|l l' l'' _ IH1 _ IH2].
  - reflexivity.
  - rewrite !totalPeriodo_cons, IH. reflexivity.
  - rewrite !totalPeriodo_cons, !Qplus_assoc, (Qplus_comm (dia_total y)). reflexivity.
  - now rewrite IH1.
Qed.

Lemma totalVentas_acc (ds : list VentasDia) : forall (a : Z),
  fold_left (fun sum dia => sum + dia_cantidad dia) ds a = a + totalVentas ds.
Proof.
  unfold totalVentas. induction ds as [|d ds IH]; intros a; cbn [fold_left]; [lia|].
  rewrite IH, (IH (0 + _)). lia.
Qed.

Lemma totalVentas_cons (d : VentasDia) (ds : list VentasDia) :
  totalVentas (d :: ds) = dia_cantidad d + totalVentas ds.
Proof. unfold totalVentas at 1. cbn [fold_left]. rewrite totalVentas_acc. lia. Qed.

Lemma totalVentas_perm (l1 l2 : list VentasDia) :
  Permutation l1 l2 -> totalVentas l1 = totalVentas l2.
Proof.
  induction 1; rewrite ?totalVentas_cons; lia.
Qed.

(** The sales of the days [fs], day after day. *)
Lemma dias_totales (vs : list Venta) (fs : list string) :
  (totalPeriodo (map (diaDe vs) fs) == suma (flat_map (fun f => delDia f vs) fs))%Q
  /\ totalVentas (map (diaDe vs) fs)
       = Z.of_nat (List.length (flat_map (fun f => delDia f vs) fs)).
Proof.
  induction fs as [|f fs [IH1 IH2]]; cbn [map flat_map].
  - split; reflexivity.
  - split.
    + rewrite totalPeriodo_cons, suma_app, IH1. reflexivity.
    + rewrite totalVentas_cons, length_app, IH2. cbn [diaDe dia_cantidad]. lia.
Qed.

Lemma flat_map_ext_on {A B} (f g : A -> list B) (l : list A) :
  (forall a, In a l -> f a = g a) -> flat_map f l = flat_map g l.
Proof.
  induction l as [|a l IH]; intros H; cbn [flat_map]; [reflexivity|].
  rewrite (H a (or_introl eq_refl)), IH; [reflexivity|].
  intros b Hb. apply H. right. exact Hb.
Qed.

Lemma flat_map_snoc_one (g : string -> list Venta) (k : string) (v : Venta) (l : list string) :
  NoDup l -> In k l ->
  Permutation (flat_map (fun f => if (k =? f)%string then g f ++ [v] else g f) l)
              (flat_map g l ++ [v]).
Proof.
  induction l as [|a l IH]; intros Hnd Hin; [destruct Hin|].
  inversion Hnd as [|? ? Hna Hnd']; subst. cbn [flat_map].
  destruct (k =? a)%string eqn:E.
  - apply String.eqb_eq in E. subst a.
    assert (Hsame : flat_map (fun f => if (k =? f)%string then g f ++ [v] else g f) l
                    = flat_map g l).
    { apply flat_map_ext_on. intros f Hf. destruct (k =? f)%string eqn:E; [|reflexivity].
      apply String.eqb_eq in E. subst f. contradiction. }
    rewrite Hsame, <- !app_assoc. apply Permutation_app_head, Permutation_app_comm.
  - destruct Hin as [->|Hin]; [rewrite String.eqb_refl in E; discriminate|].
    rewrite <- app_assoc. apply Permutation_app_head, IH; assumption.
Qed.

(** Grouping by day loses no sale and repeats none. *)
Lemma por_dia_perm (vs : list Venta) :
  Permutation (flat_map (fun f => delDia f vs) (fechas vs)) vs.
Proof.
  induction vs as [|v vs IH] using rev_ind; [constructor|].
  rewrite fechas_snoc.
  destruct (existsb (fun f => (f =? claveDia v)%string) (fechas vs)) eqn:E.
  - apply existsb_exists in E. destruct E as (k & Hk & Ek). apply String.eqb_eq in Ek. subst k.
    rewrite (flat_map_ext_on _ (fun f => if (claveDia v =? f)%string
                                         then delDia f vs ++ [v] else delDia f vs)).
    + rewrite (flat_map_snoc_one (fun f => delDia f vs) (claveDia v) v (fechas vs)
                 (fechas_NoDup vs) Hk).
      apply Permutation_app_tail, IH.
    + intros f _. apply delDia_snoc.
  - rewrite flat_map_app. cbn [flat_map]. rewrite app_nil_r, delDia_snoc, String.eqb_refl.
    assert (Hnot : ~ In (claveDia v) (fechas vs)).
    { intros Hin. apply Bool.not_true_iff_false in E. apply E. apply existsb_exists.
      exists (claveDia v). split; [exact Hin | apply String.eqb_refl]. }
    rewrite (delDia_absent _ _ Hnot). cbn [app].
    rewrite (flat_map_ext_on _ (fun f => delDia f vs)).
    + apply Permutation_app_tail, IH.
    + intros f Hf. rewrite delDia_snoc.
      destruct (claveDia v =? f)%string eqn:E'; [|reflexivity].
      apply String.eqb_eq in E'. subst f. contradiction.
Qed.

Lemma informe_totales (filas : list Venta) :
  let dias := sort porFechaDesc (fold_left agregarVenta filas []) in
  (totalPeriodo dias == suma filas)%Q
  /\ totalVentas dias = Z.of_nat (List.length filas).
Proof.
  intros dias. destruct (informe_spec filas) as (Hperm & _). fold dias in Hperm.
  destruct (dias_totales filas (fechas filas)) as [H1 H2]. split.
  - rewrite (totalPeriodo_perm _ _ Hperm), H1. apply suma_perm, por_dia_perm.
  - rewrite (totalVentas_perm _ _ Hperm), H2.
    now rewrite (Permutation_length (por_dia_perm filas)).
Qed.

Context {R : Type} {S : Supabase R}.

(** X17.  The summary of the report agrees with the rows of the store.
    Whenever [getVentasPorDia] returns, the store has answered the range
    query with some rows, and the figures that the page computes from the
    result are those of the rows: the number of sales is the number of
    rows, the total of the period is the sum of their totals, and the
    average is their quotient, or zero when there is no row.  Grouping by
    day loses no sale and counts none twice. *)
Theorem report_summary_matches_rows (w : World R) (desde hasta : string)
    (dias : list VentasDia) :
  fst (getVentasPorDia desde hasta w) = Returned dias ->
  exists filas r',
    exec (SelectVentas (desde ++ "T00:00:00")%string (hasta ++ "T23:59:59")%string) (remote w)
      = (Resolves (WithData filas), r')
    /\ totalVentas dias = Z.of_nat (List.length filas)
    /\ (totalPeriodo dias == suma filas)%Q
    /\ (promedio dias ==
          if (List.length filas =? 0)%nat then 0
          else suma filas / inject_Z (Z.of_nat (List.length filas)))%Q.
Proof.
  unfold getVentasPorDia.
  cbv [bind gets modify ret throw try_catch await data_or_throw console_error_]; cbn.
  destruct (isOnline w); cbn; [|discriminate].
  destruct (exec _ (remote w)) as [[e|[e|filas]] r'] eqn:Hex; cbn; try discriminate.
  intros H. inversion H as [Hd]. clear H.
  destruct (informe_totales filas) as [H1 H2]. cbv zeta in H1, H2.
  exists filas, r'. split; [reflexivity|]. split; [exact H2|]. split; [exact H1|].
  unfold promedio. rewrite H2.
  destruct filas as [|v vs]; [reflexivity|].
  cbn [List.length Nat.eqb].
  assert (Hpos : (0 <? Z.of_nat (Datatypes.S (List.length vs))) = true)
    by (apply Z.ltb_lt; lia).
  rewrite Hpos, H1. reflexivity.
Qed.

End ResumenFacts.

(** The report for 2024-01-01 to 2024-01-02 on the store with four sales:
    three sales in range, 180 in all, 60 on average. *)
Lemma report_summary_witness :
  let w := inicio true Ejemplos.tienda_con_ventas Ejemplos.reloj in
  exists dias,
    fst (getVentasPorDia "2024-01-01" "2024-01-02" w) = Returned dias
    /\ ReportesVentas.totalVentas dias = 3
    /\ (ReportesVentas.totalPeriodo dias == 180)%Q
    /\ (ReportesVentas.promedio dias == 60)%Q.
Proof.
  intros w.
  destruct (fst (getVentasPorDia "2024-01-01" "2024-01-02" w)) as [dias|e] eqn:Hd;
    [|vm_compute in Hd; discriminate Hd].
  exists dias. split; [reflexivity|].
  destruct (report_summary_matches_rows w "2024-01-01" "2024-01-02" dias Hd)
    as (filas & r' & Hex & H1 & H2 & H3).
  assert (E : exec (SelectVentas "2024-01-01T00:00:00" "2024-01-02T23:59:59") (remote w)
              = (Resolves (WithData [Ejemplos.v3; Ejemplos.v2; Ejemplos.v1]), remote w))
    by (vm_compute; reflexivity).
  change ("2024-01-01" ++ "T00:00:00")%string with "2024-01-01T00:00:00" in Hex.
  change ("2024-01-02" ++ "T23:59:59")%string with "2024-01-02T23:59:59" in Hex.
  rewrite E in Hex. inversion Hex; subst filas.
  split; [exact H1|]. split.
  - rewrite H2. vm_compute. reflexivity.
  - rewrite H3. vm_compute. reflexivity.
Defined.

(** ** Orders against the constraints of the table *)

Section ConstraintFacts.

Import PedidosHelper.

Lemma valido_admisible (iso : string) (p : DatosPedido) :
  valid (validarPedido p) = true ->
  Tablas.pedido_admisible (nuevoPedido iso p) = Tablas.metodo_permitido (metodo_pago p).
Proof.
  intros Hv. rewrite validarPedido_cases in Hv.
  unfold Validacion.falta_nombre, Validacion.nombre_corto, Validacion.sin_productos,
    Validacion.sin_tiempo, Validacion.sin_metodo, Validacion.total_no_positivo,
    Validacion.nombre in Hv.
  unfold Tablas.pedido_admisible. cbn [nuevoPedido pedido_datos estado].
  destruct (cliente p) as [c|]; [|cbn in Hv; discriminate].
  destruct (JS.trim c =? "")%string; [discriminate|].
  destruct (JS.length c <? 2); [discriminate|].
  destruct (productos p) as [[|l ls]|]; try discriminate.
  destruct (tiempo_llegada p) as [t|]; [|discriminate].
  destruct (negb (JS.truthy (Some t))); [discriminate|].
  destruct (negb (JS.truthy (metodo_pago p))); [discriminate|].
  destruct (Qle_bool (total p) 0); [discriminate|].
  cbn. rewrite ?andb_true_r. reflexivity.
Qed.

(** X18.  Validation and the table.  With the network up, an order that
    [validarPedido] accepts and whose total is a whole number of cents below
    10^8, which the column type [NUMERIC(10, 2)] holds as it is given, is
    inserted by [createPedido] exactly when its payment method is one of the
    two that the table allows.  It then comes back as a row with status
    pendiente and the data as submitted, the table holds that one row more,
    and [getPedidosPendientes] lists it right away.  With any other payment
    method [createPedido] throws the error of the table, which is left as
    it was.  Other totals are not covered: the table rounds to cents before
    it checks [total > 0], refuses eight digits and more before the point,
    and refuses the [null] that a [NaN] total is sent as. *)
Theorem validated_order_is_stored_iff_payment_allowed
    (w : World Tablas.Tablas) (p : DatosPedido) :
  isOnline w = true ->
  Tablas.averias (remote w) = [] ->
  valid (validarPedido p) = true ->
  enCentavos (total p) ->
  let w' := snd (createPedido p w) in
  if Tablas.metodo_permitido (metodo_pago p) then
    exists fila,
      fst (createPedido p w) = Returned fila
      /\ estado fila = "pendiente"
      /\ pedido_datos fila = p
      /\ pedido_created_at fila = Date_iso (clock w)
      /\ Tablas.t_pedidos (remote w') = Tablas.t_pedidos (remote w) ++ [fila]
      /\ exists pedidos,
           fst (getPedidosPendientes w') = Returned pedidos /\ In fila pedidos
  else
    fst (createPedido p w) = Thrown "new row violates a constraint of table pedidos"
    /\ Tablas.t_pedidos (remote w') = Tablas.t_pedidos (remote w).
Proof.
  intros Hon Hav Hv _ w'. subst w'.
  pose proof (valido_admisible (Date_iso (clock w)) p Hv) as Hadm.
  unfold createPedido.
  cbv [bind gets modify ret throw try_catch await data_or_throw console_error_]; cbn.
  rewrite Hon. cbn.
  unfold exec, Tablas.tablas, Tablas.ejecutar. rewrite Hav.
  cbn [Tablas.responder]. rewrite Hadm.
  destruct (Tablas.metodo_permitido (metodo_pago p)); cbn.
  - eexists. split; [reflexivity|]. repeat (split; [reflexivity|]).
    unfold getPedidosPendientes.
    cbv [bind gets modify ret throw try_catch await data_or_throw console_error_]; cbn.
    rewrite Hon. cbn.
    unfold exec, Tablas.tablas, Tablas.ejecutar. cbn. rewrite Hav. cbn.
    eexists. split; [reflexivity|].
    eapply Permutation_in; [apply Permutation_sym, sort_perm|].
    apply filter_In. split; [apply in_or_app; right; left; reflexivity | reflexivity].
  - split; reflexivity.
Qed.

End ConstraintFacts.

(** An order paid in cash goes into the empty store and is listed as
    pending; "tarjeta", though it passes validation, is turned down by the
    table. *)
Lemma validated_order_witness :
  let w := Ejemplos.navegador in
  let p := pedido_datos Ejemplos.pedido_pendiente in
  let tarjeta := {| cliente := cliente p; productos := productos p; total := total p;
                    metodo_pago := Some "tarjeta"; tiempo_llegada := tiempo_llegada p |} in
  PedidosHelper.valid (PedidosHelper.validarPedido p) = true
  /\ PedidosHelper.valid (PedidosHelper.validarPedido tarjeta) = true
  /\ enCentavos (total p)
  /\ (exists fila, fst (createPedido p w) = Returned fila /\ estado fila = "pendiente")
  /\ fst (createPedido tarjeta w) = Thrown "new row violates a constraint of table pedidos".
Proof.
  intros w p tarjeta.
  assert (H1 : PedidosHelper.valid (PedidosHelper.validarPedido p) = true) by reflexivity.
  assert (H2 : PedidosHelper.valid (PedidosHelper.validarPedido tarjeta) = true) by reflexivity.
  assert (H3 : enCentavos (total p)) by (split; [exists 1000; reflexivity | reflexivity]).
  split; [exact H1|]. split; [exact H2|]. split; [exact H3|]. split.
  - destruct (validated_order_is_stored_iff_payment_allowed w p eq_refl eq_refl H1 H3)
      as (fila & Ha & Hb & _).
    exists fila. split; assumption.
  - exact (proj1 (validated_order_is_stored_iff_payment_allowed w tarjeta eq_refl eq_refl
                    H2 H3)).
Defined.

(** ** The cart of the point of sale *)

Section CajaFacts.

Import Caja CajaInv.
Context {R : Type} {S : Supabase R}.

Ltac run := cbv [bind gets modify ret throw try_catch mostrar]; cbn.

Lemma cambiar_ids (index : nat) (n : Renglon -> Z) (l : list Renglon) :
  ids (cambiar index (fun item => con_cantidad (n item) item) l) = ids l.
Proof.
  revert index. induction l as [|x l IH]; intros [|i]; cbn; try reflexivity.
  unfold ids in IH. now rewrite IH.
Qed.

Lemma mutate_first_ids_caja (f : Renglon -> bool) (n : Renglon -> Z) (l : list Renglon) :
  ids (CatalogoCliente.mutate_first f (fun item => con_cantidad (n item) item) l) = ids l.
Proof.
  induction l as [|x l IH]; cbn; [reflexivity|].
  destruct (f x); cbn; [reflexivity|]. unfold ids in IH. now rewrite IH.
Qed.

Lemma quitar_ids_NoDup (index : nat) (l : list Renglon) :
  NoDup (ids l) -> NoDup (ids (quitar index l)).
Proof.
  revert index. induction l as [|x l IH]; intros [|i] H; cbn; auto.
  - inversion H; assumption.
  - inversion H as [|? ? Hn Hd]; subst. constructor; [|apply IH; exact Hd].
    intros Hin. apply Hn. clear -Hin. revert i Hin.
    induction l as [|y l IHl]; intros [|i] Hin; cbn in *; auto.
    destruct Hin as [H|H]; [left; exact H | right; exact (IHl i H)].
Qed.

Lemma find_none_ids_caja (pid : option string) (l : list Renglon) :
  find (fun item => id_eqb (id (ren_producto item)) pid) l = None -> ~ In pid (ids l).
Proof.
  induction l as [|x l IH]; cbn; [auto|].
  destruct (id_eqb (id (ren_producto x)) pid) eqn:E; [discriminate|].
  intros H [H1|H1]; [|exact (IH H H1)].
  rewrite H1, id_eqb_refl in E. discriminate.
Qed.

Lemma Forall_cambiar (P : Renglon -> Prop) (index : nat) (f : Renglon -> Renglon)
    (l : list Renglon) (x : Renglon) :
  nth_error l index = Some x -> Forall P l -> P (f x) -> Forall P (cambiar index f l).
Proof.
  revert index. induction l as [|y l IH]; intros [|i] Hn Hl Hx; cbn in *; try discriminate.
  - inversion Hn; subst. inversion Hl; subst. constructor; assumption.
  - inversion Hl; subst. constructor; [assumption | eapply IH; eauto].
Qed.

Lemma Forall_quitar (P : Renglon -> Prop) (index : nat) (l : list Renglon) :
  Forall P l -> Forall P (quitar index l).
Proof.
  revert index. induction l as [|y l IH]; intros [|i] Hl; cbn; auto.
  - inversion Hl; assumption.
  - inversion Hl; subst. constructor; auto.
Qed.

Lemma agregarAlCarrito_inv_caja (P : Renglon -> Prop) (p : Producto) (b : bool)
    (c c' : list Renglon) (w w' : World R) :
  agregarAlCarrito p b c w = (Returned c', w') ->
  Forall P c -> NoDup (ids c) ->
  (0 < stock p -> P {| ren_producto := p; ren_cantidad := 1; ren_compartido := b |}) ->
  (forall item, In item c -> ren_cantidad item < stock p ->
     P item -> P (con_cantidad (ren_cantidad item + 1) item)) ->
  Forall P c' /\ NoDup (ids c').
Proof.
  unfold agregarAlCarrito. intros H HP Hnd Hnew Hinc.
  destruct (stock p <=? 0) eqn:Hs; run.
  { cbv [bind mostrar modify ret] in H. inversion H; subst. auto. }
  apply Z.leb_gt in Hs.
  destruct (find _ c) as [item|] eqn:Hf.
  - destruct (stock p <=? ren_cantidad item) eqn:Hq;
      cbv [bind mostrar modify ret] in H; inversion H; subst; [auto|].
    apply Z.leb_gt in Hq. split.
    + eapply mutate_first_found; [exact Hf | exact HP|].
      apply Hinc; [eapply find_some; exact Hf | exact Hq|].
      rewrite Forall_forall in HP. apply HP. eapply find_some; exact Hf.
    + rewrite (mutate_first_ids_caja _ (fun item => ren_cantidad item + 1)). exact Hnd.
  - cbv [bind mostrar modify ret] in H. inversion H; subst. split.
    + apply Forall_app. split; [exact HP|]. constructor; [apply Hnew; exact Hs | constructor].
    + unfold ids. rewrite map_app. cbn. apply NoDup_app; [exact Hnd | repeat constructor; auto|].
      intros x Hx [<-|[]]. exact (find_none_ids_caja _ _ Hf Hx).
Qed.

Lemma hacer_inv (g : Gesto) (c c' : list Renglon) (w w' : World R) :
  hacer g c w = (Returned c', w') ->
  Forall positiva c -> NoDup (ids c) ->
  (Forall positiva c' /\ NoDup (ids c'))
  /\ (esAlta g = false -> Forall surtida c -> Forall surtida c').
Proof.
  intros H Hp Hn. destruct g as [p|pid|i|i|i|b]; cbn [hacer esAlta] in *.
  - split; [|discriminate].
    eapply agregarAlCarrito_inv_caja; eauto; unfold positiva; cbn; intros; lia.
  - split; [|discriminate].
    unfold elegirSugerencia in H. cbv [bind gets] in H.
    destruct (find _ (pos_productos w)) as [p|].
    + eapply agregarAlCarrito_inv_caja; eauto; unfold positiva; cbn; intros; lia.
    + inversion H; subst. auto.
  - unfold eliminarDelCarrito in H.
    destruct (nth_error c i) as [item|] eqn:Hi; [|discriminate].
    destruct (1 <? ren_cantidad item) eqn:Hq;
      cbv [bind mostrar modify ret] in H; inversion H; subst.
    + apply Z.ltb_lt in Hq. split; [split|].
      * eapply Forall_cambiar; eauto.
        rewrite Forall_forall in Hp. pose proof (Hp item (nth_error_In _ _ Hi)) as Hit.
        unfold positiva in *; cbn; lia.
      * rewrite (cambiar_ids _ (fun item => ren_cantidad item - 1)). exact Hn.
      * intros _ Hs. eapply Forall_cambiar; eauto.
        rewrite Forall_forall in Hs. pose proof (Hs item (nth_error_In _ _ Hi)) as Hit.
        unfold surtida in *; cbn; lia.
    + split; [split|]; [apply Forall_quitar; auto | apply quitar_ids_NoDup; auto|].
      intros _ Hs. apply Forall_quitar; auto.
  - unfold incrementarEnCarrito in H.
    destruct (nth_error c i) as [item|] eqn:Hi; [|discriminate].
    destruct (stock (ren_producto item) <=? ren_cantidad item) eqn:Hq;
      cbv [bind mostrar modify ret] in H; inversion H; subst; [auto|].
    apply Z.leb_gt in Hq. split; [split|].
    + eapply Forall_cambiar; eauto.
      rewrite Forall_forall in Hp. pose proof (Hp item (nth_error_In _ _ Hi)) as Hit.
      unfold positiva in *; cbn; lia.
    + rewrite (cambiar_ids _ (fun item => ren_cantidad item + 1)). exact Hn.
    + intros _ Hs. eapply Forall_cambiar; eauto. unfold surtida; cbn; lia.
  - unfold quitarDelCarrito in H. cbv [bind mostrar modify ret] in H. inversion H; subst.
    split; [split|]; [apply Forall_quitar; auto | apply quitar_ids_NoDup; auto|].
    intros _ Hs. apply Forall_quitar; auto.
  - unfold limpiarCarrito in H.
    destruct (List.length c =? 0)%nat; [inversion H; subst; auto|].
    destruct b; cbv [bind mostrar modify ret] in H; inversion H; subst; [|auto].
    split; [split|]; [constructor | constructor | intros; constructor].
Qed.

(** X19.  The cart of the point of sale.  Whatever the operator does with
    the cart (scans, picks from the suggestions, the plus, minus and remove
    buttons of a line, the button that empties the cart), every line keeps
    a quantity of at least one, of a product that has stock, and no two
    lines are of the same product, if that was so before: a product
    without stock gets no line.  As long as nothing is added, every line
    also stays within the stock of its product object. *)
Theorem pos_cart_keeps_its_invariants (gs : list Gesto) (c : list Renglon) (w : World R) :
  Forall positiva c -> NoDup (ids c) ->
  let c' := fst (hacerTodos gs c w) in
  Forall positiva c' /\ NoDup (ids c')
  /\ (forallb (fun g => negb (esAlta g)) gs = true -> Forall surtida c -> Forall surtida c').
Proof.
  revert c w. induction gs as [|g gs IH]; intros c w Hp Hn; cbn [hacerTodos].
  - cbn. auto.
  - destruct (hacer g c w) as [[c1|e] w1] eqn:Hg.
    + destruct (hacer_inv g c c1 w w1 Hg Hp Hn) as [[Hp1 Hn1] Hs1].
      destruct (IH c1 w1 Hp1 Hn1) as (H1 & H2 & H3).
      split; [exact H1|]. split; [exact H2|].
      cbn [forallb]. intros Hall Hs. apply andb_true_iff in Hall. destruct Hall as [Hg1 Hall].
      apply H3; [exact Hall|]. apply Hs1; [|exact Hs]. now apply negb_true_iff.
    + destruct (IH c w1 Hp Hn) as (H1 & H2 & H3).
      split; [exact H1|]. split; [exact H2|].
      cbn [forallb]. intros Hall Hs. apply andb_true_iff in Hall. destruct Hall as [_ Hall].
      apply H3; assumption.
Qed.

End CajaFacts.

(** ** The sale at the point of sale *)

Section VentaFacts.

Import Caja CajaInv.
Context {R : Type} {S : Supabase R}.
Variable formatCurrency : Q -> string.

Lemma updateStock_offline_run (pid : option string) (n : Z) (w : World R) :
  isOnline w = false ->
  let w' := snd (updateStock pid n w) in
  (exists p, fst (updateStock pid n w) = Returned p)
  /\ pendientes w' = pendientes w ++
       [ {| operation := "update"; data := DataStock pid n; timestamp := Date_now (clock w) |} ]
  /\ sent w' = sent w /\ remote w' = remote w /\ isOnline w' = false
  /\ clock w' = clock w /\ console_error w' = console_error w /\ mensajes w' = mensajes w
  /\ pos_productos w' = pos_productos w.
Proof.
  intros Hoff. unfold updateStock.
  cbv [bind gets modify ret throw try_catch updateInLocalStorage getFromLocalStorage
       saveToLocalStorage savePendingChange getPendingChanges setPendingChanges]; cbn.
  rewrite Hoff. cbn.
  destruct (update_first _ _ _); cbn; rewrite ?Hoff; repeat split; eauto.
Qed.

Lemma asignar_otro (i : option string) (n : Z) (l : Renglon) :
  id (ren_producto l) <> i -> asignar i n l = l.
Proof.
  intros H. unfold asignar. destruct (ren_compartido l); [|reflexivity]. cbn.
  destruct (id_eqb (id (ren_producto l)) i) eqn:E; [|reflexivity].
  apply id_eqb_eq in E. contradiction.
Qed.

Lemma asignar_forma (i : option string) (n : Z) (l : Renglon) :
  id (ren_producto (asignar i n l)) = id (ren_producto l)
  /\ ren_cantidad (asignar i n l) = ren_cantidad l.
Proof.
  unfold asignar. destruct (ren_compartido l && id_eqb (id (ren_producto l)) i); auto.
Qed.

Lemma map_forma (f : Renglon -> Renglon) (l : list Renglon) :
  (forall x, id (ren_producto (f x)) = id (ren_producto x)
             /\ ren_cantidad (f x) = ren_cantidad x) ->
  ids (map f l) = ids l /\ map ren_cantidad (map f l) = map ren_cantidad l.
Proof.
  intros H. unfold ids. rewrite !map_map. split; apply map_ext; intros x; apply H.
Qed.

Lemma descontar_cons (hechos : list Renglon) (item0 : Renglon) (resto : list Renglon)
    (ver : Renglon -> Renglon) (w : World R) :
  let item := ver item0 in
  let i := id (ren_producto item) in
  let n := stock (ren_producto item) - ren_cantidad item in
  descontar hechos (item0 :: resto) ver w =
    match updateStock i n w with
    | (Thrown e, w1) => (Returned (Thrown e, hechos ++ map ver (item0 :: resto)), w1)
    | (Returned _, w1) =>
        match find (fun p => id_eqb (id p) i) (pos_productos w1) with
        | Some _ =>
            descontar (map (asignar i n) (hechos ++ [item])) resto
              (fun l => asignar i n (ver l))
              (set_pos_productos
                 (CatalogoCliente.mutate_first (fun p => id_eqb (id p) i) (with_stock n)
                    (pos_productos w1)) w1)
        | None => descontar (hechos ++ [item]) resto ver w1
        end
    end.
Proof.
  cbv zeta. cbn [descontar]. unfold bind at 1. unfold intentar at 1.
  destruct (updateStock _ _ w) as [[p|e] w1]; [|reflexivity].
  unfold bind at 1. unfold gets at 1.
  destruct (find _ (pos_productos w1)); reflexivity.
Qed.

(** The loop offline: nothing stops it, and each line queues its update. *)
Lemma descontar_offline (porHacer : list Renglon) :
  forall (hechos : list Renglon) (ver : Renglon -> Renglon) (w : World R),
  isOnline w = false ->
  (forall x, id (ren_producto (ver x)) = id (ren_producto x)
             /\ ren_cantidad (ver x) = ren_cantidad x) ->
  let r := descontar hechos porHacer ver w in
  let w' := snd r in
  exists c',
    fst r = Returned (Returned tt, c')
    /\ ids c' = ids hechos ++ ids porHacer
    /\ map ren_cantidad c' = map ren_cantidad hechos ++ map ren_cantidad porHacer
    /\ List.length (pendientes w') = (List.length (pendientes w) + List.length porHacer)%nat
    /\ (NoDup (ids porHacer) -> (forall x, In x porHacer -> ver x = x) ->
        pendientes w' = pendientes w ++ map (cambioDe (Date_now (clock w))) porHacer)
    /\ sent w' = sent w /\ remote w' = remote w /\ isOnline w' = false
    /\ clock w' = clock w /\ console_error w' = console_error w /\ mensajes w' = mensajes w.
Proof.
  induction porHacer as [|item0 resto IH]; intros hechos ver w Hoff Hver.
  - cbn. exists hechos. rewrite !app_nil_r, Nat.add_0_r. repeat split; auto.
  - cbv zeta. rewrite descontar_cons. cbv zeta.
    destruct (updateStock_offline_run (id (ren_producto (ver item0)))
                (stock (ren_producto (ver item0)) - ren_cantidad (ver item0)) w Hoff)
      as ((p & Hp) & Hq & Hs & Hr & Hon & Hc & Hce & Hm & Hpp).
    destruct (updateStock _ _ w) as [o w1]. cbn [fst snd] in *. subst o.
    destruct (Hver item0) as [Hid0 Hcant0].
    destruct (find _ (pos_productos w1)) as [q|].
    + match goal with |- context [descontar ?h resto ?v ?w2] =>
        destruct (IH h v w2) as (c' & H1 & H2 & H3 & H4 & H5 & H6 & H7 & H8 & H9 & H10 & H11)
      end.
      * exact Hon.
      * intros x. destruct (asignar_forma (id (ren_producto (ver item0)))
                              (stock (ren_producto (ver item0)) - ren_cantidad (ver item0))
                              (ver x)) as [Ha Hb].
        destruct (Hver x) as [Hc1 Hc2]. split; congruence.
      * cbv zeta in *. exists c'. split; [exact H1|].
        destruct (map_forma (asignar (id (ren_producto (ver item0)))
                               (stock (ren_producto (ver item0)) - ren_cantidad (ver item0)))
                    (hechos ++ [ver item0]) (asignar_forma _ _)) as [Hf1 Hf2].
        rewrite Hf1 in H2. rewrite Hf2 in H3.
        split; [|split; [|split; [|split]]].
        -- rewrite H2. unfold ids. rewrite map_app, <- app_assoc. cbn. now rewrite Hid0.
        -- rewrite H3, map_app, <- app_assoc. cbn. now rewrite Hcant0.
        -- rewrite H4. unfold pendientes in *. cbn. rewrite Hq, length_app. cbn. lia.
        -- intros Hnd Hfix. inversion Hnd as [|? ? Hni Hnd']; subst.
           rewrite H5; [| exact Hnd' |].
           ++ unfold pendientes in *. cbn. rewrite Hq, <- app_assoc. cbn.
              rewrite Hc. rewrite (Hfix item0 (or_introl eq_refl)). reflexivity.
           ++ intros x Hx. rewrite (Hfix x (or_intror Hx)).
              rewrite (Hfix item0 (or_introl eq_refl)).
              apply asignar_otro. intros E. apply Hni. unfold ids.
              apply in_map_iff. exists x. split; [exact E | exact Hx].
        -- cbn in *. repeat split; congruence.
    + destruct (IH (hechos ++ [ver item0]) ver w1 Hon Hver)
        as (c' & H1 & H2 & H3 & H4 & H5 & H6 & H7 & H8 & H9 & H10 & H11).
      cbv zeta in *.
      exists c'. split; [exact H1|].
      split; [|split; [|split; [|split]]].
      * rewrite H2. unfold ids. rewrite map_app, <- app_assoc. cbn. now rewrite Hid0.
      * rewrite H3, map_app, <- app_assoc. cbn. now rewrite Hcant0.
      * rewrite H4, Hq, length_app. cbn. lia.
      * intros Hnd Hfix. inversion Hnd as [|? ? Hni Hnd']; subst.
        rewrite H5; [| exact Hnd' | intros x Hx; apply Hfix; right; exact Hx].
        rewrite Hq, <- app_assoc. cbn. rewrite Hc.
        rewrite (Hfix item0 (or_introl eq_refl)). reflexivity.
      * repeat split; congruence.
Qed.

Lemma finalizarVenta_unfold (metodo : string) (c : list Renglon) (w : World R) :
  metodo <> "" -> c <> [] ->
  finalizarVenta formatCurrency (Some metodo) c w =
    match descontar [] c (fun item => item) w with
    | (Thrown e, w1) => (Thrown e, w1)
    | (Returned (Thrown e, c'), w1) =>
        (Returned c',
         add_mensaje ("❌ Error al procesar la venta", "error")
           (add_console_error "Error al finalizar venta:" e w1))
    | (Returned (Returned _, c'), w1) =>
        match createVenta {| venta_pedido_id := None;
                             venta_total := totalCarrito c;
                             venta_metodo_pago := Some metodo;
                             venta_productos := map lineaDe c' |} w1 with
        | (Thrown e, w2) =>
            (Returned c',
             add_mensaje ("❌ Error al procesar la venta", "error")
               (add_console_error "Error al finalizar venta:" e w2))
        | (Returned _, w2) =>
            (Returned [],
             add_mensaje (("✅ Venta completada por " ++ formatCurrency (totalCarrito c))%string,
                          "success") w2)
        end
    end.
Proof.
  intros Hm Hc. unfold finalizarVenta.
  destruct c as [|x c]; [congruence|]. cbn [List.length Nat.eqb].
  assert (Ht : JS.truthy (Some metodo) = true).
  { cbn. apply negb_true_iff, String.eqb_neq. exact Hm. }
  rewrite Ht. cbn [negb]. cbv zeta. unfold bind at 1.
  destruct (descontar [] (x :: c) (fun item => item) w) as [[[[u|e2] c']|e] w1]; try reflexivity.
  unfold bind at 1. unfold intentar.
  destruct (createVenta _ w1) as [[v|e] w2]; reflexivity.
Qed.

(** X20.  A sale offline is half done.  Offline, with a payment method
    chosen and a cart of distinct products, [finalizarVenta] lowers the
    stock line by line, each line putting one stock update on the pending
    queue, and then fails at the record of the sale, which is not available
    offline: no query is sent, the error is logged and shown, and the cart
    is kept with its lines and quantities.  Pressing the button again goes
    through the lines once more and queues as many updates again. *)
Theorem offline_sale_is_half_done (w : World R) (metodo : string) (c : list Renglon) :
  isOnline w = false -> metodo <> "" -> c <> [] -> NoDup (ids c) ->
  let r := finalizarVenta formatCurrency (Some metodo) c w in
  let w' := snd r in
  exists c',
    fst r = Returned c'
    /\ ids c' = ids c
    /\ map ren_cantidad c' = map ren_cantidad c
    /\ pendientes w' = pendientes w ++ map (cambioDe (Date_now (clock w))) c
    /\ sent w' = sent w /\ remote w' = remote w
    /\ console_error w' =
         console_error w ++ [("Error al finalizar venta:",
                              "No se pueden registrar ventas en modo offline")]
    /\ mensajes w' = mensajes w ++ [("❌ Error al procesar la venta", "error")]
    /\ List.length (pendientes (snd (finalizarVenta formatCurrency (Some metodo) c' w')))
         = (List.length (pendientes w) + 2 * List.length c)%nat.
Proof.
  intros Hoff Hm Hc Hnd r w'. subst r w'.
  rewrite (finalizarVenta_unfold metodo c w Hm Hc).
  destruct (descontar_offline c [] (fun item => item) w Hoff (fun x => conj eq_refl eq_refl))
    as (c' & H1 & H2 & H3 & H4 & H5 & H6 & H7 & H8 & H9 & H10 & H11).
  cbv zeta in *.
  destruct (descontar [] c (fun item => item) w) as [o w1]. cbn [fst snd] in *. subst o.
  assert (Hventa : forall v, createVenta v w1
                   = (Thrown "No se pueden registrar ventas en modo offline", w1)).
  { intros v. unfold createVenta. cbv [bind gets throw]. rewrite H8. reflexivity. }
  rewrite Hventa. cbn [fst snd].
  exists c'. split; [reflexivity|]. split; [exact H2|]. split; [exact H3|].
  specialize (H5 Hnd (fun x _ => eq_refl)).
  split; [unfold pendientes in *; cbn; exact H5|].
  split; [cbn; exact H6|]. split; [cbn; exact H7|].
  split; [cbn; now rewrite H10|]. split; [cbn; now rewrite H11|].
  assert (Hc' : c' <> []).
  { intros E. subst c'. destruct c; [congruence | discriminate H2]. }
  set (w2 := add_mensaje ("❌ Error al procesar la venta", "error")
               (add_console_error "Error al finalizar venta:"
                  "No se pueden registrar ventas en modo offline" w1)).
  assert (Hoff2 : isOnline w2 = false) by exact H8.
  rewrite (finalizarVenta_unfold metodo c' w2 Hm Hc').
  destruct (descontar_offline c' [] (fun item => item) w2 Hoff2 (fun x => conj eq_refl eq_refl))
    as (c'' & G1 & _ & _ & G4 & _ & _ & _ & G8 & _).
  cbv zeta in *.
  destruct (descontar [] c' (fun item => item) w2) as [o w3]. cbn [fst snd] in *. subst o.
  assert (Hventa3 : forall v, createVenta v w3
                    = (Thrown "No se pueden registrar ventas en modo offline", w3)).
  { intros v. unfold createVenta. cbv [bind gets throw]. rewrite G8. reflexivity. }
  rewrite Hventa3. cbn [fst snd].
  change (pendientes (add_mensaje _ (add_console_error _ _ w3))) with (pendientes w3).
  rewrite G4. change (pendientes w2) with (pendientes w1). rewrite H5, length_app, length_map.
  assert (Hlen : List.length c' = List.length c).
  { rewrite <- (length_map ren_cantidad c'), H3. apply length_map. }
  rewrite Hlen. lia.
Qed.

Lemma updateStock_sent (pid : option string) (n : Z) (w : World R) :
  exists qs, sent (snd (updateStock pid n w)) = sent w ++ qs.
Proof.
  unfold updateStock.
  cbv [bind gets modify ret throw try_catch await data_or_throw console_error_
       updateInLocalStorage getFromLocalStorage saveToLocalStorage
       savePendingChange getPendingChanges setPendingChanges]; cbn.
  destruct (isOnline w); cbn.
  - destruct (exec _ (remote w)) as [[e|[e|d]] r']; cbn;
      try (eexists; reflexivity).
    destruct (update_first _ _ _); cbn; eexists; reflexivity.
  - destruct (update_first _ _ _); cbn; exists []; now rewrite app_nil_r.
Qed.

Lemma descontar_forma (porHacer : list Renglon) :
  forall (hechos : list Renglon) (ver : Renglon -> Renglon) (w : World R),
  (forall x, id (ren_producto (ver x)) = id (ren_producto x)
             /\ ren_cantidad (ver x) = ren_cantidad x) ->
  exists o c' qs,
    fst (descontar hechos porHacer ver w) = Returned (o, c')
    /\ ids c' = ids hechos ++ ids porHacer
    /\ map ren_cantidad c' = map ren_cantidad hechos ++ map ren_cantidad porHacer
    /\ sent (snd (descontar hechos porHacer ver w)) = sent w ++ qs.
Proof.
  induction porHacer as [|item0 resto IH]; intros hechos ver w Hver.
  - cbn. exists (Returned tt), hechos, []. rewrite !app_nil_r. auto.
  - rewrite descontar_cons. cbv zeta.
    destruct (updateStock_sent (id (ren_producto (ver item0)))
                (stock (ren_producto (ver item0)) - ren_cantidad (ver item0)) w) as [qs0 Hs0].
    destruct (Hver item0) as [Hid0 Hcant0].
    destruct (updateStock _ _ w) as [[p|e] w1]; cbn [fst snd] in *.
    + destruct (find _ (pos_productos w1)) as [q|].
      * match goal with |- context [descontar ?h resto ?v ?w2] =>
          destruct (IH h v w2) as (o & c' & qs & H1 & H2 & H3 & H4)
        end.
        { intros x. destruct (asignar_forma (id (ren_producto (ver item0)))
                                (stock (ren_producto (ver item0)) - ren_cantidad (ver item0))
                                (ver x)) as [Ha Hb].
          destruct (Hver x) as [Hc1 Hc2]. split; congruence. }
        destruct (map_forma (asignar (id (ren_producto (ver item0)))
                               (stock (ren_producto (ver item0)) - ren_cantidad (ver item0)))
                    (hechos ++ [ver item0]) (asignar_forma _ _)) as [Hf1 Hf2].
        rewrite Hf1 in H2. rewrite Hf2 in H3.
        exists o, c', (qs0 ++ qs). split; [exact H1|]. split; [|split].
        -- rewrite H2. unfold ids. rewrite map_app, <- app_assoc. cbn. now rewrite Hid0.
        -- rewrite H3, map_app, <- app_assoc. cbn. now rewrite Hcant0.
        -- rewrite H4. cbn. rewrite Hs0, app_assoc. reflexivity.
      * destruct (IH (hechos ++ [ver item0]) ver w1 Hver) as (o & c' & qs & H1 & H2 & H3 & H4).
        exists o, c', (qs0 ++ qs). split; [exact H1|]. split; [|split].
        -- rewrite H2. unfold ids. rewrite map_app, <- app_assoc. cbn. now rewrite Hid0.
        -- rewrite H3, map_app, <- app_assoc. cbn. now rewrite Hcant0.
        -- rewrite H4, Hs0, app_assoc. reflexivity.
    + exists (Thrown e), (hechos ++ map ver (item0 :: resto)), qs0.
      split; [reflexivity|].
      destruct (map_forma ver (item0 :: resto) Hver) as [Hf1 Hf2].
      split; [|split; [|exact Hs0]].
      * unfold ids in *. rewrite map_app, Hf1. reflexivity.
      * rewrite map_app, Hf2. reflexivity.
Qed.

Lemma createVenta_returned (v : DatosVenta) (w : World R) (fila : Venta) :
  fst (createVenta v w) = Returned fila ->
  let q := InsertVenta (nuevaVenta (Date_iso (clock w)) v) in
  isOnline w = true
  /\ fst (exec q (remote w)) = Resolves (WithData fila)
  /\ sent (snd (createVenta v w)) = sent w ++ [sentOf q]
  /\ remote (snd (createVenta v w)) = snd (exec q (remote w)).
Proof.
  unfold createVenta.
  cbv [bind gets modify ret throw try_catch await data_or_throw console_error_]; cbn.
  destruct (isOnline w); cbn; [|discriminate].
  destruct (exec _ (remote w)) as [[e|[e|d]] r']; cbn; try discriminate.
  intros H. inversion H. auto.
Qed.

(** X21.  The cart of the point of sale is emptied only by a recorded
    sale.  [finalizarVenta] never throws.  With an empty cart, or when the
    operator cancels the payment dialog, it does nothing at all.  Otherwise
    it gives back either the cart with the same lines and quantities or the
    empty cart, and the empty cart only when, online, the last query sent
    was the insertion of a sale without order, with the chosen payment
    method, the total of the cart and one line for each line of the cart,
    and the store answered it with the row. *)
Theorem sale_empties_cart_only_when_recorded (w : World R) (metodoPago : option string)
    (c : list Renglon) :
  let r := finalizarVenta formatCurrency metodoPago c w in
  exists c',
    fst r = Returned c'
    /\ (c' = [] \/ (ids c' = ids c /\ map ren_cantidad c' = map ren_cantidad c))
    /\ ((c = [] \/ JS.truthy metodoPago = false) -> r = (Returned c, w))
    /\ (c <> [] -> c' = [] ->
        exists w1 qs v fila,
          sent w1 = sent w ++ qs
          /\ isOnline w1 = true
          /\ fst (exec (InsertVenta v) (remote w1)) = Resolves (WithData fila)
          /\ sent (snd r) = sent w1 ++ [sentOf (InsertVenta v)]
          /\ remote (snd r) = snd (exec (InsertVenta v) (remote w1))
          /\ venta_pedido_id (venta_datos v) = None
          /\ venta_metodo_pago (venta_datos v) = metodoPago
          /\ venta_total (venta_datos v) = totalCarrito c
          /\ map linea_id (venta_productos (venta_datos v)) = ids c
          /\ map cantidad (venta_productos (venta_datos v)) = map ren_cantidad c).
Proof.
  intros r. subst r.
  destruct c as [|x c].
  { exists []. cbn. repeat split; auto. intros H; congruence. }
  destruct (JS.truthy metodoPago) eqn:Ht.
  2:{ exists (x :: c). unfold finalizarVenta. cbn [List.length Nat.eqb]. rewrite Ht. cbn.
      repeat split; auto. intros _ H; discriminate H. }
  destruct metodoPago as [metodo|]; [|discriminate Ht].
  assert (Hm : metodo <> "").
  { cbn in Ht. apply negb_true_iff, String.eqb_neq in Ht. exact Ht. }
  rewrite (finalizarVenta_unfold metodo (x :: c) w Hm) by discriminate.
  destruct (descontar_forma (x :: c) [] (fun item => item) w (fun y => conj eq_refl eq_refl))
    as (o & c' & qs & H1 & H2 & H3 & H4).
  destruct (descontar [] (x :: c) (fun item => item) w) as [o1 w1]. cbn [fst snd] in *.
  subst o1. cbn [app] in H2, H3.
  destruct o as [u|e].
  - destruct (createVenta _ w1) as [[fila|e] w2] eqn:Hv; cbn [fst snd].
    + exists []. split; [reflexivity|]. split; [left; reflexivity|].
      split; [intros [E|E]; discriminate E|]. intros _ _.
      pose proof (createVenta_returned _ w1 fila (f_equal fst Hv)) as (Ho & He & Hs & Hr).
      rewrite Hv in Hs, Hr. cbn [snd] in Hs, Hr.
      eexists w1, qs, _, fila. split; [exact H4|]. split; [exact Ho|]. split; [exact He|].
      split; [exact Hs|]. split; [exact Hr|]. cbn.
      split; [reflexivity|]. split; [reflexivity|]. split; [reflexivity|].
      split; [|rewrite map_map; exact H3].
      rewrite map_map. exact H2.
    + exists c'. split; [reflexivity|]. split; [right; split; assumption|].
      split; [intros [E|E]; discriminate E|].
      intros _ E. subst c'. discriminate H2.
  - exists c'. split; [reflexivity|]. split; [right; split; assumption|].
    split; [intros [E|E]; discriminate E|].
    intros _ E. subst c'. discriminate H2.
Qed.

End VentaFacts.

(** The bread scanned three times with two in stock, one unit taken back,
    the milk picked from an empty list of suggestions: one line of one
    loaf. *)
Lemma pos_cart_witness :
  let gs := [Caja.Escanear (Ejemplos.pan 2); Caja.Escanear (Ejemplos.pan 2);
             Caja.Escanear (Ejemplos.pan 2); Caja.Decrementar 0%nat;
             Caja.Sugerencia (Some "p2")] in
  let c' := fst (Caja.hacerTodos gs [] Ejemplos.navegador) in
  Forall CajaInv.positiva [] /\ NoDup (CajaInv.ids [])
  /\ map Caja.ren_cantidad c' = [1]
  /\ Forall CajaInv.positiva c' /\ NoDup (CajaInv.ids c').
Proof.
  intros gs c'.
  assert (H1 : Forall CajaInv.positiva []) by constructor.
  assert (H2 : NoDup (CajaInv.ids [])) by constructor.
  split; [exact H1|]. split; [exact H2|]. split; [reflexivity|].
  destruct (pos_cart_keeps_its_invariants gs [] Ejemplos.navegador H1 H2) as (H3 & H4 & _).
  split; [exact H3 | exact H4].
Defined.

(** Two loaves from the suggestions, sold offline: one update to eight
    waits in the queue and the cart still holds the two loaves; the button
    pressed again, the product object now showing eight, a second update
    waits, to six. *)
Lemma offline_sale_witness :
  let w := Ejemplos.caja_offline in
  let c := Ejemplos.carro_dos_panes in
  let r := Caja.finalizarVenta Ejemplos.sinFormato (Some "efectivo") c w in
  let r2 := Caja.finalizarVenta Ejemplos.sinFormato (Some "efectivo")
              (match fst r with Returned c' => c' | Thrown _ => [] end) (snd r) in
  isOnline w = false /\ NoDup (CajaInv.ids c)
  /\ map data (pendientes (snd r)) = [DataStock (Some "p1") 8]
  /\ (exists c', fst r = Returned c' /\ map Caja.ren_cantidad c' = [2])
  /\ sent (snd r) = []
  /\ map data (pendientes (snd r2)) = [DataStock (Some "p1") 8; DataStock (Some "p1") 6].
Proof.
  intros w c r r2.
  assert (Hnd : NoDup (CajaInv.ids c)) by (repeat constructor; intros []).
  assert (Hm : "efectivo" <> "") by discriminate.
  assert (Hc : c <> []) by discriminate.
  destruct (offline_sale_is_half_done Ejemplos.sinFormato w "efectivo" c eq_refl Hm Hc Hnd)
    as (c' & H1 & _ & H3 & H4 & H5 & _).
  split; [reflexivity|]. split; [exact Hnd|].
  split; [fold r in H4; rewrite H4; reflexivity|].
  split; [exists c'; split; [exact H1 | exact H3]|].
  split; [exact H5|].
  vm_compute. reflexivity.
Defined.

(** ** Fulfilment against the reference store *)

Section EntregaFacts.

Import Entrega.

Lemma id_eqb_iff (a b : option string) : id_eqb a b = true <-> a = b.
Proof. split; [apply id_eqb_eq | intros ->; apply id_eqb_refl]. Qed.

Lemma responder_averias (leb : string -> string -> bool) (A : Type) (q : Request A)
    (t : Tablas.Tablas) :
  Tablas.averias (snd (Tablas.responder leb q t)) = Tablas.averias t.
Proof.
  destruct q; cbn; unfold Tablas.insertarProducto; try reflexivity;
    try match goal with d : ChangeData |- _ => destruct d; cbn; try reflexivity end;
    repeat match goal with
           | |- context [existsb ?f ?l] => destruct (existsb f l); cbn
           | |- context [update_first ?f ?g ?l] => destruct (update_first f g l); cbn
           | |- context [find ?f ?l] => destruct (find f l); cbn
           | |- context [if ?x then _ else _] => destruct x; cbn
           end; reflexivity.
Qed.

Lemma exec_sin_averias (A : Type) (q : Request A) (t : Tablas.Tablas) :
  Tablas.averias t = [] ->
  exec q t = (Resolves (fst (Tablas.responder String.leb q t)),
              snd (Tablas.responder String.leb q t)).
Proof.
  intros H. unfold exec, Tablas.tablas, Tablas.ejecutar. rewrite H.
  destruct (Tablas.responder String.leb q t); reflexivity.
Qed.

Ltac run :=
  cbv [bind gets modify ret throw try_catch await data_or_throw console_error_ mostrar
       updateInLocalStorage getFromLocalStorage saveToLocalStorage]; cbn.

Lemma NoDup_map_eq {A B} (f : A -> B) (l : list A) (x y : A) :
  NoDup (map f l) -> In x l -> In y l -> f x = f y -> x = y.
Proof.
  induction l as [|a l IH]; intros Hnd Hx Hy Hf; [destruct Hx|].
  cbn in Hnd. inversion Hnd as [|? ? Hn Hnd']; subst.
  destruct Hx as [->|Hx], Hy as [->|Hy]; auto.
  - exfalso. apply Hn. rewrite Hf. apply in_map. exact Hy.
  - exfalso. apply Hn. rewrite <- Hf. apply in_map. exact Hx.
Qed.

Lemma find_id_In (ps : list Producto) (pid : option string) (p : Producto) :
  find (fun p => id_eqb (id p) pid) ps = Some p -> In p ps /\ id p = pid.
Proof.
  intros H. apply find_some in H. destruct H as [H1 H2]. split; [exact H1|].
  apply id_eqb_eq. exact H2.
Qed.

(** One line against the table: the stock is read and written back less
    the quantity. *)
Lemma updateOneStock_tablas (u : option string * Z) (w : World Tablas.Tablas) (p : Producto) :
  Tablas.averias (remote w) = [] ->
  find (fun p => id_eqb (id p) (fst u)) (Tablas.t_productos (remote w)) = Some p ->
  exists w',
    updateOneStock u w = (Returned tt, w')
    /\ remote w' =
         Tablas.with_productos
           (map (fun q => if id_eqb (id q) (fst u) then with_stock (stock p - snd u) q else q)
                (Tablas.t_productos (remote w))) (remote w)
    /\ isOnline w' = isOnline w /\ clock w' = clock w
    /\ console_error w' = console_error w /\ mensajes w' = mensajes w.
Proof.
  intros Hav Hf. destruct u as [pid cant]. cbn [fst snd] in *. unfold updateOneStock.
  unfold bind at 1. unfold await at 1.
  rewrite (exec_sin_averias _ (SelectStock pid) _ Hav). cbn [Tablas.responder fst snd].
  rewrite Hf. cbn [fst snd].
  unfold bind at 1. cbn [data_or_throw]. unfold ret at 1.
  unfold bind at 1. unfold await at 1.
  cbn [remote set_remote_sent].
  rewrite (exec_sin_averias _ (UpdateStock pid (stock p - cant)) _ Hav).
  cbn [Tablas.responder fst snd].
  unfold bind at 1. cbn [data_or_throw]. unfold ret at 1.
  run.
  destruct (update_first _ _ _); cbn; eexists; repeat split; reflexivity.
Qed.

Lemma surtir_paso (pid : option string) (cant : Z) (us : list (option string * Z))
    (ps : list Producto) (p : Producto) :
  NoDup (map id ps) -> ~ In pid (map fst us) ->
  find (fun p => id_eqb (id p) pid) ps = Some p ->
  map (surtir us)
      (map (fun q => if id_eqb (id q) pid then with_stock (stock p - cant) q else q) ps)
  = map (surtir ((pid, cant) :: us)) ps.
Proof.
  intros Hnd Hni Hf. rewrite map_map. apply map_ext_in. intros q Hq.
  unfold surtir at 2. cbn [find fst snd].
  destruct (id_eqb (id q) pid) eqn:E.
  - apply id_eqb_eq in E. destruct (find_id_In _ _ _ Hf) as [Hp Hidp].
    assert (q = p) by (eapply NoDup_map_eq; eauto; congruence). subst q.
    unfold surtir. cbn [id with_stock].
    assert (Hnone : find (fun u => id_eqb (id p) (fst u)) us = None).
    { destruct (find _ us) as [u|] eqn:Hu; [|reflexivity]. exfalso.
      apply find_some in Hu. destruct Hu as [Hin He]. apply id_eqb_eq in He.
      apply Hni. rewrite <- E, He. apply in_map. exact Hin. }
    rewrite Hnone. reflexivity.
  - reflexivity.
Qed.

(** The loop against the table. *)
Lemma stock_loop_tablas (us : list (option string * Z)) : forall (w : World Tablas.Tablas),
  Tablas.averias (remote w) = [] ->
  NoDup (map id (Tablas.t_productos (remote w))) ->
  NoDup (map fst us) ->
  Forall (enTabla (Tablas.t_productos (remote w))) us ->
  exists w',
    for_of us updateOneStock w = (Returned tt, w')
    /\ remote w' =
         Tablas.with_productos (map (surtir us) (Tablas.t_productos (remote w))) (remote w)
    /\ isOnline w' = isOnline w /\ clock w' = clock w
    /\ console_error w' = console_error w /\ mensajes w' = mensajes w.
Proof.
  induction us as [|u us IH]; intros w Hav Hnd Hus Hin.
  - exists w. cbn. unfold surtir. cbn. rewrite map_id.
    destruct (remote w); repeat split; reflexivity.
  - rewrite for_of_cons. inversion Hin as [|? ? [p Hp] Hin']; subst.
    inversion Hus as [|? ? Hni Hus']; subst.
    destruct (updateOneStock_tablas u w p Hav Hp) as (w1 & H1 & H2 & H3 & H4 & H5 & H6).
    rewrite H1.
    assert (Hids : map id (Tablas.t_productos (remote w1)) = map id (Tablas.t_productos (remote w))).
    { rewrite H2. cbn. rewrite map_map. apply map_ext. intros q.
      destruct (id_eqb (id q) (fst u)); reflexivity. }
    destruct (IH w1) as (w2 & G1 & G2 & G3 & G4 & G5 & G6).
    + rewrite H2. exact Hav.
    + rewrite Hids. exact Hnd.
    + exact Hus'.
    + rewrite Forall_forall in Hin' |- *. intros v Hv. destruct (Hin' v Hv) as [q Hq].
      unfold enTabla. rewrite H2. cbn [Tablas.t_productos Tablas.with_productos].
      clear -Hq. induction (Tablas.t_productos (remote w)) as [|a l IHl]; [discriminate|].
      cbn in *. destruct (id_eqb (id a) (fst u)); cbn;
        (destruct (id_eqb (id a) (fst v)); [eexists; reflexivity | exact (IHl Hq)]).
    + exists w2. split; [exact G1|]. split; [|repeat split; congruence].
      rewrite G2, H2. cbn [Tablas.t_productos Tablas.with_productos].
      destruct u as [pid cant]. cbn [fst snd] in *.
      rewrite (surtir_paso pid cant us _ p Hnd Hni Hp).
      destruct (remote w); reflexivity.
Qed.

(** X22.  The stock of an order is taken line by line.  With the network
    up, the products of the table under distinct identifiers and the lines
    of distinct products that the table holds, [updateMultipleStock]
    returns [true] and leaves every product of a line with its stock less
    the quantity of the line, whether or not that much was in stock, and
    every other product, the orders and the sales as they were. *)
Theorem stock_is_taken_line_by_line (w : World Tablas.Tablas) (us : list (option string * Z)) :
  isOnline w = true ->
  Tablas.averias (remote w) = [] ->
  NoDup (map id (Tablas.t_productos (remote w))) ->
  NoDup (map fst us) ->
  Forall (enTabla (Tablas.t_productos (remote w))) us ->
  let w' := snd (updateMultipleStock us w) in
  fst (updateMultipleStock us w) = Returned true
  /\ Tablas.t_productos (remote w') = map (surtir us) (Tablas.t_productos (remote w))
  /\ (forall q u, In q (Tablas.t_productos (remote w)) -> In u us -> id q = fst u ->
        In (with_stock (stock q - snd u) q) (Tablas.t_productos (remote w')))
  /\ (forall q, In q (Tablas.t_productos (remote w)) -> ~ In (id q) (map fst us) ->
        In q (Tablas.t_productos (remote w')))
  /\ Tablas.t_pedidos (remote w') = Tablas.t_pedidos (remote w)
  /\ Tablas.t_ventas (remote w') = Tablas.t_ventas (remote w).
Proof.
  intros Hon Hav Hnd Hus Hin w'. subst w'.
  destruct (stock_loop_tablas us w Hav Hnd Hus Hin) as (w1 & H1 & H2 & _).
  unfold updateMultipleStock. cbv [bind gets try_catch ret]. rewrite Hon, H1. cbn [fst snd].
  rewrite H2. cbn [Tablas.t_productos Tablas.t_pedidos Tablas.t_ventas Tablas.with_productos].
  split; [reflexivity|]. split; [reflexivity|]. split; [|split; [|split; reflexivity]].
  - intros q u Hq Hu Hid.
    apply in_map_iff. exists q. split; [|exact Hq]. unfold surtir.
    destruct (find (fun u0 => id_eqb (id q) (fst u0)) us) as [u'|] eqn:Hf.
    + apply find_some in Hf. destruct Hf as [Hu' He]. apply id_eqb_eq in He.
      assert (u' = u) by (eapply NoDup_map_eq; eauto; congruence). subst u'. reflexivity.
    + exfalso. pose proof (find_none _ _ Hf u Hu) as Hno. cbn in Hno.
      rewrite Hid, id_eqb_refl in Hno. discriminate.
  - intros q Hq Hni. apply in_map_iff. exists q. split; [|exact Hq]. unfold surtir.
    destruct (find (fun u0 => id_eqb (id q) (fst u0)) us) as [u'|] eqn:Hf; [|reflexivity].
    exfalso. apply find_some in Hf. destruct Hf as [Hu' He]. apply id_eqb_eq in He.
    apply Hni. rewrite He. apply in_map. exact Hu'.
Qed.

Lemma getPedidosPendientes_tablas (w : World Tablas.Tablas) :
  isOnline w = true -> Tablas.averias (remote w) = [] ->
  exists w1,
    getPedidosPendientes w = (Returned (listaPendientes (remote w)), w1)
    /\ remote w1 = remote w /\ isOnline w1 = true /\ clock w1 = clock w
    /\ console_error w1 = console_error w /\ mensajes w1 = mensajes w.
Proof.
  intros Hon Hav. unfold getPedidosPendientes. run. rewrite Hon. run.
  rewrite (exec_sin_averias _ SelectPedidosPendientes _ Hav). cbn.
  eexists. repeat split; auto.
Qed.

Lemma createVenta_tablas (v : DatosVenta) (w : World Tablas.Tablas) :
  isOnline w = true -> Tablas.averias (remote w) = [] ->
  Tablas.presente (venta_metodo_pago v) = true ->
  match or_null (venta_pedido_id v) with
  | Some i => existsb (fun p => id_eqb (pedido_id p) (Some i)) (Tablas.t_pedidos (remote w))
  | None => true
  end = true ->
  let fila := {| venta_id := Some (Tablas.nuevoId (remote w));
                 venta_datos := venta_datos (nuevaVenta (Date_iso (clock w)) v);
                 venta_created_at := Date_iso (clock w) |} in
  exists w1,
    createVenta v w = (Returned fila, w1)
    /\ remote w1 = Tablas.next_serial
                     (Tablas.with_ventas (Tablas.t_ventas (remote w) ++ [fila]) (remote w))
    /\ isOnline w1 = true /\ clock w1 = clock w
    /\ console_error w1 = console_error w /\ mensajes w1 = mensajes w.
Proof.
  intros Hon Hav Hm Hfk fila. unfold createVenta. run. rewrite Hon. run.
  rewrite (exec_sin_averias _ (InsertVenta _) _ Hav). cbn.
  rewrite Hm. cbn. rewrite Hfk. cbn.
  eexists. repeat split; auto.
Qed.

Lemma update_first_unico (i : string) (l : list Pedido) (x : Pedido) :
  NoDup (map pedido_id l) -> In x l -> pedido_id x = Some i ->
  update_first (fun p => id_eqb (pedido_id p) (Some i)) (Tablas.con_estado "completado") l
    = Some (map (entregar i) l)
  /\ find (fun p => id_eqb (pedido_id p) (Some i)) (map (entregar i) l)
       = Some (Tablas.con_estado "completado" x).
Proof.
  induction l as [|a l IH]; intros Hnd Hin Hid; [destruct Hin|].
  cbn in Hnd. inversion Hnd as [|? ? Hn Hnd']; subst.
  cbn [update_first map find].
  destruct (id_eqb (pedido_id a) (Some i)) eqn:E.
  - assert (Ea : entregar i a = Tablas.con_estado "completado" a)
      by (unfold entregar; now rewrite E).
    rewrite Ea. apply id_eqb_eq in E.
    assert (a = x).
    { destruct Hin as [H|H]; [exact H|]. exfalso. apply Hn.
      rewrite E, <- Hid. apply in_map. exact H. }
    subst a. cbn. rewrite E, id_eqb_refl. split; [|reflexivity].
    f_equal. f_equal. rewrite <- (map_id l) at 1. apply map_ext_in.
    intros p Hp. unfold entregar.
    destruct (id_eqb (pedido_id p) (Some i)) eqn:E'; [|reflexivity].
    exfalso. apply id_eqb_eq in E'. apply Hn. rewrite E, <- E'. apply in_map. exact Hp.
  - assert (Ea : entregar i a = a) by (unfold entregar; now rewrite E).
    rewrite Ea, E.
    destruct Hin as [->|Hin]; [rewrite Hid, id_eqb_refl in E; discriminate|].
    destruct (IH Hnd' Hin Hid) as [H1 H2]. rewrite H1. split; [reflexivity | exact H2].
Qed.

Lemma updatePedidoEstado_tablas (i : string) (pedido : Pedido) (w : World Tablas.Tablas) :
  isOnline w = true -> Tablas.averias (remote w) = [] ->
  NoDup (map pedido_id (Tablas.t_pedidos (remote w))) ->
  In pedido (Tablas.t_pedidos (remote w)) -> pedido_id pedido = Some i ->
  exists w1,
    updatePedidoEstado (Some i) "completado" w
      = (Returned (Tablas.con_estado "completado" pedido), w1)
    /\ remote w1 = Tablas.with_pedidos (map (entregar i) (Tablas.t_pedidos (remote w))) (remote w)
    /\ isOnline w1 = true /\ clock w1 = clock w
    /\ console_error w1 = console_error w /\ mensajes w1 = mensajes w.
Proof.
  intros Hon Hav Hnd Hin Hid. unfold updatePedidoEstado. run. rewrite Hon. run.
  rewrite (exec_sin_averias _ (UpdatePedidoEstado _ _) _ Hav). cbn.
  destruct (update_first_unico i _ pedido Hnd Hin Hid) as [H1 H2].
  rewrite H1, H2. cbn. eexists. repeat split; auto.
Qed.

Lemma refresco_tablas (w : World Tablas.Tablas) :
  isOnline w = true -> Tablas.averias (remote w) = [] ->
  let r := try_catch
             (mostrar "✅ Pedido completado exitosamente" "success" ;;
              POS.cargarPedidosPendientes ;;
              POS.cargarProductos)
             (fun error =>
                console_error_ "Error al confirmar entrega:" error ;;
                mostrar "Error al procesar el pedido" "error") w in
  fst r = Returned tt
  /\ remote (snd r) = remote w
  /\ pos_pedidos (snd r) = listaPendientes (remote w)
  /\ pos_productos (snd r) = sort Tablas.porNombre (Tablas.t_productos (remote w))
  /\ mensajes (snd r) = mensajes w ++ [("✅ Pedido completado exitosamente", "success")]
  /\ console_error (snd r) = console_error w.
Proof.
  intros Hon Hav r. subst r.
  unfold POS.cargarPedidosPendientes, POS.cargarProductos, getPedidosPendientes, getProductos.
  run. rewrite Hon. run.
  rewrite (exec_sin_averias _ SelectPedidosPendientes _ Hav). cbn. rewrite Hon. cbn.
  rewrite (exec_sin_averias _ SelectProductos _ Hav). cbn.
  repeat split; reflexivity.
Qed.

Lemma listaPendientes_In (t : Tablas.Tablas) (p : Pedido) :
  In p (listaPendientes t) <-> In p (Tablas.t_pedidos t) /\ estado p = "pendiente".
Proof.
  unfold listaPendientes. split.
  - intros H. eapply Permutation_in in H; [|apply sort_perm].
    apply filter_In in H. destruct H as [H1 H2]. split; [exact H1|].
    apply String.eqb_eq. exact H2.
  - intros [H1 H2]. eapply Permutation_in; [apply Permutation_sym, sort_perm|].
    apply filter_In. split; [exact H1|]. apply String.eqb_eq. exact H2.
Qed.

(** X23.  A delivery that goes through.  With the network up, on a table
    of orders and products under distinct identifiers, confirming the
    delivery of a pending order whose lines are of distinct products that
    the table holds returns without error and leaves the store as follows:
    every product of a line has its stock less the quantity of the line;
    one sale is added, of the order, with its total, payment method and
    lines; the order is completado and every other order is as it was.
    The list of pending orders that the page then shows is that of the
    store and no longer has the order; the product list shown is that of
    the store; the one notification is that of success. *)
Theorem delivery_completes_order_on_store
    (w : World Tablas.Tablas) (pedidoId : string) (pedido : Pedido) (lineas : list Linea) :
  isOnline w = true ->
  Tablas.averias (remote w) = [] ->
  pedidoId <> "" ->
  NoDup (map pedido_id (Tablas.t_pedidos (remote w))) ->
  In pedido (Tablas.t_pedidos (remote w)) ->
  pedido_id pedido = Some pedidoId ->
  estado pedido = "pendiente" ->
  productos (pedido_datos pedido) = Some lineas ->
  Tablas.presente (metodo_pago (pedido_datos pedido)) = true ->
  NoDup (map id (Tablas.t_productos (remote w))) ->
  NoDup (map linea_id lineas) ->
  Forall (enTabla (Tablas.t_productos (remote w))) (POS.actualizacionesDe lineas) ->
  let w' := snd (POS.confirmarEntrega pedidoId true w) in
  fst (POS.confirmarEntrega pedidoId true w) = Returned tt
  /\ Tablas.t_productos (remote w')
       = map (surtir (POS.actualizacionesDe lineas)) (Tablas.t_productos (remote w))
  /\ Tablas.t_ventas (remote w')
       = Tablas.t_ventas (remote w) ++
           [ {| venta_id := Some (Tablas.nuevoId (remote w));
                venta_datos := {| venta_pedido_id := Some pedidoId;
                                  venta_total := total (pedido_datos pedido);
                                  venta_metodo_pago := metodo_pago (pedido_datos pedido);
                                  venta_productos := lineas |};
                venta_created_at := Date_iso (clock w) |} ]
  /\ Tablas.t_pedidos (remote w') = map (entregar pedidoId) (Tablas.t_pedidos (remote w))
  /\ In (Tablas.con_estado "completado" pedido) (Tablas.t_pedidos (remote w'))
  /\ pos_pedidos w' = listaPendientes (remote w')
  /\ (forall p, In p (pos_pedidos w') -> pedido_id p <> Some pedidoId)
  /\ pos_productos w' = sort Tablas.porNombre (Tablas.t_productos (remote w'))
  /\ mensajes w' = mensajes w ++ [("✅ Pedido completado exitosamente", "success")]
  /\ console_error w' = console_error w.
Proof.
  intros Hon Hav Hne Hndp Hin Hid Hest Hprod Hmet Hnd Hndl Htab w'. subst w'.
  (* the order is found *)
  destruct (getPedidosPendientes_tablas w Hon Hav) as (w1 & Hg & Hr1 & Hon1 & Hc1 & He1 & Hm1).
  assert (Hfind : find (fun p => id_eqb (pedido_id p) (Some pedidoId)) (listaPendientes (remote w))
                  = Some pedido).
  { assert (HinL : In pedido (listaPendientes (remote w)))
      by (apply listaPendientes_In; auto).
    destruct (find _ (listaPendientes (remote w))) as [p'|] eqn:Hf.
    - apply find_some in Hf. destruct Hf as [Hp' Hidp']. apply id_eqb_eq in Hidp'.
      apply listaPendientes_In in Hp'. destruct Hp' as [Hp' _].
      f_equal. eapply NoDup_map_eq; eauto. congruence.
    - pose proof (find_none _ _ Hf pedido HinL) as Hno. cbn in Hno.
      rewrite Hid, id_eqb_refl in Hno. discriminate. }
  rewrite (confirmarEntrega_unfold w w1 pedidoId _ pedido lineas Hg Hfind Hprod).
  (* 1. the stock *)
  assert (Hav1 : Tablas.averias (remote w1) = []) by (rewrite Hr1; exact Hav).
  assert (Hnd1 : NoDup (map id (Tablas.t_productos (remote w1)))) by (rewrite Hr1; exact Hnd).
  assert (Hus : NoDup (map fst (POS.actualizacionesDe lineas))).
  { unfold POS.actualizacionesDe. rewrite map_map. exact Hndl. }
  assert (Htab1 : Forall (enTabla (Tablas.t_productos (remote w1))) (POS.actualizacionesDe lineas))
    by (rewrite Hr1; exact Htab).
  destruct (stock_loop_tablas _ w1 Hav1 Hnd1 Hus Htab1)
    as (w2 & Hloop & Hr2 & Hon2 & Hc2 & He2 & Hm2).
  assert (Hums : updateMultipleStock (POS.actualizacionesDe lineas) w1 = (Returned true, w2)).
  { unfold updateMultipleStock. cbv [bind gets try_catch ret]. rewrite Hon1, Hloop. reflexivity. }
  rewrite Hums.
  (* 2. the sale *)
  assert (Hav2 : Tablas.averias (remote w2) = []) by (rewrite Hr2; exact Hav1).
  assert (Hon2' : isOnline w2 = true) by congruence.
  assert (Hfk : match or_null (venta_pedido_id (POS.ventaDe pedido lineas)) with
                | Some i => existsb (fun p => id_eqb (pedido_id p) (Some i))
                                    (Tablas.t_pedidos (remote w2))
                | None => true
                end = true).
  { cbn [POS.ventaDe venta_pedido_id]. rewrite Hid, (or_null_some _ Hne).
    apply existsb_exists. exists pedido. split.
    - rewrite Hr2, Hr1. exact Hin.
    - rewrite Hid. apply id_eqb_refl. }
  destruct (createVenta_tablas (POS.ventaDe pedido lineas) w2 Hon2' Hav2 Hmet Hfk)
    as (w3 & Hv & Hr3 & Hon3 & Hc3 & He3 & Hm3).
  rewrite Hv.
  (* 3. the status *)
  assert (Hav3 : Tablas.averias (remote w3) = []) by (rewrite Hr3; exact Hav2).
  assert (Hped3 : Tablas.t_pedidos (remote w3) = Tablas.t_pedidos (remote w))
    by (rewrite Hr3, Hr2, Hr1; reflexivity).
  assert (Hndp3 : NoDup (map pedido_id (Tablas.t_pedidos (remote w3))))
    by (rewrite Hped3; exact Hndp).
  assert (Hin3 : In pedido (Tablas.t_pedidos (remote w3))) by (rewrite Hped3; exact Hin).
  rewrite Hid.
  destruct (updatePedidoEstado_tablas pedidoId pedido w3 Hon3 Hav3 Hndp3 Hin3 Hid)
    as (w4 & Hu & Hr4 & Hon4 & Hc4 & He4 & Hm4).
  rewrite Hu.
  (* 4. the page *)
  assert (Hav4 : Tablas.averias (remote w4) = []) by (rewrite Hr4; exact Hav3).
  destruct (refresco_tablas w4 Hon4 Hav4) as (F1 & F2 & F3 & F4 & F5 & F6).
  cbv zeta in *.
  assert (Hprods : Tablas.t_productos (remote w4)
                   = map (surtir (POS.actualizacionesDe lineas)) (Tablas.t_productos (remote w))).
  { rewrite Hr4, Hr3, Hr2, Hr1. reflexivity. }
  assert (Hpeds : Tablas.t_pedidos (remote w4)
                  = map (entregar pedidoId) (Tablas.t_pedidos (remote w))).
  { rewrite Hr4. cbn. rewrite Hped3. reflexivity. }
  split; [exact F1|]. rewrite F2.
  split; [exact Hprods|]. split.
  { rewrite Hr4, Hr3. cbn. rewrite Hr2. cbn. rewrite Hr1, Hc2, Hc1.
    unfold nuevaVenta, POS.ventaDe. cbn. rewrite Hid, (or_null_some _ Hne).
    destruct (remote w); reflexivity. }
  split; [exact Hpeds|]. split.
  { rewrite Hpeds. apply in_map_iff. exists pedido. split; [|exact Hin].
    unfold entregar. now rewrite Hid, id_eqb_refl. }
  split; [exact F3|]. split.
  { intros p Hp Hidp. rewrite F3 in Hp. apply listaPendientes_In in Hp.
    destruct Hp as [Hp Hpend]. rewrite Hpeds in Hp. apply in_map_iff in Hp.
    destruct Hp as (q & Hq & _). unfold entregar in Hq.
    destruct (id_eqb (pedido_id q) (Some pedidoId)) eqn:E.
    - subst p. cbn in Hpend. discriminate.
    - subst q. rewrite Hidp, id_eqb_refl in E. discriminate. }
  split; [exact F4|]. split.
  - rewrite F5. congruence.
  - rewrite F6. congruence.
Qed.

End EntregaFacts.

(** Ten loaves in the table and an order of twelve: the stock goes to
    minus two. *)
Lemma stock_line_by_line_witness :
  let w := inicio true (Tablas.with_productos [Ejemplos.pan 10] Tablas.vacias) Ejemplos.reloj in
  let us := [(Some "p1", 12)] in
  isOnline w = true /\ Tablas.averias (remote w) = []
  /\ NoDup (map id (Tablas.t_productos (remote w))) /\ NoDup (map fst us)
  /\ Forall (Entrega.enTabla (Tablas.t_productos (remote w))) us
  /\ fst (updateMultipleStock us w) = Returned true
  /\ map stock (Tablas.t_productos (remote (snd (updateMultipleStock us w)))) = [-2].
Proof.
  intros w us.
  assert (H1 : NoDup (map id (Tablas.t_productos (remote w)))) by (repeat constructor; intros []).
  assert (H2 : NoDup (map fst us)) by (repeat constructor; intros []).
  assert (H3 : Forall (Entrega.enTabla (Tablas.t_productos (remote w))) us).
  { repeat constructor. exists (Ejemplos.pan 10). reflexivity. }
  destruct (stock_is_taken_line_by_line w us eq_refl eq_refl H1 H2 H3) as (G1 & G2 & _).
  split; [reflexivity|]. split; [reflexivity|]. split; [exact H1|]. split; [exact H2|].
  split; [exact H3|]. split; [exact G1|].
  rewrite G2. reflexivity.
Defined.

(** The pending order of two loaves, ten in stock, delivered with the
    network up: eight loaves left, one sale, the order completado and the
    list of pending orders empty. *)
Lemma delivery_witness :
  let w := Ejemplos.mundo_entrega_con_red in
  let w' := snd (POS.confirmarEntrega "o2" true w) in
  In Ejemplos.pedido_pendiente (Tablas.t_pedidos (remote w))
  /\ Forall (Entrega.enTabla (Tablas.t_productos (remote w)))
            (POS.actualizacionesDe [Ejemplos.dos_panes])
  /\ fst (POS.confirmarEntrega "o2" true w) = Returned tt
  /\ map stock (Tablas.t_productos (remote w')) = [8]
  /\ List.length (Tablas.t_ventas (remote w')) = 1%nat
  /\ map estado (Tablas.t_pedidos (remote w')) = ["completado"]
  /\ pos_pedidos w' = [].
Proof.
  intros w w'.
  assert (H1 : In Ejemplos.pedido_pendiente (Tablas.t_pedidos (remote w)))
    by (left; reflexivity).
  assert (H2 : Forall (Entrega.enTabla (Tablas.t_productos (remote w)))
                 (POS.actualizacionesDe [Ejemplos.dos_panes])).
  { repeat constructor. exists (Ejemplos.pan 10). reflexivity. }
  assert (Hne : "o2" <> "") by discriminate.
  assert (N1 : NoDup (map pedido_id (Tablas.t_pedidos (remote w))))
    by (repeat constructor; intros []).
  assert (N2 : NoDup (map id (Tablas.t_productos (remote w))))
    by (repeat constructor; intros []).
  assert (N3 : NoDup (map linea_id [Ejemplos.dos_panes]))
    by (repeat constructor; intros []).
  destruct (delivery_completes_order_on_store w "o2" Ejemplos.pedido_pendiente
              [Ejemplos.dos_panes] eq_refl eq_refl Hne N1 H1 eq_refl eq_refl eq_refl eq_refl
              N2 N3 H2) as (G1 & G2 & G3 & G4 & _ & G6 & _).
  fold w' in G2, G3, G4, G6.
  split; [exact H1|]. split; [exact H2|]. split; [exact G1|].
  split; [rewrite G2; reflexivity|]. split; [rewrite G3; reflexivity|].
  split; [rewrite G4; reflexivity|].
  rewrite G6. unfold Entrega.listaPendientes. rewrite G4. reflexivity.
Defined.

(** ** From the cart of the customer to the list of the point of sale *)

Section PedidoFacts.

Import Pedidos Catalogo Entrega.

Ltac run :=
  cbv [bind gets modify ret throw try_catch await data_or_throw console_error_ mostrar
       getFromLocalStorage saveToLocalStorage]; cbn.


End PedidoFacts.


(** ** Deliveries that do not start *)

Section NoEntregaFacts.

Context {R : Type} {S : Supabase R}.

Ltac run :=
  cbv [bind gets modify ret throw try_catch await data_or_throw console_error_ mostrar]; cbn.

(** X25.  Deliveries that do not start.  [confirmarEntrega] looks the
    order up in the list of [getPedidosPendientes]; offline, or when the
    query is rejected or answered with an error, that list is empty, so the
    operator is told that the order was not found, as for an order that is
    not pending, and nothing is written.  When the operator declines the
    confirmation the list has been read and nothing else happens.  In none
    of these cases is anything added to the pending queue or shown but
    that one message. *)
Theorem delivery_not_started (w : World R) (pedidoId : string) (confirma : bool) :
  let r := POS.confirmarEntrega pedidoId confirma w in
  (isOnline w = false ->
     r = (Returned tt, add_mensaje ("Pedido no encontrado", "error") w))
  /\ (isOnline w = true ->
      forall pedidos,
        (match fst (exec SelectPedidosPendientes (remote w)) with
         | Resolves (WithData d) => d
         | _ => []
         end) = pedidos ->
        (find (fun p => id_eqb (pedido_id p) (Some pedidoId)) pedidos = None ->
           fst r = Returned tt
           /\ sent (snd r) = sent w ++ [sentOf SelectPedidosPendientes]
           /\ mensajes (snd r) = mensajes w ++ [("Pedido no encontrado", "error")]
           /\ localStorage (snd r) = localStorage w)
        /\ (confirma = false ->
            fst r = Returned tt
            /\ sent (snd r) = sent w ++ [sentOf SelectPedidosPendientes]
            /\ localStorage (snd r) = localStorage w
            /\ (mensajes (snd r) = mensajes w
                \/ mensajes (snd r) = mensajes w ++ [("Pedido no encontrado", "error")]))).
Proof.
  intros r. subst r. split.
  - intros Hoff. unfold POS.confirmarEntrega, getPedidosPendientes. run. rewrite Hoff. reflexivity.
  - intros Hon pedidos Hp. unfold POS.confirmarEntrega, getPedidosPendientes. run.
    rewrite Hon. run.
    destruct (exec SelectPedidosPendientes (remote w)) as [[e|[e|d]] r']; cbn in *; subst pedidos.
    + split; [intros _; repeat split; reflexivity|].
      intros _. repeat split; auto.
    + split; [intros _; repeat split; reflexivity|].
      intros _. repeat split; auto.
    + split.
      * intros Hf. rewrite Hf. cbn. repeat split; reflexivity.
      * intros ->. destruct (find _ d); cbn; repeat split; auto.
Qed.

(** X26.  Loading the products fails silently.  [cargarProductos], of the
    point of sale and of the catalogue alike, returns without throwing and
    shows no message whatever happens to the query; when the query is
    rejected or answered with an error the page gets the products of the
    mirror (for the catalogue, those with stock), and the one trace of the
    failure is the entry that [getProductos] logs. *)
Theorem product_loading_fails_silently (w : World R) :
  let p := POS.cargarProductos w in
  let c := CatalogoCliente.cargarProductos w in
  fst p = Returned tt /\ fst c = Returned tt
  /\ mensajes (snd p) = mensajes w /\ mensajes (snd c) = mensajes w
  /\ (isOnline w = true ->
      forall e, (fst (exec SelectProductos (remote w)) = Rejects e
                 \/ fst (exec SelectProductos (remote w)) = Resolves (WithError e)) ->
      pos_productos (snd p) = espejo w
      /\ catalogo_productos (snd c) = filter (fun q => 0 <? stock q) (espejo w)
      /\ console_error (snd p)
           = console_error w ++ [("Error al obtener productos de Supabase:", e)]
      /\ console_error (snd c)
           = console_error w ++ [("Error al obtener productos de Supabase:", e)]
      /\ localStorage (snd p) = localStorage w).
Proof.
  intros p c. subst p c.
  unfold POS.cargarProductos, CatalogoCliente.cargarProductos, getProductos.
  cbv [bind gets modify ret throw try_catch await data_or_throw console_error_ mostrar
       getFromLocalStorage saveToLocalStorage]; cbn.
  destruct (isOnline w) eqn:Hon; cbn.
  - destruct (exec SelectProductos (remote w)) as [[e|[e|d]] r']; cbn;
      (split; [reflexivity|]); (split; [reflexivity|]); (split; [reflexivity|]);
      (split; [reflexivity|]); intros _ e' [HH|HH]; inversion HH; subst;
      repeat split; reflexivity.
  - do 4 (split; [reflexivity|]). intros HH; discriminate HH.
Qed.

End NoEntregaFacts.

(** ** Replay against the reference store *)

Section ReplayStoreFacts.

Lemma rechazos_averias (qs : list Sent) : forall (t : Tablas.Tablas),
  Tablas.averias t = [] ->
  Tablas.averias (snd (rechazos qs t)) = [] /\ fst (rechazos qs t) = [].
Proof.
  induction qs as [|[A q] qs IH]; intros t Hav; cbn [rechazos]; [auto|].
  rewrite (exec_sin_averias A q t Hav).
  assert (Hav' : Tablas.averias (snd (Tablas.responder String.leb q t)) = [])
    by (rewrite responder_averias; exact Hav).
  destruct (IH _ Hav') as [H1 H2].
  destruct (rechazos qs (snd (Tablas.responder String.leb q t))) as [es r]. cbn in *.
  auto.
Qed.

(** X27.  A queued stock update overwrites the store.  With the network
    up, when the last change of the pending queue is an update of the
    stock of a product to [n], the replay leaves every product of the table
    that has that identifier with a stock of [n], whatever the store held
    for it and whatever the changes before did, logs no error and empties
    the queue: the stock that was computed offline wins. *)
Theorem replayed_stock_update_overwrites_store
    (w : World Tablas.Tablas) (antes : list PendingChange) (pid : option string) (n t : Z) :
  isOnline w = true ->
  Tablas.averias (remote w) = [] ->
  pendientes w = antes ++ [ {| operation := "update"; data := DataStock pid n;
                               timestamp := t |} ] ->
  let w' := snd (syncPendingChanges w) in
  Forall (fun q => id q = pid -> stock q = n) (Tablas.t_productos (remote w'))
  /\ pendientes w' = []
  /\ console_error w' = console_error w.
Proof.
  intros Hon Hav Hq w'. subst w'.
  destruct (syncPendingChanges_sweep w Hon) as (_ & _ & Hce & Hr & Hp & _).
  cbv zeta in *. rewrite Hq, flat_map_app in Hr, Hce.
  rewrite rechazos_app in Hr, Hce. cbn [fst snd] in Hr, Hce.
  destruct (rechazos_averias (flat_map consultaDe antes) (remote w) Hav) as [Hav1 He1].
  set (t1 := snd (rechazos (flat_map consultaDe antes) (remote w))) in *.
  assert (Hlast : rechazos (flat_map consultaDe
                              [ {| operation := "update"; data := DataStock pid n;
                                   timestamp := t |} ]) t1
                  = ([], Tablas.with_productos
                           (map (fun q => if id_eqb (id q) pid then with_stock n q else q)
                                (Tablas.t_productos t1)) t1)).
  { cbn [flat_map consultaDe operation data data_id app rechazos String.eqb Ascii.eqb
         Bool.eqb].
    cbn. rewrite (exec_sin_averias _ (ReplayUpdate (DataStock pid n) pid) t1 Hav1).
    reflexivity. }
  rewrite Hlast in Hr, Hce. cbn [fst snd] in Hr, Hce.
  split; [|split; [exact Hp|]].
  - rewrite Hr. cbn [Tablas.t_productos Tablas.with_productos].
    apply Forall_forall. intros q Hin Hid. apply in_map_iff in Hin.
    destruct Hin as (q0 & Hq0 & _).
    destruct (id_eqb (id q0) pid) eqn:E; subst q.
    + reflexivity.
    + cbn in Hid. rewrite Hid, id_eqb_refl in E. discriminate.
  - rewrite Hce, He1. cbn. now rewrite app_nil_r.
Qed.

End ReplayStoreFacts.

(** The store holds four loaves; an update to seven, queued offline, is
    replayed: seven loaves. *)
Lemma replayed_stock_witness :
  let w := set_localStorage
             {| PRODUCTOS_KEY := None; LAST_SYNC_KEY := None;
                PENDING_CHANGES_KEY :=
                  Some [ {| operation := "update"; data := DataStock (Some "p1") 7;
                            timestamp := 1704100000500 |} ];
                CARRITO_KEY := None |} Ejemplos.mundo_con_pan in
  isOnline w = true /\ Tablas.averias (remote w) = []
  /\ map stock (Tablas.t_productos (remote w)) = [4]
  /\ Forall (fun q => id q = Some "p1" -> stock q = 7)
            (Tablas.t_productos (remote (snd (syncPendingChanges w))))
  /\ map stock (Tablas.t_productos (remote (snd (syncPendingChanges w)))) = [7].
Proof.
  intros w.
  destruct (replayed_stock_update_overwrites_store w [] (Some "p1") 7 1704100000500
              eq_refl eq_refl eq_refl) as (H1 & _).
  split; [reflexivity|]. split; [reflexivity|]. split; [reflexivity|].
  split; [exact H1 | reflexivity].
Defined.

(** ** The sale against the reference store *)

Section VentaStoreFacts.

Import Caja CajaInv Venta.
Variable formatCurrency : Q -> string.







End VentaStoreFacts.

